(** * Meister ProPR testbed backend: the job lifecycle engine

    A shallow embedding of the two dummy review backends of the repository,
    the plain-HTTP one (CommonJS) and the TLS-capable one (TypeScript,
    [testbed/backend.ts]): the in-memory job store, the two-timer scheduler,
    the request router with its shared-secret check, the list ordering and
    the certificate manager.

    The JavaScript runtime is modelled as far as the code relies on it:
    JSON values and property reads, [Map] with its insertion order, the
    stable [Array.prototype.sort], [parseInt], [Math.min], and the timer
    queue of Node.js with the delay normalisation of [setTimeout].

    The second half of the definitions embeds the extension's side: the
    HTTP client, the pull-request picker and the review button of the
    review panel, the polling loop, and the settings over the testbed's
    data manager. *)

From Stdlib Require Import ZArith QArith Qround List String Ascii Bool Lia.
From Stdlib Require Import Permutation Sorted.
Import ListNotations.

Local Open Scope string_scope.
Local Open Scope Z_scope.
Local Set Warnings "-register-all".

(** ** JavaScript values and the runtime functions the backends call *)

Module Js.

(** A JavaScript value as [JSON.parse] builds it, plus [undefined], which a
    property read yields for a key the object does not have.  An object is
    its list of own properties in insertion order, one entry per key. *)
Inductive value : Type :=
| Undefined
| Null
| Bool (b : bool)
| Num (q : Q)
| Str (s : string)
| Arr (items : list value)
| Obj (props : list (string * value)).

(** The outcome of evaluating an expression: a value, or a thrown error. *)
Inductive completion (A : Type) : Type :=
| Normal (a : A)
| Throw (e : string).
Arguments Normal {A} a.
Arguments Throw {A} e.

Definition bind {A B} (c : completion A) (k : A -> completion B) : completion B :=
  match c with
  | Normal a => k a
  | Throw e => Throw e
  end.

Fixpoint assoc (k : string) (props : list (string * value)) : value :=
  match props with
  | [] => Undefined
  | (k', v) :: rest => if String.eqb k k' then v else assoc k rest
  end.

(** [o[k]] for a key that no prototype defines (the request field names):
    an own property of an object, [undefined] on every other value, and a
    TypeError on [null] and [undefined]. *)
Definition getProp (o : value) (k : string) : completion value :=
  match o with
  | Null => Throw "TypeError: Cannot read properties of null"
  | Undefined => Throw "TypeError: Cannot read properties of undefined"
  | Obj props => Normal (assoc k props)
  | _ => Normal Undefined
  end.

(** Whether [String(v)], which a template literal applies to [v], throws a
    TypeError.  It does on an object that has an own property [toString]:
    no value [JSON.parse] builds can be called, and the inherited [valueOf]
    returns the object itself.  An array is joined, its elements converted
    in turn, [null] and [undefined] read as empty. *)
Fixpoint toStringThrows (v : value) : bool :=
  match v with
  | Arr items => existsb toStringThrows items
  | Obj props => existsb (fun kv => String.eqb (fst kv) "toString") props
  | _ => false
  end.

(** [v == null]: true on [null] and [undefined] only. *)
Definition looseEqNull (v : value) : bool :=
  match v with
  | Undefined | Null => true
  | _ => false
  end.

(** [xs.join(sep)] on an array of strings. *)
Fixpoint join (sep : string) (xs : list string) : string :=
  match xs with
  | [] => ""
  | [x] => x
  | x :: rest => x ++ sep ++ join sep rest
  end.

(** A number that is an integer or NaN ([None]), as [parseInt] returns it. *)
Definition int := option Z.

(** A number that is a rational or NaN ([None]); the literal [0.33] is the
    rational 33/100. *)
Definition num := option Q.

Definition isDigit (c : ascii) : bool :=
  let n := nat_of_ascii c in (48 <=? n)%nat && (n <=? 57)%nat.

Definition digitVal (c : ascii) : Z := Z.of_nat (nat_of_ascii c) - 48.

(** White space skipped by [parseInt]: tab, line feed, vertical tab, form
    feed, carriage return and space. *)
Definition isWhite (c : ascii) : bool :=
  let n := nat_of_ascii c in ((9 <=? n)%nat && (n <=? 13)%nat) || (n =? 32)%nat.

Fixpoint trimStart (s : string) : string :=
  match s with
  | String c rest => if isWhite c then trimStart rest else s
  | EmptyString => s
  end.

(** The longest prefix of decimal digits, read as a number; [acc] is the
    value read so far, [None] while no digit was seen. *)
Fixpoint readDigits (s : string) (acc : int) : int :=
  match s with
  | String c rest =>
      if isDigit c
      then readDigits rest (Some (10 * match acc with Some a => a | None => 0 end + digitVal c))
      else acc
  | EmptyString => acc
  end.

(** [parseInt(s, 10)] on text whose leading white space is ASCII and whose
    digits give an integer a double holds exactly, as the decimal texts of
    port numbers, delays and pull request ids do. *)
Definition parseInt (s : string) : int :=
  match trimStart s with
  | String "-" rest => option_map Z.opp (readDigits rest None)
  | String "+" rest => readDigits rest None
  | t => readDigits t None
  end.

(** [a ?? b] on an environment variable. *)
Definition orElse (a : option string) (b : string) : string :=
  match a with
  | Some x => x
  | None => b
  end.

Definition ofInt (n : int) : num := option_map inject_Z n.

Definition mul (a b : num) : num :=
  match a, b with
  | Some x, Some y => Some (x * y)%Q
  | _, _ => None
  end.

(** [Math.min(a, b)]: NaN as soon as one argument is. *)
Definition Math_min (a b : num) : num :=
  match a, b with
  | Some x, Some y => Some (if Qle_bool x y then x else y)
  | _, _ => None
  end.

End Js.

(** ** [Map]: keyed entries in insertion order *)

Module JsMap.

Definition t (V : Type) : Type := list (string * V).

Definition empty {V} : t V := [].

Fixpoint get {V} (m : t V) (k : string) : option V :=
  match m with
  | [] => None
  | (k', v) :: rest => if String.eqb k k' then Some v else get rest k
  end.

(** [m.set(k, v)]: an existing key keeps its place, a new one goes last. *)
Fixpoint set {V} (m : t V) (k : string) (v : V) : t V :=
  match m with
  | [] => [(k, v)]
  | (k', v') :: rest =>
      if String.eqb k k' then (k', v) :: rest else (k', v') :: set rest k v
  end.

Definition keys {V} (m : t V) : list string := map fst m.

(** [[...m.values()]]. *)
Definition values {V} (m : t V) : list V := map snd m.

End JsMap.

(** ** [Array.prototype.sort]

    The sort is stable (ECMAScript 2019).  [cmp a b] is the sign of the
    comparator's result; an element goes before the first one it does not
    compare greater than, which keeps equal elements in their order. *)

Module JsArray.

Fixpoint insert {A} (cmp : A -> A -> comparison) (x : A) (l : list A) : list A :=
  match l with
  | [] => [x]
  | y :: rest =>
      match cmp x y with
      | Gt => y :: insert cmp x rest
      | _ => x :: l
      end
  end.

Fixpoint sort {A} (cmp : A -> A -> comparison) (l : list A) : list A :=
  match l with
  | [] => []
  | x :: rest => insert cmp x (sort cmp rest)
  end.

End JsArray.

(** [a.localeCompare(b)] on the timestamps of [toISOString]: these have one
    fixed layout, on which collation order and code-unit order agree. *)
Definition localeCompare (a b : string) : comparison := String.compare a b.

(** ** Data model *)

Inductive JobStatus : Type := pending | processing | completed | failed.

Definition JobStatus_string (s : JobStatus) : string :=
  match s with
  | pending => "pending"
  | processing => "processing"
  | completed => "completed"
  | failed => "failed"
  end.

Inductive Severity : Type := sev_error | sev_warning | sev_suggestion | sev_info.

Record ReviewComment : Type := {
  filePath : option string;
  lineNumber : option Z;
  severity : Severity;
  message : string
}.

Record ReviewResult : Type := {
  summary : string;
  comments : list ReviewComment
}.

(** A job record.  The five request fields are declared as strings and
    numbers in the TypeScript source and are copied unchecked from the
    request body, so they hold whatever value the body carried. *)
Record Job : Type := {
  jobId : string;
  status : JobStatus;
  organizationUrl : Js.value;
  projectId : Js.value;
  repositoryId : Js.value;
  pullRequestId : Js.value;
  iterationId : Js.value;
  submittedAt : string;
  completedAt : option string;
  result : option ReviewResult;
  error : option string
}.

(** The environment variables read at start-up. *)
Record Config : Type := {
  PORT : Js.int;
  CLIENT_KEY : string;
  SIMULATE : string;
  DELAY_MS : Js.int
}.

Definition Env : Type := string -> option string.

Definition loadConfig (env : Env) : Config := {|
  PORT := Js.parseInt (Js.orElse (env "PORT") "31001");
  CLIENT_KEY := Js.orElse (env "CLIENT_KEY") "test-client-key";
  SIMULATE := Js.orElse (env "SIMULATE") "success";
  DELAY_MS := Js.parseInt (Js.orElse (env "DELAY_MS") "6000")
|}.

Definition emptyEnv : Env := fun _ => None.

(** ** The timer queue

    The two closures [scheduleJob] hands to [setTimeout], by the job they
    look up. *)
Inductive Callback : Type :=
| ToProcessing (jobId : string)
| ToTerminal (jobId : string).

(** An armed timer: its handle (handles grow with every call), the delay as
    the caller passed it, and the loop time at which it is due. *)
Record Timer : Type := {
  timerId : nat;
  requested : Js.num;
  due : Z;
  callback : Callback
}.

(** The process state: the job store, the armed timers in arming order, the
    next timer handle and the event loop's clock in milliseconds. *)
Record State : Type := {
  jobs : JsMap.t Job;
  timers : list Timer;
  nextTimer : nat;
  clock : Z
}.

Definition initialState : State :=
  {| jobs := JsMap.empty; timers := []; nextTimer := 0%nat; clock := 0 |}.

Definition TIMEOUT_MAX : Z := 2147483647.

(** The delay a Node.js timer runs with: [after] when it lies in
    1..TIMEOUT_MAX, truncated to an integer, and 1 when it is smaller,
    larger or NaN. *)
Definition timerDelay (after : Js.num) : Z :=
  match after with
  | Some q =>
      if Qle_bool 1 q && Qle_bool q (inject_Z TIMEOUT_MAX) then Qfloor q else 1
  | None => 1
  end.

(** [setTimeout(cb, after)]. *)
Definition setTimeout (cb : Callback) (after : Js.num) (st : State) : State :=
  {| jobs := jobs st;
     timers := timers st ++
       [{| timerId := nextTimer st; requested := after;
           due := clock st + timerDelay after; callback := cb |}];
     nextTimer := S (nextTimer st);
     clock := clock st |}.

(** The timer that is due first, and among timers due at the same time the
    one armed first: the timer a loop that is never late runs next. *)
Fixpoint earliest (ts : list Timer) : option Timer :=
  match ts with
  | [] => None
  | t :: rest =>
      match earliest rest with
      | Some u => if due u <? due t then Some u else Some t
      | None => Some t
      end
  end.

Definition clearTimer (id : nat) (ts : list Timer) : list Timer :=
  filter (fun t => negb (Nat.eqb (timerId t) id)) ts.

(** The armed timer with handle [id]. *)
Definition findTimer (id : nat) (ts : list Timer) : option Timer :=
  find (fun t => Nat.eqb (timerId t) id) ts.

(** ** Requests and responses *)

(** An incoming request: the method; what [new URL(req.url, base)] makes of
    the request target, the path of the parsed URL or the TypeError the
    constructor throws (as it does on the target [//]); the [origin] and
    [x-client-key] headers; and what [JSON.parse] makes of the payload
    ([None] when it throws). *)
Record Request : Type := {
  method : string;
  pathname : Js.completion string;
  origin : option string;
  x_client_key : option string;
  payload : option Js.value
}.

(** What was written to the response: the status, the headers set, and
    the value handed to [JSON.stringify] ([None] for an empty body). *)
Record Response : Type := {
  statusCode : Z;
  headers : list (string * string);
  body : option Js.value
}.

(** A handler either sends a response or dies of an uncaught error. *)
Inductive Outcome : Type :=
| Sent (r : Response)
| Uncaught (e : string).

Definition dquote : string := String (ascii_of_nat 34) EmptyString.

(** ** Patterns of the origin allow-lists and of the router *)

Fixpoint stripPrefix (p s : string) : option string :=
  match p with
  | EmptyString => Some s
  | String a p' =>
      match s with
      | String b s' => if Ascii.eqb a b then stripPrefix p' s' else None
      | EmptyString => None
      end
  end.

Fixpoint allChars (f : ascii -> bool) (s : string) : bool :=
  match s with
  | EmptyString => true
  | String c rest => f c && allChars f rest
  end.

Definition nonEmpty (s : string) : bool :=
  match s with
  | EmptyString => false
  | String _ _ => true
  end.

(** [[a-z0-9-]]. *)
Definition isLabelChar (c : ascii) : bool :=
  let n := nat_of_ascii c in
  ((97 <=? n)%nat && (n <=? 122)%nat) || Js.isDigit c || (n =? 45)%nat.

(** [localhost(:\d+)?$]. *)
Definition localhostTail (r : string) : bool :=
  match stripPrefix "localhost" r with
  | Some EmptyString => true
  | Some (String ":" d) => nonEmpty d && allChars Js.isDigit d
  | _ => false
  end.

(** [[a-z0-9-]+\.SUFFIX$]; [seen] tells whether a label character was read. *)
Fixpoint labelDotThen (suffix r : string) (seen : bool) : bool :=
  match r with
  | EmptyString => false
  | String c rest =>
      if isLabelChar c then labelDotThen suffix rest true
      else if Ascii.eqb c "." then seen && String.eqb rest suffix
      else false
  end.

(** [([a-z0-9-]+\.)?SUFFIX$]. *)
Definition optLabelThen (suffix r : string) : bool :=
  String.eqb r suffix || labelDotThen suffix r false.

(** [/^\/reviews\/([^/]+)$/]: the captured job id. *)
Definition pollMatch (path : string) : option string :=
  match stripPrefix "/reviews/" path with
  | Some id =>
      if nonEmpty id && allChars (fun c => negb (Ascii.eqb c "/")) id
      then Some id else None
  | None => None
  end.

(** ** Field assignments on a job record *)

Definition set_status (j : Job) (s : JobStatus) : Job :=
  {| jobId := jobId j; status := s;
     organizationUrl := organizationUrl j; projectId := projectId j;
     repositoryId := repositoryId j; pullRequestId := pullRequestId j;
     iterationId := iterationId j; submittedAt := submittedAt j;
     completedAt := completedAt j; result := result j; error := error j |}.

Definition set_error (j : Job) (e : option string) : Job :=
  {| jobId := jobId j; status := status j;
     organizationUrl := organizationUrl j; projectId := projectId j;
     repositoryId := repositoryId j; pullRequestId := pullRequestId j;
     iterationId := iterationId j; submittedAt := submittedAt j;
     completedAt := completedAt j; result := result j; error := e |}.

Definition set_result (j : Job) (r : option ReviewResult) : Job :=
  {| jobId := jobId j; status := status j;
     organizationUrl := organizationUrl j; projectId := projectId j;
     repositoryId := repositoryId j; pullRequestId := pullRequestId j;
     iterationId := iterationId j; submittedAt := submittedAt j;
     completedAt := completedAt j; result := r; error := error j |}.

Definition set_completedAt (j : Job) (t : option string) : Job :=
  {| jobId := jobId j; status := status j;
     organizationUrl := organizationUrl j; projectId := projectId j;
     repositoryId := repositoryId j; pullRequestId := pullRequestId j;
     iterationId := iterationId j; submittedAt := submittedAt j;
     completedAt := t; result := result j; error := error j |}.

Definition set_jobs (st : State) (js : JsMap.t Job) : State :=
  {| jobs := js; timers := timers st; nextTimer := nextTimer st; clock := clock st |}.

(** ** Response shaping shared by both backends' object literals *)

Definition Severity_string (s : Severity) : string :=
  match s with
  | sev_error => "error"
  | sev_warning => "warning"
  | sev_suggestion => "suggestion"
  | sev_info => "info"
  end.

Definition strOrNull (s : option string) : Js.value :=
  match s with
  | Some x => Js.Str x
  | None => Js.Null
  end.

Definition numOrNull (n : option Z) : Js.value :=
  match n with
  | Some x => Js.Num (inject_Z x)
  | None => Js.Null
  end.

Definition commentValue (c : ReviewComment) : Js.value :=
  Js.Obj [("filePath", strOrNull (filePath c));
          ("lineNumber", numOrNull (lineNumber c));
          ("severity", Js.Str (Severity_string (severity c)));
          ("message", Js.Str (message c))].

Definition resultValue (r : option ReviewResult) : Js.value :=
  match r with
  | Some x => Js.Obj [("summary", Js.Str (summary x));
                      ("comments", Js.Arr (map commentValue (comments x)))]
  | None => Js.Null
  end.

(** [{...o}]: the own properties of an object. *)
Definition spread (o : Js.value) : list (string * Js.value) :=
  match o with
  | Js.Obj props => props
  | _ => []
  end.

Notation "x <- c ;; k" := (Js.bind c (fun x => k))
  (at level 61, c at next level, right associativity).

(** ** The TLS-capable backend ([testbed/backend.ts]) *)

Module BackendTs.

Definition MOCK_SUCCESS_RESULT : ReviewResult := {|
  summary :=
    "Overall this PR is well-structured and the intent is clear. There are a few issues " ++
    "worth addressing before merging — one potential runtime error, a security concern, " ++
    "and a couple of suggestions to improve maintainability.";
  comments := [
    {| filePath := Some "src/auth/login.ts";
       lineNumber := Some 42;
       severity := sev_error;
       message := "Unhandled promise rejection: the async call on this line lacks a try/catch. " ++
                  "If the network request fails, the error will be swallowed silently." |};
    {| filePath := Some "src/auth/login.ts";
       lineNumber := Some 67;
       severity := sev_warning;
       message := "Sensitive data (access token) is written to the console on this line. " ++
                  "Remove or guard behind a debug flag before deploying to production." |};
    {| filePath := Some "src/components/UserProfile.tsx";
       lineNumber := Some 15;
       severity := sev_suggestion;
       message := "This component re-renders on every parent update. " ++
                  "Wrapping it with React.memo() would avoid unnecessary renders when props have not changed." |};
    {| filePath := Some "src/utils/formatDate.ts";
       lineNumber := None;
       severity := sev_suggestion;
       message := "Consider using Intl.DateTimeFormat instead of a hand-rolled date formatter — " ++
                  "it handles locale and timezone differences automatically." |};
    {| filePath := None;
       lineNumber := None;
       severity := sev_info;
       message := "Test coverage for the authentication module looks thorough. " ++
                  "The new login flow is well-structured and the happy path is fully exercised." |}
  ]
|}.

Definition MOCK_FAIL_ERROR : string :=
  "The AI agent could not complete the review: unable to retrieve the diff for pull request " ++
  "(simulated failure — set SIMULATE=success to test the success path).".

(** The first closure of [scheduleJob]: pending to processing.  The record
    found in the store is assigned to in place. *)
Definition onProcessing (jobId : string) (js : JsMap.t Job) : JsMap.t Job :=
  match JsMap.get js jobId with
  | Some job => JsMap.set js jobId (set_status job processing)
  | None => js
  end.

(** The second closure of [scheduleJob]: processing to completed or failed;
    [now] is [new Date().toISOString()]. *)
Definition onTerminal (cfg : Config) (jobId now : string) (js : JsMap.t Job)
  : JsMap.t Job :=
  match JsMap.get js jobId with
  | None => js
  | Some job =>
      if String.eqb (SIMULATE cfg) "fail"
      then JsMap.set js jobId
             (set_completedAt
                (set_error (set_status job failed) (Some MOCK_FAIL_ERROR))
                (Some now))
      else JsMap.set js jobId
             (set_completedAt
                (set_result (set_status job completed) (Some MOCK_SUCCESS_RESULT))
                (Some now))
  end.

Definition runCallback (cfg : Config) (cb : Callback) (now : string)
  (js : JsMap.t Job) : JsMap.t Job :=
  match cb with
  | ToProcessing id => onProcessing id js
  | ToTerminal id => onTerminal cfg id now js
  end.

Definition processingDelay (cfg : Config) : Js.num :=
  Js.Math_min (Some (inject_Z 2000)) (Js.mul (Js.ofInt (DELAY_MS cfg)) (Some (33 # 100))).

Definition scheduleJob (cfg : Config) (jobId : string) (st : State) : State :=
  let st1 := setTimeout (ToProcessing jobId) (processingDelay cfg) st in
  setTimeout (ToTerminal jobId) (Js.ofInt (DELAY_MS cfg)) st1.

(** [uuid] is what [randomUUID()] returns and [now] what
    [new Date().toISOString()] returns. *)
Definition makeJob (cfg : Config) (request : Js.value) (uuid now : string)
  (st : State) : Js.completion (Job * State) :=
  organizationUrl <- Js.getProp request "organizationUrl" ;;
  projectId <- Js.getProp request "projectId" ;;
  repositoryId <- Js.getProp request "repositoryId" ;;
  pullRequestId <- Js.getProp request "pullRequestId" ;;
  iterationId <- Js.getProp request "iterationId" ;;
  let job := {|
    jobId := uuid;
    status := pending;
    organizationUrl := organizationUrl;
    projectId := projectId;
    repositoryId := repositoryId;
    pullRequestId := pullRequestId;
    iterationId := iterationId;
    submittedAt := now;
    completedAt := None;
    result := None;
    error := None |} in
  let st1 := set_jobs st (JsMap.set (jobs st) uuid job) in
  Js.Normal (job, scheduleJob cfg uuid st1).

Definition jobToListItem (job : Job) : Js.value :=
  Js.Obj [("jobId", Js.Str (jobId job));
          ("status", Js.Str (JobStatus_string (status job)));
          ("organizationUrl", organizationUrl job);
          ("projectId", projectId job);
          ("repositoryId", repositoryId job);
          ("pullRequestId", pullRequestId job);
          ("iterationId", iterationId job);
          ("submittedAt", Js.Str (submittedAt job));
          ("completedAt", strOrNull (completedAt job))].

Definition jobToStatusResponse (job : Job) : Js.value :=
  Js.Obj (spread (jobToListItem job) ++
          [("result", resultValue (result job)); ("error", strOrNull (error job))]).

Definition ALLOWED_ORIGINS : list (string -> bool) := [
  (* /^https?:\/\/localhost(:\d+)?$/ *)
  (fun o => match stripPrefix "https://" o with
            | Some r => localhostTail r
            | None => match stripPrefix "http://" o with
                      | Some r => localhostTail r
                      | None => false
                      end
            end);
  (* /^https:\/\/([a-z0-9-]+\.)?dev\.azure\.com$/ *)
  (fun o => match stripPrefix "https://" o with
            | Some r => optLabelThen "dev.azure.com" r
            | None => false
            end);
  (* /^https:\/\/([a-z0-9-]+\.)?visualstudio\.com$/ *)
  (fun o => match stripPrefix "https://" o with
            | Some r => optLabelThen "visualstudio.com" r
            | None => false
            end);
  (* /^https:\/\/[a-z0-9-]+\.gallerycdn\.vsassets\.io$/ *)
  (fun o => match stripPrefix "https://" o with
            | Some r => labelDotThen "gallerycdn.vsassets.io" r false
            | None => false
            end)
].

Definition isOriginAllowed (origin : string) : bool :=
  nonEmpty origin && existsb (fun re => re origin) ALLOWED_ORIGINS.

Definition setCorsHeaders (origin : string) (isPreflight : bool)
  : list (string * string) :=
  let allowed := if isOriginAllowed origin then origin else "http://localhost:3000" in
  [("Access-Control-Allow-Origin", allowed);
   ("Access-Control-Allow-Methods", "GET, POST, OPTIONS");
   ("Access-Control-Allow-Headers", "Content-Type, X-Client-Key, X-Ado-Token");
   ("Vary", "Origin")] ++
  (if isPreflight then [("Access-Control-Allow-Private-Network", "true")] else []).

(** The payload parsed, or the empty object when parsing throws. *)
Definition readBody (req : Request) : Js.value :=
  match payload req with
  | Some v => v
  | None => Js.Obj []
  end.

(** [hdrs] are the headers set on the response so far. *)
Definition send (hdrs : list (string * string)) (status : Z) (body : Js.value)
  : Response :=
  {| statusCode := status;
     headers := hdrs ++ [("Content-Type", "application/json")];
     body := Some body |}.

(** [None] when the key is accepted (the source returns [true]); otherwise
    the 401 response it has sent (the source returns [false]). *)
Definition checkAuth (cfg : Config) (req : Request) (hdrs : list (string * string))
  : option Response :=
  let rejected :=
    Some (send hdrs 401
            (Js.Obj [("error", Js.Str ("Invalid or missing X-Client-Key. Expected: " ++
                                        dquote ++ CLIENT_KEY cfg ++ dquote))])) in
  match x_client_key req with
  | Some key => if String.eqb key (CLIENT_KEY cfg) then None else rejected
  | None => rejected
  end.

Definition required : list string :=
  ["organizationUrl"; "projectId"; "repositoryId"; "pullRequestId"; "iterationId"].

(** [ks.filter(k => body[k] == null)]. *)
Fixpoint filterMissing (body : Js.value) (ks : list string)
  : Js.completion (list string) :=
  match ks with
  | [] => Js.Normal []
  | k :: rest =>
      v <- Js.getProp body k ;;
      missing <- filterMissing body rest ;;
      Js.Normal (if Js.looseEqNull v then k :: missing else missing)
  end.

(** The routes behind the preflight answer, for the path of the parsed
    request target.  Of the console output only what can throw is kept:
    the line logged between [makeJob] and the 202 puts the job's
    [pullRequestId] into a template literal, and dies of a TypeError when
    that value has no string form, with the job already stored and its
    timers armed.  The line logged before the 200 of a poll holds two
    strings and cannot throw. *)
Definition route (cfg : Config) (req : Request) (hdrs : list (string * string))
  (pathname uuid now : string) (st : State) : Outcome * State :=
  if String.eqb (method req) "POST" && String.eqb pathname "/reviews" then
    match checkAuth cfg req hdrs with
    | Some r => (Sent r, st)
    | None =>
        let body := readBody req in
        match filterMissing body required with
        | Js.Throw e => (Uncaught e, st)
        | Js.Normal ((_ :: _) as missing) =>
            (Sent (send hdrs 422
                     (Js.Obj [("error", Js.Str ("Missing required fields: " ++
                                                 Js.join ", " missing))])), st)
        | Js.Normal [] =>
            match makeJob cfg body uuid now st with
            | Js.Throw e => (Uncaught e, st)
            | Js.Normal (job, st') =>
                if Js.toStringThrows (pullRequestId job)
                then (Uncaught "TypeError: Cannot convert object to primitive value", st')
                else (Sent (send hdrs 202 (Js.Obj [("jobId", Js.Str (jobId job))])), st')
            end
        end
    end
  else if String.eqb (method req) "GET" && String.eqb pathname "/reviews" then
    match checkAuth cfg req hdrs with
    | Some r => (Sent r, st)
    | None =>
        let list :=
          map jobToListItem
            (JsArray.sort
               (fun a b => localeCompare (submittedAt b) (submittedAt a))
               (JsMap.values (jobs st))) in
        (Sent (send hdrs 200 (Js.Arr list)), st)
    end
  else
    match (if String.eqb (method req) "GET" then pollMatch pathname else None) with
    | Some jobId =>
        match checkAuth cfg req hdrs with
        | Some r => (Sent r, st)
        | None =>
            match JsMap.get (jobs st) jobId with
            | None =>
                (Sent (send hdrs 404
                         (Js.Obj [("error", Js.Str ("Job not found: " ++ jobId))])), st)
            | Some job => (Sent (send hdrs 200 (jobToStatusResponse job)), st)
            end
        end
    | None => (Sent (send hdrs 404 (Js.Obj [("error", Js.Str "Not found")])), st)
    end.

(** The router: the CORS headers, the preflight answer, then the request
    target is parsed, which may throw, and the routes follow.  The second
    component is the state when the handler returns or throws. *)
Definition handleRequest (cfg : Config) (req : Request) (uuid now : string)
  (st : State) : Outcome * State :=
  let origin := Js.orElse (origin req) "" in
  let isPreflight := String.eqb (method req) "OPTIONS" in
  let hdrs := setCorsHeaders origin isPreflight in
  if isPreflight then
    (Sent {| statusCode := 204; headers := hdrs; body := None |}, st)
  else
    match pathname req with
    | Js.Throw e => (Uncaught e, st)
    | Js.Normal pathname => route cfg req hdrs pathname uuid now st
    end.

End BackendTs.

(** ** The plain-HTTP backend (CommonJS) *)

Module BackendJs.

Definition MOCK_SUCCESS_RESULT : ReviewResult := {|
  summary :=
    "Overall this PR is well-structured and the intent is clear. There are a few issues " ++
    "worth addressing before merging — one potential runtime error, a security concern, " ++
    "and a couple of suggestions to improve maintainability.";
  comments := [
    {| filePath := Some "src/auth/login.ts";
       lineNumber := Some 42;
       severity := sev_error;
       message := "Unhandled promise rejection: the async call on this line lacks a try/catch. " ++
                  "If the network request fails, the error will be swallowed silently." |};
    {| filePath := Some "src/auth/login.ts";
       lineNumber := Some 67;
       severity := sev_warning;
       message := "Sensitive data (access token) is written to the console on this line. " ++
                  "Remove or guard behind a debug flag before deploying to production." |};
    {| filePath := Some "src/components/UserProfile.tsx";
       lineNumber := Some 15;
       severity := sev_suggestion;
       message := "This component re-renders on every parent update. " ++
                  "Wrapping it with React.memo() would avoid unnecessary renders when props have not changed." |};
    {| filePath := Some "src/utils/formatDate.ts";
       lineNumber := None;
       severity := sev_suggestion;
       message := "Consider using Intl.DateTimeFormat instead of a hand-rolled date formatter — " ++
                  "it handles locale and timezone differences automatically." |};
    {| filePath := None;
       lineNumber := None;
       severity := sev_info;
       message := "Test coverage for the authentication module looks thorough. " ++
                  "The new login flow is well-structured and the happy path is fully exercised." |}
  ]
|}.

Definition MOCK_FAIL_ERROR : string :=
  "The AI agent could not complete the review: unable to retrieve the diff for pull request " ++
  "(simulated failure — set SIMULATE=success to test the success path).".

(** pending to processing *)
Definition onProcessing (jobId : string) (js : JsMap.t Job) : JsMap.t Job :=
  match JsMap.get js jobId with
  | Some job => JsMap.set js jobId (set_status job processing)
  | None => js
  end.

(** processing to completed | failed *)
Definition onTerminal (cfg : Config) (jobId now : string) (js : JsMap.t Job)
  : JsMap.t Job :=
  match JsMap.get js jobId with
  | None => js
  | Some job =>
      if String.eqb (SIMULATE cfg) "fail"
      then JsMap.set js jobId
             (set_completedAt
                (set_error (set_status job failed) (Some MOCK_FAIL_ERROR))
                (Some now))
      else JsMap.set js jobId
             (set_completedAt
                (set_result (set_status job completed) (Some MOCK_SUCCESS_RESULT))
                (Some now))
  end.

Definition runCallback (cfg : Config) (cb : Callback) (now : string)
  (js : JsMap.t Job) : JsMap.t Job :=
  match cb with
  | ToProcessing id => onProcessing id js
  | ToTerminal id => onTerminal cfg id now js
  end.

Definition processingDelay (cfg : Config) : Js.num :=
  Js.Math_min (Some (inject_Z 2000)) (Js.mul (Js.ofInt (DELAY_MS cfg)) (Some (33 # 100))).

(** The [request] argument is not used by the body. *)
Definition scheduleJob (cfg : Config) (jobId : string) (request : Js.value)
  (st : State) : State :=
  let st1 := setTimeout (ToProcessing jobId) (processingDelay cfg) st in
  setTimeout (ToTerminal jobId) (Js.ofInt (DELAY_MS cfg)) st1.

Definition makeJob (cfg : Config) (request : Js.value) (uuid now : string)
  (st : State) : Js.completion (Job * State) :=
  organizationUrl <- Js.getProp request "organizationUrl" ;;
  projectId <- Js.getProp request "projectId" ;;
  repositoryId <- Js.getProp request "repositoryId" ;;
  pullRequestId <- Js.getProp request "pullRequestId" ;;
  iterationId <- Js.getProp request "iterationId" ;;
  let job := {|
    jobId := uuid;
    status := pending;
    organizationUrl := organizationUrl;
    projectId := projectId;
    repositoryId := repositoryId;
    pullRequestId := pullRequestId;
    iterationId := iterationId;
    submittedAt := now;
    completedAt := None;
    result := None;
    error := None |} in
  let st1 := set_jobs st (JsMap.set (jobs st) uuid job) in
  Js.Normal (job, scheduleJob cfg uuid request st1).

Definition jobToListItem (job : Job) : Js.value :=
  Js.Obj [("jobId", Js.Str (jobId job));
          ("status", Js.Str (JobStatus_string (status job)));
          ("organizationUrl", organizationUrl job);
          ("projectId", projectId job);
          ("repositoryId", repositoryId job);
          ("pullRequestId", pullRequestId job);
          ("iterationId", iterationId job);
          ("submittedAt", Js.Str (submittedAt job));
          ("completedAt", strOrNull (completedAt job))].

Definition jobToStatusResponse (job : Job) : Js.value :=
  Js.Obj (spread (jobToListItem job) ++
          [("result", resultValue (result job)); ("error", strOrNull (error job))]).

(** Allow the testbed origin and any [http://localhost] port:
    [/^http:\/\/localhost(:\d+)?$/]. *)
Definition setCorsHeaders (origin : string) : list (string * string) :=
  let allowed :=
    if nonEmpty origin &&
       match stripPrefix "http://" origin with
       | Some r => localhostTail r
       | None => false
       end
    then origin else "http://localhost:3000" in
  [("Access-Control-Allow-Origin", allowed);
   ("Access-Control-Allow-Methods", "GET, POST, OPTIONS");
   ("Access-Control-Allow-Headers", "Content-Type, X-Client-Key, X-Ado-Token");
   ("Vary", "Origin")].

Definition readBody (req : Request) : Js.value :=
  match payload req with
  | Some v => v
  | None => Js.Obj []
  end.

Definition send (hdrs : list (string * string)) (status : Z) (body : Js.value)
  : Response :=
  {| statusCode := status;
     headers := hdrs ++ [("Content-Type", "application/json")];
     body := Some body |}.

Definition checkAuth (cfg : Config) (req : Request) (hdrs : list (string * string))
  : option Response :=
  let rejected :=
    Some (send hdrs 401
            (Js.Obj [("error", Js.Str ("Invalid or missing X-Client-Key. Expected: " ++
                                        dquote ++ CLIENT_KEY cfg ++ dquote))])) in
  match x_client_key req with
  | Some key => if String.eqb key (CLIENT_KEY cfg) then None else rejected
  | None => rejected
  end.

Definition required : list string :=
  ["organizationUrl"; "projectId"; "repositoryId"; "pullRequestId"; "iterationId"].

Fixpoint filterMissing (body : Js.value) (ks : list string)
  : Js.completion (list string) :=
  match ks with
  | [] => Js.Normal []
  | k :: rest =>
      v <- Js.getProp body k ;;
      missing <- filterMissing body rest ;;
      Js.Normal (if Js.looseEqNull v then k :: missing else missing)
  end.

(** The routes behind the preflight answer.  The line logged between
    [makeJob] and the 202 reads [body.pullRequestId] into a template
    literal, which throws when the value has no string form. *)
Definition route (cfg : Config) (req : Request) (hdrs : list (string * string))
  (pathname uuid now : string) (st : State) : Outcome * State :=
  if String.eqb (method req) "POST" && String.eqb pathname "/reviews" then
    match checkAuth cfg req hdrs with
    | Some r => (Sent r, st)
    | None =>
        let body := readBody req in
        (* Basic request validation *)
        match filterMissing body required with
        | Js.Throw e => (Uncaught e, st)
        | Js.Normal ((_ :: _) as missing) =>
            (Sent (send hdrs 422
                     (Js.Obj [("error", Js.Str ("Missing required fields: " ++
                                                 Js.join ", " missing))])), st)
        | Js.Normal [] =>
            match makeJob cfg body uuid now st with
            | Js.Throw e => (Uncaught e, st)
            | Js.Normal (job, st') =>
                match Js.getProp body "pullRequestId" with
                | Js.Throw e => (Uncaught e, st')
                | Js.Normal pullRequestId =>
                    if Js.toStringThrows pullRequestId
                    then (Uncaught "TypeError: Cannot convert object to primitive value",
                          st')
                    else (Sent (send hdrs 202 (Js.Obj [("jobId", Js.Str (jobId job))])),
                          st')
                end
            end
        end
    end
  else if String.eqb (method req) "GET" && String.eqb pathname "/reviews" then
    match checkAuth cfg req hdrs with
    | Some r => (Sent r, st)
    | None =>
        let list :=
          map jobToListItem
            (JsArray.sort
               (fun a b => localeCompare (submittedAt b) (submittedAt a))
               (JsMap.values (jobs st))) in
        (Sent (send hdrs 200 (Js.Arr list)), st)
    end
  else
    match (if String.eqb (method req) "GET" then pollMatch pathname else None) with
    | Some jobId =>
        match checkAuth cfg req hdrs with
        | Some r => (Sent r, st)
        | None =>
            match JsMap.get (jobs st) jobId with
            | None =>
                (Sent (send hdrs 404
                         (Js.Obj [("error", Js.Str ("Job not found: " ++ jobId))])), st)
            | Some job => (Sent (send hdrs 200 (jobToStatusResponse job)), st)
            end
        end
    | None => (Sent (send hdrs 404 (Js.Obj [("error", Js.Str "Not found")])), st)
    end.

Definition handleRequest (cfg : Config) (req : Request) (uuid now : string)
  (st : State) : Outcome * State :=
  let origin := Js.orElse (origin req) "" in
  let hdrs := setCorsHeaders origin in
  if String.eqb (method req) "OPTIONS" then
    (Sent {| statusCode := 204; headers := hdrs; body := None |}, st)
  else
    match pathname req with
    | Js.Throw e => (Uncaught e, st)
    | Js.Normal pathname => route cfg req hdrs pathname uuid now st
    end.

End BackendJs.

(** ** The event loop

    One process runs one of the two backends. *)
Inductive Variant : Type := PlainHttp | Tls.

Definition handleRequest (v : Variant)
  : Config -> Request -> string -> string -> State -> Outcome * State :=
  match v with
  | PlainHttp => BackendJs.handleRequest
  | Tls => BackendTs.handleRequest
  end.

Definition runCallback (v : Variant)
  : Config -> Callback -> string -> JsMap.t Job -> JsMap.t Job :=
  match v with
  | PlainHttp => BackendJs.runCallback
  | Tls => BackendTs.runCallback
  end.

(** The layout of [randomUUID()]: 36 characters, hyphens at 8, 13, 18 and
    23, lower-case hexadecimal digits elsewhere. *)
Definition isHex (c : ascii) : bool :=
  let n := nat_of_ascii c in Js.isDigit c || ((97 <=? n)%nat && (n <=? 102)%nat).

Fixpoint uuidFrom (i : nat) (s : string) : bool :=
  match s with
  | EmptyString => Nat.eqb i 36
  | String c rest =>
      (if Nat.eqb i 8 || Nat.eqb i 13 || Nat.eqb i 18 || Nat.eqb i 23
       then Ascii.eqb c "-" else isHex c) && uuidFrom (S i) rest
  end.

Definition isUUID (s : string) : bool := uuidFrom 0 s.

(** What the loop runs next, at loop time [at_]: a request handler, with
    the identifier and the wall-clock reading it would draw, or the armed
    timer with handle [id], with the reading its callback would draw. *)
Inductive Event : Type :=
| Incoming (at_ : Z) (req : Request) (uuid now : string)
| TimerFires (at_ : Z) (id : nat) (now : string).

(** One turn of the loop.  Time does not run backwards; [randomUUID]
    yields a well-formed identifier that was not issued before.  A timer
    runs no earlier than it is due; which of the timers that are due runs
    first Node.js does not promise: a loop that is late may run a timer
    armed with a long delay before one armed with a short delay that was
    due earlier, so any armed timer that is due may be the next.  A
    handler that throws leaves an unhandled rejection, on which the
    process ends: there is no state to go on from.  [None] when the event
    cannot happen in this state, or ends the process. *)
Definition step (v : Variant) (cfg : Config) (st : State) (ev : Event)
  : option State :=
  match ev with
  | Incoming t req uuid now =>
      if (clock st <=? t) && isUUID uuid &&
         match JsMap.get (jobs st) uuid with None => true | Some _ => false end
      then
        let st0 := {| jobs := jobs st; timers := timers st;
                      nextTimer := nextTimer st; clock := t |} in
        match handleRequest v cfg req uuid now st0 with
        | (Sent _, st') => Some st'
        | (Uncaught _, _) => None
        end
      else None
  | TimerFires t id now =>
      match findTimer id (timers st) with
      | Some tm =>
          if (clock st <=? t) && (due tm <=? t)
          then Some {| jobs := runCallback v cfg (callback tm) now (jobs st);
                       timers := clearTimer (timerId tm) (timers st);
                       nextTimer := nextTimer st;
                       clock := t |}
          else None
      | None => None
      end
  end.

Fixpoint run (v : Variant) (cfg : Config) (st : State) (evs : list Event)
  : option State :=
  match evs with
  | [] => Some st
  | ev :: rest =>
      match step v cfg st ev with
      | Some st' => run v cfg st' rest
      | None => None
      end
  end.

Definition reachable (v : Variant) (cfg : Config) (st : State) : Prop :=
  exists evs, run v cfg initialState evs = Some st.

(** ** The certificate manager ([loadOrGenerateCert], TLS-capable backend only) *)

Module Cert.

(** An entry of [altNames]: [{type: 2, value}] or [{type: 7, ip}]. *)
Record AltName : Type := {
  altType : Z;
  altValue : option string;
  altIp : option string
}.

Record Extension : Type := {
  extName : string;
  altNames : list AltName
}.

(** The options object handed to [selfsigned.generate]. *)
Record Options : Type := {
  keySize : Z;
  days : Z;
  algorithm : string;
  extensions : list Extension
}.

Record Attribute : Type := {
  attrName : string;
  attrValue : string
}.

(** What [selfsigned.generate] returns, as far as it is read. *)
Record Pems : Type := {
  pemCert : string;
  pemPrivate : string
}.

(** What the function finds when it runs: the files, the X.509 parser, the
    date parser, the clock and the key generator.  A read, a write or the
    parser may throw; [writeFileSync w path data] tells whether a write to
    [path] returns or throws in the directory as found. *)
Record World : Type := {
  dirname : string;
  existsSync : string -> bool;
  readFileSync : string -> Js.completion string;
  writeFileSync : string -> string -> Js.completion unit;
  X509Certificate_validTo : string -> Js.completion string;
  Date_parse : string -> option Z;
  Date_now : Z;
  generate : list Attribute -> Options -> Pems
}.

(** A call of [fs.writeFileSync(path, data, {mode})] that returned.
    [mode] is the option of the call, not the mode of the file: a file the
    call creates gets it, a file that exists is overwritten and keeps the
    mode it has. *)
Record Write : Type := {
  path : string;
  data : string;
  mode : Z
}.

(** The permissions of a file once a write to it has returned: the mode
    option when the call created the file, its own mode, left as it was,
    when the file existed. *)
Inductive Permissions : Type :=
| CreatedWith (mode : Z)
| Kept.

Record Material : Type := {
  cert : string;
  key : string
}.

Definition path_join (dir file : string) : string := dir ++ "/" ++ file.

Definition CERT_FILE (w : World) : string := path_join (dirname w) "localhost-cert.pem".
Definition KEY_FILE (w : World) : string := path_join (dirname w) "localhost-key.pem".
Definition RENEW_BEFORE_DAYS : Z := 30.

(** [0o600]. *)
Definition mode_0o600 : Z := 6 * 8 * 8.

(** [a > b] on two dates, the first possibly invalid. *)
Definition dateGt (a : option Z) (b : Z) : bool :=
  match a with
  | Some x => b <? x
  | None => false
  end.

(** The body of the [try] block: [Some] when it returns the material,
    [None] when it runs to its end. *)
Definition tryReuse (w : World) : Js.completion (option Material) :=
  certPem <- readFileSync w (CERT_FILE w) ;;
  validToText <- X509Certificate_validTo w certPem ;;
  let validTo := Date_parse w validToText in
  let renewAfter := Date_now w + RENEW_BEFORE_DAYS * 24 * 60 * 60 * 1000 in
  if dateGt validTo renewAfter
  then
    keyPem <- readFileSync w (KEY_FILE w) ;;
    Js.Normal (Some {| cert := certPem; key := keyPem |})
  else Js.Normal None.

Definition attributes : list Attribute :=
  [{| attrName := "commonName"; attrValue := "localhost" |}].

Definition options : Options := {|
  keySize := 2048;
  days := 365;
  algorithm := "sha256";
  extensions := [
    {| extName := "subjectAltName";
       altNames := [
         {| altType := 2; altValue := Some "localhost"; altIp := None |};
         {| altType := 7; altValue := None; altIp := Some "127.0.0.1" |}
       ] |}
  ]
|}.

(** The material returned, or the error of the write that threw, and the
    writes that returned, in order: when the second write throws the
    certificate file is already overwritten. *)
Definition loadOrGenerateCert (w : World) : Js.completion Material * list Write :=
  let reused :=
    if existsSync w (CERT_FILE w) && existsSync w (KEY_FILE w)
    then match tryReuse w with
         | Js.Normal r => r
         | Js.Throw _ => None   (* catch: certificate unreadable *)
         end
    else None in
  match reused with
  | Some m => (Js.Normal m, [])
  | None =>
      let pems := generate w attributes options in
      let certWrite :=
        {| path := CERT_FILE w; data := pemCert pems; mode := mode_0o600 |} in
      let keyWrite :=
        {| path := KEY_FILE w; data := pemPrivate pems; mode := mode_0o600 |} in
      match writeFileSync w (CERT_FILE w) (pemCert pems) with
      | Js.Throw e => (Js.Throw e, [])
      | Js.Normal _ =>
          match writeFileSync w (KEY_FILE w) (pemPrivate pems) with
          | Js.Throw e => (Js.Throw e, [certWrite])
          | Js.Normal _ =>
              (Js.Normal {| cert := pemCert pems; key := pemPrivate pems |},
               [certWrite; keyWrite])
          end
      end
  end.

Definition permissionsAfter (w : World) (wr : Write) : Permissions :=
  if existsSync w (path wr) then Kept else CreatedWith (mode wr).

(** The condition for reuse as the specification words it: both files
    exist, the certificate parses, and its end of validity lies beyond now
    plus the renewal threshold. *)
Definition specReuse (w : World) : bool :=
  existsSync w (CERT_FILE w) && existsSync w (KEY_FILE w) &&
  match readFileSync w (CERT_FILE w) with
  | Js.Normal certPem =>
      match X509Certificate_validTo w certPem with
      | Js.Normal text =>
          dateGt (Date_parse w text) (Date_now w + 30 * 24 * 60 * 60 * 1000)
      | Js.Throw _ => false
      end
  | Js.Throw _ => false
  end.

Definition readable {A} (c : Js.completion A) : bool :=
  match c with
  | Js.Normal _ => true
  | Js.Throw _ => false
  end.

End Cert.

(** ** Vocabulary of the properties *)

(** [a] does not sort before [b]. *)
Definition notBefore (a b : string) : Prop := localeCompare a b <> Lt.

(** What a client sees of a handler's outcome: the status code and the
    body, or nothing when the handler died. *)
Definition observe (o : Outcome) : option (Z * option Js.value) :=
  match o with
  | Sent r => Some (statusCode r, body r)
  | Uncaught _ => None
  end.

(** The three job operations: submit, list, and get by identifier. *)
Definition isJobOperation (req : Request) : bool :=
  match pathname req with
  | Js.Normal pathname =>
      (String.eqb (method req) "POST" && String.eqb pathname "/reviews") ||
      (String.eqb (method req) "GET" &&
       (String.eqb pathname "/reviews" ||
        match pollMatch pathname with Some _ => true | None => false end))
  | Js.Throw _ => false
  end.

(** The body of the 401 response. *)
Definition unauthorized (cfg : Config) : Js.value :=
  Js.Obj [("error", Js.Str ("Invalid or missing X-Client-Key. Expected: " ++
                             dquote ++ CLIENT_KEY cfg ++ dquote))].

Definition isNone {A} (o : option A) : bool :=
  match o with
  | None => true
  | Some _ => false
  end.

Definition terminal (s : JobStatus) : bool :=
  match s with
  | completed | failed => true
  | pending | processing => false
  end.

(** The record invariant: no result, error or completion time before the
    job is terminal; afterwards a completion time and exactly the result
    (completed) or the error (failed). *)
Definition wellFormed (j : Job) : bool :=
  match status j with
  | pending | processing =>
      isNone (result j) && isNone (error j) && isNone (completedAt j)
  | completed =>
      negb (isNone (result j)) && isNone (error j) && negb (isNone (completedAt j))
  | failed =>
      isNone (result j) && negb (isNone (error j)) && negb (isNone (completedAt j))
  end.

Definition statusOf (st : State) (id : string) : option JobStatus :=
  option_map status (JsMap.get (jobs st) id).

(** How the status of one job may change over one event: it is created
    pending, goes from pending to processing and from processing to
    completed or failed, or stays. *)
Definition mayFollow (a b : option JobStatus) : bool :=
  match a, b with
  | None, None | None, Some pending => true
  | Some pending, Some pending | Some pending, Some processing => true
  | Some processing, Some processing
  | Some processing, Some completed | Some processing, Some failed => true
  | Some completed, Some completed | Some failed, Some failed => true
  | _, _ => false
  end.

(** The statuses of job [id] after each event of a run. *)
Fixpoint statusTrace (v : Variant) (cfg : Config) (st : State) (evs : list Event)
  (id : string) : list (option JobStatus) :=
  match evs with
  | [] => []
  | ev :: rest =>
      match step v cfg st ev with
      | Some st' => statusOf st' id :: statusTrace v cfg st' rest id
      | None => []
      end
  end.

(** What holds of a record whatever the order in which the timers run,
    in a process configured with [cfg].  Before the second timer of the job
    has run, the record is pending or processing and has no result, error
    or completion time.  Afterwards it has a completion time and, by the
    simulation mode, a result and no error or an error and no result; its
    status is the terminal one of that mode, or processing when the first
    timer ran after the second. *)
Definition consistent (cfg : Config) (j : Job) : bool :=
  let fails := String.eqb (SIMULATE cfg) "fail" in
  if isNone (completedAt j)
  then isNone (result j) && isNone (error j) && negb (terminal (status j))
  else
    match status j with
    | pending => false
    | processing => true
    | completed => negb fails
    | failed => fails
    end &&
    (if fails
     then isNone (result j) && negb (isNone (error j))
     else negb (isNone (result j)) && isNone (error j)).

(** The event is what a loop that is never late runs next: a timer event
    runs the timer that is due first, the one armed first among those due
    at the same time. *)
Definition onTime (st : State) (ev : Event) : bool :=
  match ev with
  | Incoming _ _ _ _ => true
  | TimerFires _ id _ =>
      match earliest (timers st) with
      | Some tm => Nat.eqb (timerId tm) id
      | None => false
      end
  end.

(** Every event of the run from [st] is on time. *)
Fixpoint inDueOrder (v : Variant) (cfg : Config) (st : State) (evs : list Event)
  : bool :=
  match evs with
  | [] => true
  | ev :: rest =>
      onTime st ev &&
      match step v cfg st ev with
      | Some st' => inDueOrder v cfg st' rest
      | None => true
      end
  end.

(** The fields set at creation. *)
Definition sameIdentity (a b : Job) : Prop :=
  jobId a = jobId b /\ submittedAt a = submittedAt b /\
  organizationUrl a = organizationUrl b /\ projectId a = projectId b /\
  repositoryId a = repositoryId b /\ pullRequestId a = pullRequestId b /\
  iterationId a = iterationId b.

(** Every job of [js] is still in [js'], with the fields set at creation
    unchanged. *)
Definition retains (js js' : JsMap.t Job) : Prop :=
  forall id j, JsMap.get js id = Some j ->
    exists j', JsMap.get js' id = Some j' /\ sameIdentity j j'.

(** The first timer of a job does not run with a longer delay than the
    second. *)
Definition timersInOrder (cfg : Config) : Prop :=
  timerDelay (BackendTs.processingDelay cfg) <= timerDelay (Js.ofInt (DELAY_MS cfg)).

Definition cbJob (cb : Callback) : string :=
  match cb with
  | ToProcessing id | ToTerminal id => id
  end.

(** What holds of one job and the timer queue between events: the record
    invariant; while the job is pending both its timers are armed, the first
    one earlier and due no later than the second; once it has left pending
    its first timer is gone, and once it is terminal its second one too. *)
Definition jobInv (ts : list Timer) (id : string) (j : Job) : Prop :=
  wellFormed j = true /\
  (status j = pending ->
   exists t1 t2, In t1 ts /\ In t2 ts /\
     callback t1 = ToProcessing id /\ callback t2 = ToTerminal id /\
     (timerId t1 < timerId t2)%nat /\ due t1 <= due t2) /\
  (status j <> pending ->
   forall t, In t ts -> callback t <> ToProcessing id) /\
  (terminal (status j) = true ->
   forall t, In t ts -> callback t <> ToTerminal id).

(** What holds of the process state between events: timer handles grow
    along the queue and lie below the next handle, no callback is armed
    twice, every armed callback belongs to a stored job, and every stored
    job satisfies [jobInv]. *)
Definition Inv (st : State) : Prop :=
  StronglySorted lt (map timerId (timers st)) /\
  Forall (fun t => (timerId t < nextTimer st)%nat) (timers st) /\
  NoDup (map callback (timers st)) /\
  (forall t, In t (timers st) -> JsMap.get (jobs st) (cbJob (callback t)) <> None) /\
  (forall id j, JsMap.get (jobs st) id = Some j -> jobInv (timers st) id j).

(** [DELAY_MS] is NaN or at most the largest delay a timer takes. *)
Definition delayFitsTimer (cfg : Config) : Prop :=
  match DELAY_MS cfg with
  | Some d => d <= TIMEOUT_MAX
  | None => True
  end.

(** The value a body holds under a key, [undefined] where the read throws. *)
Definition field (body : Js.value) (k : string) : Js.value :=
  match Js.getProp body k with
  | Js.Normal v => v
  | Js.Throw _ => Js.Undefined
  end.

(** The required keys a body lacks: absent, or null. *)
Definition missingOf (body : Js.value) : list string :=
  filter (fun k => Js.looseEqNull (field body k)) BackendTs.required.

(** ** Sample inputs *)

Definition sampleId1 : string := "123e4567-e89b-42d3-a456-426614174000".
Definition sampleId2 : string := "9b2e4d1c-0f3a-4c5b-8d7e-6f5a4b3c2d1e".
Definition sampleId3 : string := "0a1b2c3d-4e5f-4a6b-9c8d-7e6f5a4b3c2d".

(** The submission of the specification's concrete scenario. *)
Definition sampleBody : Js.value :=
  Js.Obj [("organizationUrl", Js.Str "https://dev.azure.com/acme/");
          ("projectId", Js.Str "p1");
          ("repositoryId", Js.Str "r1");
          ("pullRequestId", Js.Num (inject_Z 7));
          ("iterationId", Js.Num (inject_Z 1))].

(** A body whose required keys all hold values of the wrong type. *)
Definition oddBody : Js.value :=
  Js.Obj [("organizationUrl", Js.Num (inject_Z 5));
          ("projectId", Js.Str "");
          ("repositoryId", Js.Arr []);
          ("pullRequestId", Js.Bool false);
          ("iterationId", Js.Num (inject_Z 0))].

(** [POST /reviews] with the given key and parsed payload. *)
Definition submit (key : option string) (parsed : option Js.value) : Request :=
  {| method := "POST"; pathname := Js.Normal "/reviews"; origin := None;
     x_client_key := key; payload := parsed |}.

(** [GET /reviews]. *)
Definition listAll (key : option string) : Request :=
  {| method := "GET"; pathname := Js.Normal "/reviews"; origin := None;
     x_client_key := key; payload := None |}.

(** [GET /reviews/{id}]. *)
Definition poll (key : option string) (id : string) : Request :=
  {| method := "GET"; pathname := Js.Normal ("/reviews/" ++ id); origin := None;
     x_client_key := key; payload := None |}.

Definition defaultConfig : Config := loadConfig emptyEnv.

(** The process started with [DELAY_MS=3000000000]. *)
Definition overflowConfig : Config :=
  loadConfig (fun name => if String.eqb name "DELAY_MS" then Some "3000000000" else None).

(** The process started with [DELAY_MS=0], and with [DELAY_MS=100]. *)
Definition zeroConfig : Config :=
  loadConfig (fun name => if String.eqb name "DELAY_MS" then Some "0" else None).

Definition shortConfig : Config :=
  loadConfig (fun name => if String.eqb name "DELAY_MS" then Some "100" else None).

(** One submission, then the two timers of the job as they come due: the
    second one armed, with handle 1, and then the first, with handle 0. *)
Definition overflowRun : list Event :=
  [Incoming 0 (submit (Some "test-client-key") (Some sampleBody)) sampleId1
     "2024-05-01T10:00:00.000Z";
   TimerFires 1 1 "2024-05-01T10:00:00.001Z";
   TimerFires 2000 0 "2024-05-01T10:00:02.000Z"].

(** Three submissions, the last two within the same millisecond, and the
    first timer of the first job. *)
Definition sampleRun : list Event :=
  [Incoming 0 (submit (Some "test-client-key") (Some sampleBody)) sampleId1
     "2024-05-01T10:00:00.000Z";
   Incoming 500 (submit (Some "test-client-key") (Some oddBody)) sampleId2
     "2024-05-01T10:00:00.500Z";
   Incoming 500 (submit (Some "test-client-key") (Some sampleBody)) sampleId3
     "2024-05-01T10:00:00.500Z";
   TimerFires 1980 0 "2024-05-01T10:00:01.980Z"].

Definition sampleState : State :=
  match run Tls defaultConfig initialState sampleRun with
  | Some st => st
  | None => initialState
  end.

(** Two submissions under the default configuration and a loop that is
    late: the first job's first timer runs on time, the second job is
    submitted at 4100 ms, and the loop then comes back only at 10200 ms,
    when the second timers of both jobs (handles 1 and 3, armed with 6000
    ms, due at 6000 and 10100) run before the first timer of the second
    job (handle 2, armed with 1980 ms, due at 6080). *)
Definition lateRun : list Event :=
  [Incoming 0 (submit (Some "test-client-key") (Some sampleBody)) sampleId1
     "2024-05-01T10:00:00.000Z";
   TimerFires 1980 0 "2024-05-01T10:00:01.980Z";
   Incoming 4100 (submit (Some "test-client-key") (Some sampleBody)) sampleId2
     "2024-05-01T10:00:04.100Z";
   TimerFires 10200 1 "2024-05-01T10:00:10.200Z";
   TimerFires 10200 3 "2024-05-01T10:00:10.200Z";
   TimerFires 10200 2 "2024-05-01T10:00:10.200Z"].

(** A body that has the five keys, the pull request id being an object
    with an own property [toString]: [{"toString": 1}]. *)
Definition unprintableBody : Js.value :=
  Js.Obj [("organizationUrl", Js.Str "https://dev.azure.com/acme/");
          ("projectId", Js.Str "p1");
          ("repositoryId", Js.Str "r1");
          ("pullRequestId", Js.Obj [("toString", Js.Num (inject_Z 1))]);
          ("iterationId", Js.Num (inject_Z 1))].

(** A request whose target the URL constructor refuses, such as [GET //]. *)
Definition badTarget : Request :=
  {| method := "GET"; pathname := Js.Throw "TypeError: Invalid URL"; origin := None;
     x_client_key := Some "test-client-key"; payload := None |}.

(** A directory in which both files exist and the certificate is valid for
    years, but the key file cannot be read; it can be written (its mode is
    write-only). *)
Definition keyUnreadableWorld : Cert.World := {|
  Cert.dirname := "/testbed";
  Cert.existsSync := fun _ => true;
  Cert.readFileSync := fun p =>
    if String.eqb p "/testbed/localhost-cert.pem"
    then Js.Normal "OLD CERTIFICATE"
    else Js.Throw "EACCES: permission denied";
  Cert.writeFileSync := fun _ _ => Js.Normal tt;
  Cert.X509Certificate_validTo := fun _ => Js.Normal "Jan  1 00:00:00 2030 GMT";
  Cert.Date_parse := fun _ => Some 1893456000000;
  Cert.Date_now := 1714557600000;
  Cert.generate := fun _ _ =>
    {| Cert.pemCert := "NEW CERTIFICATE"; Cert.pemPrivate := "NEW KEY" |}
|}.

(** The same directory with a key file that can be neither read nor
    written. *)
Definition keyLockedWorld : Cert.World := {|
  Cert.dirname := "/testbed";
  Cert.existsSync := fun _ => true;
  Cert.readFileSync := fun p =>
    if String.eqb p "/testbed/localhost-cert.pem"
    then Js.Normal "OLD CERTIFICATE"
    else Js.Throw "EACCES: permission denied";
  Cert.writeFileSync := fun p _ =>
    if String.eqb p "/testbed/localhost-cert.pem"
    then Js.Normal tt
    else Js.Throw "EACCES: permission denied";
  Cert.X509Certificate_validTo := fun _ => Js.Normal "Jan  1 00:00:00 2030 GMT";
  Cert.Date_parse := fun _ => Some 1893456000000;
  Cert.Date_now := 1714557600000;
  Cert.generate := fun _ _ =>
    {| Cert.pemCert := "NEW CERTIFICATE"; Cert.pemPrivate := "NEW KEY" |}
|}.

(** ** Vocabulary for the routes and the CORS policies *)

(** [res.getHeader(name)] on the headers set. *)
Fixpoint header (name : string) (hdrs : list (string * string)) : option string :=
  match hdrs with
  | [] => None
  | (n, v) :: rest => if String.eqb name n then Some v else header name rest
  end.

(** The origins each backend echoes in [Access-Control-Allow-Origin]; the
    plain-HTTP backend tests its pattern inline. *)
Definition originAllowed (v : Variant) (o : string) : bool :=
  match v with
  | PlainHttp =>
      nonEmpty o &&
      match stripPrefix "http://" o with
      | Some r => localhostTail r
      | None => false
      end
  | Tls => BackendTs.isOriginAllowed o
  end.

(** A non-empty run of [[a-z0-9-]], and a non-empty run of digits. *)
Definition isLabel (l : string) : Prop := l <> "" /\ allChars isLabelChar l = true.
Definition isPort (d : string) : Prop := d <> "" /\ allChars Js.isDigit d = true.

(** The language of the four patterns of [ALLOWED_ORIGINS]. *)
Inductive AllowedOrigin : string -> Prop :=
| AoLocalhost (scheme : string) :
    scheme = "http://" \/ scheme = "https://" ->
    AllowedOrigin (scheme ++ "localhost")
| AoLocalhostPort (scheme d : string) :
    scheme = "http://" \/ scheme = "https://" -> isPort d ->
    AllowedOrigin (scheme ++ "localhost:" ++ d)
| AoAzure : AllowedOrigin "https://dev.azure.com"
| AoAzureSub (l : string) :
    isLabel l -> AllowedOrigin ("https://" ++ l ++ ".dev.azure.com")
| AoVisualStudio : AllowedOrigin "https://visualstudio.com"
| AoVisualStudioSub (l : string) :
    isLabel l -> AllowedOrigin ("https://" ++ l ++ ".visualstudio.com")
| AoGallery (l : string) :
    isLabel l -> AllowedOrigin ("https://" ++ l ++ ".gallerycdn.vsassets.io").

(** * The extension's side

    ** Numbers as text, and substrings *)

Module JsText.

Definition MAX_SAFE_INTEGER : Z := 9007199254740991.

Definition digitChar (d : Z) : ascii := ascii_of_nat (Z.to_nat (48 + d)).

(** The decimal digits of [n >= 0] in front of [tail]; [fuel] bounds their
    number. *)
Fixpoint decimalFrom (fuel : nat) (n : Z) (tail : string) : string :=
  match fuel with
  | O => tail
  | S f =>
      let tail' := String (digitChar (n mod 10)) tail in
      if n <? 10 then tail' else decimalFrom f (n / 10) tail'
  end.

Definition decimal (n : Z) : string :=
  decimalFrom (S (Z.to_nat (Z.log2 n))) n "".

(** [String(n)], also what a template literal puts for [n]: the decimal
    digits of an integer (of magnitude below 10^21, where the exponent
    notation starts), and [NaN]. *)
Definition ofInt (n : Js.int) : string :=
  match n with
  | None => "NaN"
  | Some z => if z <? 0 then "-" ++ decimal (- z) else decimal z
  end.

Definition startsWith (s p : string) : bool :=
  match stripPrefix p s with
  | Some _ => true
  | None => false
  end.

(** [s.includes(q)]. *)
Fixpoint includes (s q : string) : bool :=
  startsWith s q ||
  match s with
  | String _ rest => includes rest q
  | EmptyString => false
  end.

(** [!!v] on a JSON value. *)
Definition truthy (v : Js.value) : bool :=
  match v with
  | Js.Undefined | Js.Null => false
  | Js.Bool b => b
  | Js.Num q => negb (Qeq_bool q 0)
  | Js.Str s => nonEmpty s
  | Js.Arr _ | Js.Obj _ => true
  end.

(** [s.replace(/\/$/, '')]: one trailing slash removed. *)
Fixpoint dropTrailingSlash (s : string) : string :=
  match s with
  | EmptyString => EmptyString
  | String c rest =>
      if Ascii.eqb c "/" && negb (nonEmpty rest) then EmptyString
      else String c (dropTrailingSlash rest)
  end.

End JsText.

(** ** The HTTP client (src/api/reviewClient.ts)

    Each function makes one axios call and returns the body of the answer;
    the call is what the model keeps. *)

Module ReviewClient.

Record Call : Type := {
  verb : string;
  url : string;
  callHeaders : list (string * string);
  data : option Js.value
}.

Definition submitReview (backendUrl clientKey adoToken : string) (request : Js.value)
  : Call :=
  let base := JsText.dropTrailingSlash backendUrl in
  {| verb := "POST";
     url := base ++ "/reviews";
     callHeaders := [("X-Client-Key", clientKey);
                     ("X-Ado-Token", adoToken);
                     ("Content-Type", "application/json")];
     data := Some request |}.

Definition getReviewStatus (backendUrl clientKey jobId : string) : Call :=
  let base := JsText.dropTrailingSlash backendUrl in
  {| verb := "GET";
     url := base ++ "/reviews/" ++ jobId;
     callHeaders := [("X-Client-Key", clientKey)];
     data := None |}.

Definition listReviews (backendUrl clientKey : string) : Call :=
  let base := JsText.dropTrailingSlash backendUrl in
  {| verb := "GET";
     url := base ++ "/reviews";
     callHeaders := [("X-Client-Key", clientKey)];
     data := None |}.

End ReviewClient.

(** ** The review panel (src/review/review.ts)

    The pull-request picker and the review button.  The state holds the
    closure variables of [main] and the parts of the page the handlers read
    or write; each handler is one step.  [filterAndRender] is asynchronous:
    it runs up to its [await] in the step that calls it, and its remainder
    runs in a later step, when the pull requests have arrived; other
    handlers may run in between. *)

Module ReviewPanel.

(** The two string functions of the host whose result depends on Unicode
    tables. *)
Record Host : Type := {
  toLowerCase : string -> string;
  trim : string -> string
}.

(** An entry of the cache.  The id of a pull request is an integer: the
    TypeScript type is [number], the ids Azure DevOps issues are whole
    numbers, and the panel is modelled for those.  A number with a
    fraction, or one of magnitude 1e21 or more, which prints in exponent
    form, would not come back from the item's attribute through
    [parseInt] as it went in. *)
Record PrItem : Type := {
  pullRequestId : Z;
  title : string
}.

(** A pull request as [getPullRequests] returns it. *)
Record RawPr : Type := {
  raw_pullRequestId : option Z;
  raw_title : option string
}.

(** A child of the dropdown list: a status line, or a selectable item with
    its two attributes, its text, whether it has the class
    [autocomplete-focused], and the pull request its [mousedown] listener
    closes over. *)
Inductive Li : Type :=
| StatusLi (textContent : string)
| PrLi (pr : PrItem) (data_pr_id data_pr_title textContent : string) (focused : bool).

Record Panel : Type := {
  repoValue : string;               (* repoSelect.value *)
  searchValue : string;             (* prSearch.value *)
  searchDisabled : bool;            (* prSearch.disabled *)
  selectedPrId : option Js.int;     (* null is None *)
  prCache : option (list PrItem);
  prCacheRepoId : option string;
  dropdownFocusIndex : Z;
  hidden : bool;                    (* prDropdown.hidden *)
  children : list Li;               (* prDropdown's children *)
  inflight : list string;           (* the queries of the calls of
                                       filterAndRender that wait for
                                       getPullRequests *)
  debounce : bool;                  (* prSearchDebounce is armed *)
  blurTimers : nat                  (* closeDropdown timers armed by blur *)
}.

Definition set_repoValue (p : Panel) (x : string) : Panel :=
  {| repoValue := x; searchValue := searchValue p; searchDisabled := searchDisabled p;
     selectedPrId := selectedPrId p; prCache := prCache p;
     prCacheRepoId := prCacheRepoId p; dropdownFocusIndex := dropdownFocusIndex p;
     hidden := hidden p; children := children p; inflight := inflight p;
     debounce := debounce p; blurTimers := blurTimers p |}.

Definition set_searchValue (p : Panel) (x : string) : Panel :=
  {| repoValue := repoValue p; searchValue := x; searchDisabled := searchDisabled p;
     selectedPrId := selectedPrId p; prCache := prCache p;
     prCacheRepoId := prCacheRepoId p; dropdownFocusIndex := dropdownFocusIndex p;
     hidden := hidden p; children := children p; inflight := inflight p;
     debounce := debounce p; blurTimers := blurTimers p |}.

Definition set_searchDisabled (p : Panel) (x : bool) : Panel :=
  {| repoValue := repoValue p; searchValue := searchValue p; searchDisabled := x;
     selectedPrId := selectedPrId p; prCache := prCache p;
     prCacheRepoId := prCacheRepoId p; dropdownFocusIndex := dropdownFocusIndex p;
     hidden := hidden p; children := children p; inflight := inflight p;
     debounce := debounce p; blurTimers := blurTimers p |}.

Definition set_selectedPrId (p : Panel) (x : option Js.int) : Panel :=
  {| repoValue := repoValue p; searchValue := searchValue p;
     searchDisabled := searchDisabled p;
     selectedPrId := x; prCache := prCache p;
     prCacheRepoId := prCacheRepoId p; dropdownFocusIndex := dropdownFocusIndex p;
     hidden := hidden p; children := children p; inflight := inflight p;
     debounce := debounce p; blurTimers := blurTimers p |}.

Definition set_prCache (p : Panel) (x : option (list PrItem)) : Panel :=
  {| repoValue := repoValue p; searchValue := searchValue p;
     searchDisabled := searchDisabled p;
     selectedPrId := selectedPrId p; prCache := x;
     prCacheRepoId := prCacheRepoId p; dropdownFocusIndex := dropdownFocusIndex p;
     hidden := hidden p; children := children p; inflight := inflight p;
     debounce := debounce p; blurTimers := blurTimers p |}.

Definition set_prCacheRepoId (p : Panel) (x : option string) : Panel :=
  {| repoValue := repoValue p; searchValue := searchValue p;
     searchDisabled := searchDisabled p;
     selectedPrId := selectedPrId p; prCache := prCache p;
     prCacheRepoId := x; dropdownFocusIndex := dropdownFocusIndex p;
     hidden := hidden p; children := children p; inflight := inflight p;
     debounce := debounce p; blurTimers := blurTimers p |}.

Definition set_dropdownFocusIndex (p : Panel) (x : Z) : Panel :=
  {| repoValue := repoValue p; searchValue := searchValue p;
     searchDisabled := searchDisabled p;
     selectedPrId := selectedPrId p; prCache := prCache p;
     prCacheRepoId := prCacheRepoId p; dropdownFocusIndex := x;
     hidden := hidden p; children := children p; inflight := inflight p;
     debounce := debounce p; blurTimers := blurTimers p |}.

Definition set_hidden (p : Panel) (x : bool) : Panel :=
  {| repoValue := repoValue p; searchValue := searchValue p;
     searchDisabled := searchDisabled p;
     selectedPrId := selectedPrId p; prCache := prCache p;
     prCacheRepoId := prCacheRepoId p; dropdownFocusIndex := dropdownFocusIndex p;
     hidden := x; children := children p; inflight := inflight p;
     debounce := debounce p; blurTimers := blurTimers p |}.

Definition set_children (p : Panel) (x : list Li) : Panel :=
  {| repoValue := repoValue p; searchValue := searchValue p;
     searchDisabled := searchDisabled p;
     selectedPrId := selectedPrId p; prCache := prCache p;
     prCacheRepoId := prCacheRepoId p; dropdownFocusIndex := dropdownFocusIndex p;
     hidden := hidden p; children := x; inflight := inflight p;
     debounce := debounce p; blurTimers := blurTimers p |}.

Definition set_inflight (p : Panel) (x : list string) : Panel :=
  {| repoValue := repoValue p; searchValue := searchValue p;
     searchDisabled := searchDisabled p;
     selectedPrId := selectedPrId p; prCache := prCache p;
     prCacheRepoId := prCacheRepoId p; dropdownFocusIndex := dropdownFocusIndex p;
     hidden := hidden p; children := children p; inflight := x;
     debounce := debounce p; blurTimers := blurTimers p |}.

Definition set_debounce (p : Panel) (x : bool) : Panel :=
  {| repoValue := repoValue p; searchValue := searchValue p;
     searchDisabled := searchDisabled p;
     selectedPrId := selectedPrId p; prCache := prCache p;
     prCacheRepoId := prCacheRepoId p; dropdownFocusIndex := dropdownFocusIndex p;
     hidden := hidden p; children := children p; inflight := inflight p;
     debounce := x; blurTimers := blurTimers p |}.

Definition set_blurTimers (p : Panel) (x : nat) : Panel :=
  {| repoValue := repoValue p; searchValue := searchValue p;
     searchDisabled := searchDisabled p;
     selectedPrId := selectedPrId p; prCache := prCache p;
     prCacheRepoId := prCacheRepoId p; dropdownFocusIndex := dropdownFocusIndex p;
     hidden := hidden p; children := children p; inflight := inflight p;
     debounce := debounce p; blurTimers := x |}.

(** What running a handler leaves: the state, the error it threw if it
    did, and whether it called [preventDefault]. *)
Record Handled : Type := {
  after : Panel;
  thrown : option string;
  defaultPrevented : bool
}.

Definition done (p : Panel) : Handled :=
  {| after := p; thrown := None; defaultPrevented := false |}.

Definition prevent (h : Handled) : Handled :=
  {| after := after h; thrown := thrown h; defaultPrevented := true |}.

Definition isPrLi (li : Li) : bool :=
  match li with
  | PrLi _ _ _ _ _ => true
  | StatusLi _ => false
  end.

(** [querySelectorAll('li[data-pr-id]')]. *)
Definition getDropdownItems (p : Panel) : list Li := filter isPrLi (children p).

(** [items[i]] for an integer [i]: [None] is [undefined]. *)
Definition at_ {A} (items : list A) (i : Z) : option A :=
  if i <? 0 then None else nth_error items (Z.to_nat i).

Definition openDropdown (p : Panel) : Panel := set_hidden p false.

Definition closeDropdown (p : Panel) : Panel :=
  set_dropdownFocusIndex (set_hidden p true) (-1).

(** The [forEach] of [updateDropdownFocus]: [i] is the index, among the
    selectable items, of the next one. *)
Fixpoint toggleFocused (focus : Z) (i : Z) (lis : list Li) : list Li :=
  match lis with
  | [] => []
  | StatusLi t :: rest => StatusLi t :: toggleFocused focus i rest
  | PrLi pr a b t _ :: rest => PrLi pr a b t (i =? focus) :: toggleFocused focus (i + 1) rest
  end.

(** Scrolling does not change the state; reading [scrollIntoView] off
    [undefined] throws. *)
Definition updateDropdownFocus (p : Panel) : Handled :=
  let items := getDropdownItems p in
  let p' := set_children p (toggleFocused (dropdownFocusIndex p) 0 (children p)) in
  if 0 <=? dropdownFocusIndex p then
    match at_ items (dropdownFocusIndex p) with
    | Some _ => done p'
    | None =>
        {| after := p';
           thrown := Some "TypeError: Cannot read properties of undefined";
           defaultPrevented := false |}
    end
  else done p'.

Definition selectPr (prId : Js.int) (title : string) (p : Panel) : Panel :=
  closeDropdown
    (set_searchValue (set_selectedPrId p (Some prId))
       ("#" ++ JsText.ofInt prId ++ " — " ++ title)).

Definition makeLi (pr : PrItem) : Li :=
  PrLi pr (JsText.ofInt (Some (pullRequestId pr))) (title pr)
    ("#" ++ JsText.ofInt (Some (pullRequestId pr)) ++ " — " ++ title pr) false.

Definition renderDropdownItems (items : list PrItem) (isLoading : bool) (p : Panel)
  : Panel :=
  let p := set_dropdownFocusIndex (set_children p []) (-1) in
  if isLoading then
    openDropdown (set_children p [StatusLi "Loading pull requests…"])
  else
    match items with
    | [] => openDropdown (set_children p [StatusLi "No matching pull requests"])
    | _ :: _ => openDropdown (set_children p (map makeLi items))
    end.

Section WithHost.

Variable host : Host.

(** The part of [filterAndRender] after the cache is filled. *)
Definition filterCached (query : string) (p : Panel) : Handled :=
  let q := trim host (toLowerCase host query) in
  match prCache p with
  | Some cache =>
      let filtered :=
        if nonEmpty q
        then filter (fun pr =>
                       JsText.includes (JsText.ofInt (Some (pullRequestId pr))) q ||
                       JsText.includes (toLowerCase host (title pr)) q) cache
        else cache in
      done (renderDropdownItems filtered false p)
  | None =>
      {| after := p;
         thrown := Some "TypeError: Cannot read properties of null";
         defaultPrevented := false |}
  end.

(** [filterAndRender(query)] up to its [await], or to its end when the
    cache serves the selected repository. *)
Definition filterAndRender (query : string) (p : Panel) : Handled :=
  let repoId := repoValue p in
  if negb (nonEmpty repoId) then done p
  else if negb (match prCacheRepoId p with
                | Some r => String.eqb r repoId
                | None => false
                end)
          || isNone (prCache p) then
    let p := renderDropdownItems [] true p in
    let p := set_prCache p (Some []) in
    let p := set_prCacheRepoId p (Some repoId) in
    done (set_inflight p (inflight p ++ [query])%list)
  else filterCached query p.

(** The items the loop pushes for what [getPullRequests] returned. *)
Fixpoint cacheItems (raw : list RawPr) : list PrItem :=
  match raw with
  | [] => []
  | pr :: rest =>
      match raw_pullRequestId pr with
      | Some n =>
          {| pullRequestId := n;
             title := match raw_title pr with
                      | Some t => t
                      | None => "PR #" ++ JsText.ofInt (Some n)
                      end |} :: cacheItems rest
      | None => cacheItems rest
      end
  end.

(** The remainder of [filterAndRender(query)] once [getPullRequests] has
    settled with [raw]: the items go to the array [prCache] holds now.
    An error thrown in the [try] block is dropped. *)
Definition filterAndRender_resume (query : string)
  (raw : Js.completion (option (list RawPr))) (p : Panel) : Handled :=
  let p :=
    match raw with
    | Js.Normal r =>
        match prCache p with
        | Some cache =>
            set_prCache p
              (Some (cache ++ cacheItems (match r with Some l => l | None => [] end))%list)
        | None => p
        end
    | Js.Throw _ => p
    end in
  filterCached query p.

Definition onKeyDown (key : string) (p : Panel) : Handled :=
  let items := getDropdownItems p in
  if hidden p then
    if String.eqb key "ArrowDown" || String.eqb key "Enter"
    then filterAndRender (searchValue p) p
    else done p
  else if String.eqb key "ArrowDown" then
    prevent (updateDropdownFocus
               (set_dropdownFocusIndex p
                  (Z.min (dropdownFocusIndex p + 1) (Z.of_nat (List.length items) - 1))))
  else if String.eqb key "ArrowUp" then
    prevent (updateDropdownFocus
               (set_dropdownFocusIndex p (Z.max (dropdownFocusIndex p - 1) 0)))
  else if String.eqb key "Enter" then
    if 0 <=? dropdownFocusIndex p then
      match at_ items (dropdownFocusIndex p) with
      | Some (PrLi _ data_pr_id data_pr_title _ _) =>
          prevent (done (selectPr (Js.parseInt data_pr_id) data_pr_title p))
      | _ =>
          {| after := p;
             thrown := Some "TypeError: Cannot read properties of undefined";
             defaultPrevented := true |}
      end
    else prevent (done p)
  else if String.eqb key "Escape" then prevent (done (closeDropdown p))
  else done p.

(** The [mousedown] listener of the [i]-th child. *)
Definition onMouseDown (i : nat) (p : Panel) : Handled :=
  match nth_error (children p) i with
  | Some (PrLi pr _ _ _ _) =>
      prevent (done (selectPr (Some (pullRequestId pr)) (title pr) p))
  | _ => done p
  end.

Definition onInput (p : Panel) : Panel :=
  set_debounce (set_selectedPrId p None) true.

(** The placeholder text the handler also sets is not kept. *)
Definition onRepoChange (p : Panel) : Panel :=
  let p := set_selectedPrId p None in
  let p := set_searchValue p "" in
  let p := closeDropdown p in
  let p := set_children p [] in
  set_searchDisabled p (negb (nonEmpty (repoValue p))).

Fixpoint removeNth {A} (k : nat) (l : list A) : list A :=
  match l, k with
  | [], _ => []
  | _ :: rest, O => rest
  | x :: rest, S k' => x :: removeNth k' rest
  end.

(** What can happen to the panel.  [Input] and [RepoChange] carry the
    value the user gave the control; [FetchDone k raw] settles the [k]-th
    waiting call. *)
Inductive Event : Type :=
| Focus
| Input (value : string)
| DebounceFires
| Blur
| BlurTimerFires
| KeyDown (key : string)
| MouseDown (i : nat)
| RepoChange (value : string)
| FetchDone (k : nat) (raw : Js.completion (option (list RawPr))).

(** One handler run; [None] when the event cannot happen in the state: a
    disabled input takes no focus or keys, a hidden list no click, and
    only an armed timer or a waiting call comes back. *)
Definition step (p : Panel) (e : Event) : option Handled :=
  match e with
  | Focus =>
      if searchDisabled p then None
      else Some (filterAndRender (searchValue p) p)
  | Input v =>
      if searchDisabled p then None
      else Some (done (onInput (set_searchValue p v)))
  | DebounceFires =>
      if debounce p
      then Some (filterAndRender (searchValue p) (set_debounce p false))
      else None
  | Blur =>
      if searchDisabled p then None
      else Some (done (set_blurTimers p (S (blurTimers p))))
  | BlurTimerFires =>
      match blurTimers p with
      | S n => Some (done (closeDropdown (set_blurTimers p n)))
      | O => None
      end
  | KeyDown key =>
      if searchDisabled p then None else Some (onKeyDown key p)
  | MouseDown i =>
      if hidden p then None else Some (onMouseDown i p)
  | RepoChange v => Some (done (onRepoChange (set_repoValue p v)))
  | FetchDone k raw =>
      match nth_error (inflight p) k with
      | Some query =>
          Some (filterAndRender_resume query raw (set_inflight p (removeNth k (inflight p))))
      | None => None
      end
  end.

Fixpoint run (p : Panel) (es : list Event) : option Panel :=
  match es with
  | [] => Some p
  | e :: rest =>
      match step p e with
      | Some h => run (after h) rest
      | None => None
      end
  end.

End WithHost.

(** The panel when [main] has installed the handlers: nothing selected,
    nothing cached, no item in the list, nothing pending. *)
Definition loaded (p : Panel) : Prop :=
  selectedPrId p = None /\ prCache p = None /\ prCacheRepoId p = None /\
  dropdownFocusIndex p = -1 /\ getDropdownItems p = [] /\
  inflight p = [] /\ debounce p = false /\ blurTimers p = 0%nat.

Definition reachable (host : Host) (p : Panel) : Prop :=
  exists p0 es, loaded p0 /\ run host p0 es = Some p.

(** *** The review button *)

Record Page : Type := {
  backendUrl : string;
  clientKey : string;
  orgName : string;
  projectId : string
}.

Record Iteration : Type := { iteration_id : option Z }.

Inductive Clicked : Type :=
| ShowsError (message : string)
| Posts (call : ReviewClient.Call).

(** [!n] negated: the number when it is neither [null], NaN nor 0. *)
Definition truthyInt (n : option Js.int) : option Z :=
  match n with
  | Some (Some z) => if z =? 0 then None else Some z
  | _ => None
  end.

(** [iterations?.at(-1)?.id] when truthy. *)
Definition latestIterationId (iterations : option (list Iteration)) : option Z :=
  match iterations with
  | Some l =>
      match last (map Some l) None with
      | Some it => truthyInt (Some (iteration_id it))
      | None => None
      end
  | None => None
  end.

Definition reviewRequest (page : Page) (repoId : string) (prId iterationId : Z)
  : Js.value :=
  Js.Obj [("organizationUrl", Js.Str ("https://dev.azure.com/" ++ orgName page ++ "/"));
          ("projectId", Js.Str (projectId page));
          ("repositoryId", Js.Str repoId);
          ("pullRequestId", Js.Num (inject_Z prId));
          ("iterationId", Js.Num (inject_Z iterationId))].

(** The click handler of the review button up to the call of
    [submitReview]: the message it shows, or the call it makes.  [settled]
    is how [Promise.all] of the iterations and the access token settles. *)
Definition onReviewClick (page : Page) (p : Panel)
  (settled : Js.completion (option (list Iteration) * string)) : Clicked :=
  let repoId := repoValue p in
  if negb (nonEmpty repoId) then ShowsError "Please select a repository."
  else
    match truthyInt (selectedPrId p) with
    | None => ShowsError "Please select a pull request from the list."
    | Some prId =>
        match settled with
        | Js.Throw message => ShowsError ("Failed to submit review: " ++ message)
        | Js.Normal (iterations, adoToken) =>
            match latestIterationId iterations with
            | None =>
                ShowsError ("Failed to submit review: " ++
                            "Could not determine the latest PR iteration.")
            | Some iterationId =>
                Posts (ReviewClient.submitReview (backendUrl page) (clientKey page)
                         adoToken (reviewRequest page repoId prId iterationId))
            end
        end
    end.

End ReviewPanel.

(** ** Polling a job (src/review/review.ts, the revision that waits for
    the result) *)

Module ReviewPolling.

Definition POLL_INTERVAL_MS : Z := 3000.
Definition POLL_TIMEOUT_MS : Z := 5 * 60000.

Definition isStr (v : Js.value) (s : string) : bool :=
  match v with
  | Js.Str x => String.eqb x s
  | _ => false
  end.

(** One turn of the loop as its environment decides it: what [Date.now()]
    reads at the top, and how [getReviewStatus] settles, with the body of
    the answer or with the message of the error axios throws. *)
Record Turn : Type := {
  clockAt : Z;
  answer : Js.completion Js.value
}.

(** How [pollReview] ends: it returns the result; it throws the time-out
    error, the error made of the job's error text, or another error; or it
    still sleeps when the turns are used up. *)
Inductive Polled : Type :=
| Resolved (result : Js.value)
| TimedOut
| ReviewFailed (error : Js.value)
| Threw (message : string)
| Sleeping.

(** The loop; [shown] is the text of the status element. *)
Fixpoint pollLoop (deadline : Z) (shown : option string) (turns : list Turn)
  : Polled * option string :=
  match turns with
  | [] => (Sleeping, shown)
  | t :: rest =>
      if deadline <? clockAt t then (TimedOut, shown)
      else
        match answer t with
        | Js.Throw e => (Threw e, shown)
        | Js.Normal response =>
            match (status <- Js.getProp response "status" ;;
                   result <- Js.getProp response "result" ;;
                   error <- Js.getProp response "error" ;;
                   Js.Normal (status, result, error)) with
            | Js.Throw e => (Threw e, shown)
            | Js.Normal (status, result, error) =>
                if isStr status "completed" && JsText.truthy result then (Resolved result, shown)
                else if isStr status "failed" then
                  (ReviewFailed (if Js.looseEqNull error
                                 then Js.Str "Review failed on the server."
                                 else error), shown)
                else
                  pollLoop deadline
                    (Some (if isStr status "processing"
                           then "Agent is reviewing your code…"
                           else "Waiting for agent…"))
                    rest
            end
        end
  end.

(** [pollReview]: [start] is what [Date.now()] reads on entry. *)
Definition pollReview (start : Z) (turns : list Turn) : Polled * option string :=
  pollLoop (start + POLL_TIMEOUT_MS) None turns.

(** The clock readings of turns that follow each other by the sleep of the
    loop at least. *)
Fixpoint paced (previous : Z) (turns : list Turn) : Prop :=
  match turns with
  | [] => True
  | t :: rest => previous + POLL_INTERVAL_MS <= clockAt t /\ paced (clockAt t) rest
  end.

End ReviewPolling.

(** ** The settings (src/common/extensionSettings.ts) over the testbed's
    data manager (testbed/mocks/azure-devops-extension-api.ts), which keeps
    them in [localStorage] *)

Module Settings.

(** [JSON.parse] and, on the value handed to [setItem], [JSON.stringify]. *)
Record Json : Type := {
  parse : string -> Js.completion Js.value;
  stringify : Js.value -> string
}.

Definition LocalStorage : Type := JsMap.t string.

Section WithJson.

Variable json : Json.

Definition getValue (key : string) (defaultValue : Js.value) (ls : LocalStorage)
  : Js.value :=
  match JsMap.get ls ("ado-ext:" ++ key) with
  | Some raw =>
      match parse json raw with
      | Js.Normal v => v
      | Js.Throw _ => Js.Str raw
      end
  | None => if Js.looseEqNull defaultValue then Js.Str "" else defaultValue
  end.

Definition setValue (key : string) (value : Js.value) (ls : LocalStorage)
  : LocalStorage :=
  JsMap.set ls ("ado-ext:" ++ key) (stringify json value).

Record ExtensionSettings : Type := {
  backendUrl : Js.value;
  clientKey : Js.value
}.

Definition loadSettings (ls : LocalStorage) : ExtensionSettings :=
  {| backendUrl := getValue "backendUrl" (Js.Str "") ls;
     clientKey := getValue "clientKey" (Js.Str "") ls |}.

Definition saveSettings (settings : ExtensionSettings) (ls : LocalStorage)
  : LocalStorage :=
  setValue "clientKey" (clientKey settings)
    (setValue "backendUrl" (backendUrl settings) ls).

(** The test [main] of the review panel makes before it shows the form:
    [!backendUrl || !clientKey] sends it to the configuration warning. *)
Definition configured (settings : ExtensionSettings) : bool :=
  JsText.truthy (backendUrl settings) && JsText.truthy (clientKey settings).

End WithJson.

(** [getAccessToken] of the testbed's SDK, which shares the storage. *)
Definition getAccessToken (ls : LocalStorage) : string :=
  Js.orElse (JsMap.get ls "testbed:adoToken") "".

End Settings.

(** ** Vocabulary for the extension's side *)

(** An item as [renderDropdownItems] writes it, whatever its class. *)
Definition asRendered (li : ReviewPanel.Li) : Prop :=
  match li with
  | ReviewPanel.PrLi pr a b t _ =>
      a = JsText.ofInt (Some (ReviewPanel.pullRequestId pr)) /\
      b = ReviewPanel.title pr /\
      t = "#" ++ JsText.ofInt (Some (ReviewPanel.pullRequestId pr)) ++ " — " ++
          ReviewPanel.title pr
  | ReviewPanel.StatusLi _ => True
  end.

(** Whether the [i]-th selectable item has the focus class. *)
Definition highlighted (p : ReviewPanel.Panel) (i : nat) : option bool :=
  match nth_error (ReviewPanel.getDropdownItems p) i with
  | Some (ReviewPanel.PrLi _ _ _ _ f) => Some f
  | _ => None
  end.

(** The focus index points at nothing, at a selectable item, or, in an
    open list without selectable items, at position 0. *)
Definition focusInRange (p : ReviewPanel.Panel) : Prop :=
  let n := Z.of_nat (List.length (ReviewPanel.getDropdownItems p)) in
  let f := ReviewPanel.dropdownFocusIndex p in
  f = -1 \/ 0 <= f < n \/ (f = 0 /\ n = 0 /\ ReviewPanel.hidden p = false).

(** The invariant of the panel. *)
Definition PanelInv (p : ReviewPanel.Panel) : Prop :=
  focusInRange p /\
  (ReviewPanel.hidden p = true -> ReviewPanel.dropdownFocusIndex p = -1) /\
  (ReviewPanel.hidden p = false ->
   ReviewPanel.children p =
     ReviewPanel.toggleFocused (ReviewPanel.dropdownFocusIndex p) 0
       (ReviewPanel.children p)) /\
  Forall asRendered (ReviewPanel.children p) /\
  (forall n, ReviewPanel.selectedPrId p = Some n ->
             exists t, ReviewPanel.searchValue p = "#" ++ JsText.ofInt n ++ " — " ++ t) /\
  (ReviewPanel.prCache p = None -> ReviewPanel.inflight p = []).

(** Two states that agree on what the invariant reads of the page. *)
Definition sameView (p q : ReviewPanel.Panel) : Prop :=
  ReviewPanel.dropdownFocusIndex p = ReviewPanel.dropdownFocusIndex q /\
  ReviewPanel.hidden p = ReviewPanel.hidden q /\
  ReviewPanel.children p = ReviewPanel.children q /\
  ReviewPanel.selectedPrId p = ReviewPanel.selectedPrId q /\
  ReviewPanel.searchValue p = ReviewPanel.searchValue q.

(** The request the server's [handleRequest] gets carries a call of the
    client made to the server at [serverOrigin]: same method, a target
    that parses to the path behind the origin, the key header and the
    parsed body of the call. *)
Definition carries (serverOrigin : string) (c : ReviewClient.Call) (req : Request)
  : Prop :=
  method req = ReviewClient.verb c /\
  (exists path, pathname req = Js.Normal path /\
                ReviewClient.url c = serverOrigin ++ path) /\
  x_client_key req = header "X-Client-Key" (ReviewClient.callHeaders c) /\
  payload req = ReviewClient.data c.

(** The data of the last write to a path, if any. *)
Fixpoint lastWritten (p : string) (ws : list Cert.Write) : option string :=
  match ws with
  | [] => None
  | w :: rest =>
      match lastWritten p rest with
      | Some d => Some d
      | None => if String.eqb p (Cert.path w) then Some (Cert.data w) else None
      end
  end.

(** What a later start of the backend finds: the files as the writes of
    the earlier start left them, and the clock at [clock].  A file a write
    created has the mode of the call, 0600 (the process mask is taken to
    leave the owner's bits), and is read back; a file that existed has the
    written data but keeps its mode, so one that could not be read before
    still cannot. *)
Definition restarted (w : Cert.World) (ws : list Cert.Write) (clock : Z) : Cert.World :=
  {| Cert.dirname := Cert.dirname w;
     Cert.existsSync := fun p =>
       match lastWritten p ws with
       | Some _ => true
       | None => Cert.existsSync w p
       end;
     Cert.readFileSync := fun p =>
       match lastWritten p ws with
       | Some d =>
           if Cert.existsSync w p
           then match Cert.readFileSync w p with
                | Js.Normal _ => Js.Normal d
                | Js.Throw e => Js.Throw e
                end
           else Js.Normal d
       | None => Cert.readFileSync w p
       end;
     Cert.writeFileSync := Cert.writeFileSync w;
     Cert.X509Certificate_validTo := Cert.X509Certificate_validTo w;
     Cert.Date_parse := Cert.Date_parse w;
     Cert.Date_now := clock;
     Cert.generate := Cert.generate w |}.

(** The file at [p] was not there, or could be read. *)
Definition absentOrReadable (w : Cert.World) (p : string) : bool :=
  negb (Cert.existsSync w p) || Cert.readable (Cert.readFileSync w p).

(** ** Sample inputs for the extension's side *)

(** A directory without certificate files, on 1 May 2024; what is
    generated there is valid until 1 May 2025. *)
Definition emptyDirWorld : Cert.World := {|
  Cert.dirname := "/testbed";
  Cert.existsSync := fun _ => false;
  Cert.readFileSync := fun _ => Js.Throw "ENOENT: no such file or directory";
  Cert.writeFileSync := fun _ _ => Js.Normal tt;
  Cert.X509Certificate_validTo := fun _ => Js.Normal "May  1 10:00:00 2025 GMT";
  Cert.Date_parse := fun _ => Some 1746093600000;
  Cert.Date_now := 1714557600000;
  Cert.generate := fun _ _ =>
    {| Cert.pemCert := "NEW CERTIFICATE"; Cert.pemPrivate := "NEW KEY" |}
|}.


Definition asciiHost : ReviewPanel.Host :=
  {| ReviewPanel.toLowerCase := fun s => s; ReviewPanel.trim := fun s => s |}.

Definition freshPanel : ReviewPanel.Panel :=
  {| ReviewPanel.repoValue := "";
     ReviewPanel.searchValue := "";
     ReviewPanel.searchDisabled := true;
     ReviewPanel.selectedPrId := None;
     ReviewPanel.prCache := None;
     ReviewPanel.prCacheRepoId := None;
     ReviewPanel.dropdownFocusIndex := -1;
     ReviewPanel.hidden := true;
     ReviewPanel.children := [];
     ReviewPanel.inflight := [];
     ReviewPanel.debounce := false;
     ReviewPanel.blurTimers := 0 |}.

Definition samplePrs : list ReviewPanel.RawPr :=
  [{| ReviewPanel.raw_pullRequestId := Some 12;
      ReviewPanel.raw_title := Some "Fix login" |};
   {| ReviewPanel.raw_pullRequestId := None;
      ReviewPanel.raw_title := Some "draft" |};
   {| ReviewPanel.raw_pullRequestId := Some 7;
      ReviewPanel.raw_title := None |}].

(** The picker after the pull requests of [repo-a] have arrived and the
    first item has got the focus. *)
Definition pickerEvents : list ReviewPanel.Event :=
  [ReviewPanel.RepoChange "repo-a";
   ReviewPanel.Focus;
   ReviewPanel.FetchDone 0 (Js.Normal (Some samplePrs));
   ReviewPanel.KeyDown "ArrowDown"].

Definition pickerPanel : ReviewPanel.Panel :=
  match ReviewPanel.run asciiHost freshPanel pickerEvents with
  | Some p => p
  | None => freshPanel
  end.

(** The picker with an open list that has no selectable item. *)
Definition emptyListEvents : list ReviewPanel.Event :=
  [ReviewPanel.RepoChange "repo-a";
   ReviewPanel.Focus;
   ReviewPanel.FetchDone 0 (Js.Throw "getPullRequests is not a function")].

Definition emptyListPanel : ReviewPanel.Panel :=
  match ReviewPanel.run asciiHost freshPanel emptyListEvents with
  | Some p => p
  | None => freshPanel
  end.

Definition samplePage : ReviewPanel.Page :=
  {| ReviewPanel.backendUrl := "https://localhost:31001/";
     ReviewPanel.clientKey := "test-client-key";
     ReviewPanel.orgName := "testbedorg";
     ReviewPanel.projectId := "testbed-project-id" |}.

(** A codec that is right on strings without quotes or backslashes. *)
Definition sampleJson : Settings.Json :=
  {| Settings.parse := fun raw =>
       match raw with
       | String q rest =>
           if Ascii.eqb q (ascii_of_nat 34)
           then Js.Normal (Js.Str (substring 0 (String.length rest - 1) rest))
           else Js.Throw "SyntaxError"
       | EmptyString => Js.Throw "SyntaxError"
       end;
     Settings.stringify := fun v =>
       match v with
       | Js.Str s => dquote ++ s ++ dquote
       | _ => "null"
       end |}.



Definition sampleSubmission : Request :=
  submit (Some "test-client-key")
    (Some (ReviewPanel.reviewRequest samplePage "repo-a" 12 2)).

(** The backend after that submission, and the job it stores. *)
Definition submittedState : State :=
  snd (handleRequest Tls defaultConfig sampleSubmission sampleId1
         "2024-05-01T10:00:00.000Z" initialState).

Definition submittedJob : Job :=
  {| jobId := sampleId1; status := pending;
     organizationUrl := Js.Str "https://dev.azure.com/testbedorg/";
     projectId := Js.Str "testbed-project-id";
     repositoryId := Js.Str "repo-a";
     pullRequestId := Js.Num (inject_Z 12);
     iterationId := Js.Num (inject_Z 2);
     submittedAt := "2024-05-01T10:00:00.000Z";
     completedAt := None; result := None; error := None |}.

(** That job run to its end under the default configuration. *)
Definition completedRun : list Event :=
  [Incoming 0 sampleSubmission sampleId1 "2024-05-01T10:00:00.000Z";
   TimerFires 1980 0 "2024-05-01T10:00:01.980Z";
   TimerFires 6000 1 "2024-05-01T10:00:06.000Z"].

Definition completedState : State :=
  match run Tls defaultConfig initialState completedRun with
  | Some st => st
  | None => initialState
  end.

Definition completedJob : Job :=
  match JsMap.get (jobs completedState) sampleId1 with
  | Some j => j
  | None => submittedJob
  end.

(** 102 turns three seconds apart, each answered with the pending job. *)
Definition pendingTurns : list ReviewPolling.Turn :=
  map (fun k => {| ReviewPolling.clockAt := 3000 * Z.of_nat k;
                   ReviewPolling.answer :=
                     Js.Normal (BackendTs.jobToStatusResponse submittedJob) |})
      (seq 0 102).

(** * Facts about the runtime model *)

Section MapFacts.
Context {V : Type}.
Implicit Types (m : JsMap.t V) (k : string) (v : V).

Lemma get_set_same m k v : JsMap.get (JsMap.set m k v) k = Some v.
Proof.
  induction m as [|[k' v'] m IH]; simpl.
  - now rewrite String.eqb_refl.
  - destruct (String.eqb k k') eqn:E; simpl; rewrite E; auto.
Qed.

Lemma get_set_other m k k' v :
  k <> k' -> JsMap.get (JsMap.set m k v) k' = JsMap.get m k'.
Proof.
  intros Hne. induction m as [|[k0 v0] m IH]; simpl.
  - destruct (String.eqb_spec k' k); congruence.
  - destruct (String.eqb_spec k k0) as [->|Hk]; simpl.
    + destruct (String.eqb_spec k' k0); congruence.
    + rewrite IH. reflexivity.
Qed.

Lemma set_fresh m k v :
  JsMap.get m k = None -> JsMap.set m k v = (m ++ [(k, v)])%list.
Proof.
  induction m as [|[k0 v0] m IH]; simpl; auto.
  destruct (String.eqb k k0); [discriminate|].
  intros H. now rewrite IH.
Qed.

Lemma keys_set_present m k v v0 :
  JsMap.get m k = Some v0 -> JsMap.keys (JsMap.set m k v) = JsMap.keys m.
Proof.
  unfold JsMap.keys. induction m as [|[k0 v1] m IH]; simpl; [discriminate|].
  destruct (String.eqb k k0); simpl; auto.
  intros H. now rewrite IH.
Qed.

Lemma keys_set_fresh m k v :
  JsMap.get m k = None -> JsMap.keys (JsMap.set m k v) = (JsMap.keys m ++ [k])%list.
Proof.
  intros H. rewrite (set_fresh m k v H). unfold JsMap.keys.
  now rewrite map_app.
Qed.

Lemma get_In_values m k v : JsMap.get m k = Some v -> In v (JsMap.values m).
Proof.
  unfold JsMap.values. induction m as [|[k0 v0] m IH]; simpl; [discriminate|].
  destruct (String.eqb k k0).
  - intros [= ->]. now left.
  - intros H. right. auto.
Qed.

End MapFacts.

(** ** The order of timestamps *)

Lemma localeCompare_refl (s : string) : localeCompare s s = Eq.
Proof.
  unfold localeCompare. induction s as [|a s IH]; simpl; auto.
  unfold Ascii.compare. now rewrite N.compare_refl.
Qed.

Lemma localeCompare_antisym (a b : string) :
  localeCompare a b = CompOpp (localeCompare b a).
Proof. apply String.compare_antisym. Qed.

Lemma localeCompare_eq (a b : string) : localeCompare a b = Eq -> a = b.
Proof. apply String.compare_eq_iff. Qed.

Lemma notBefore_trans (a b c : string) :
  notBefore a b -> notBefore b c -> notBefore a c.
Proof.
  unfold notBefore, localeCompare. revert b c.
  induction a as [|x a IH]; intros [|y b] [|z c]; simpl; try congruence.
  unfold Ascii.compare.
  destruct (N.compare_spec (N_of_ascii x) (N_of_ascii y)) as [Hxy|Hxy|Hxy];
  destruct (N.compare_spec (N_of_ascii y) (N_of_ascii z)) as [Hyz|Hyz|Hyz];
  destruct (N.compare_spec (N_of_ascii x) (N_of_ascii z)) as [Hxz|Hxz|Hxz];
  try congruence; try lia.
  apply IH.
Qed.

(** ** The stable sort, under the comparator of the list operation *)

Section SortFacts.
Context {A : Type} (key : A -> string).

Local Notation "'cmp'" := (fun a b : A => localeCompare (key b) (key a)).
Local Notation "'desc'" := (fun a b : A => notBefore (key a) (key b)).

Lemma insert_perm (x : A) (l : list A) :
  Permutation (JsArray.insert cmp x l) (x :: l).
Proof.
  induction l as [|y l IH]; simpl; auto.
  destruct (localeCompare (key y) (key x)); auto.
  rewrite IH. apply perm_swap.
Qed.

Lemma sort_perm (l : list A) : Permutation (JsArray.sort cmp l) l.
Proof.
  induction l as [|x l IH]; simpl; auto.
  rewrite insert_perm. now constructor.
Qed.

Lemma insert_sorted (x : A) (l : list A) :
  StronglySorted desc l -> StronglySorted desc (JsArray.insert cmp x l).
Proof.
  induction 1 as [|y l Hs IH Hall]; simpl.
  - repeat constructor.
  - assert (Hyl : StronglySorted desc (y :: l)) by now constructor.
    destruct (localeCompare (key y) (key x)) eqn:E.
    + constructor; auto. constructor.
      * unfold notBefore. rewrite localeCompare_antisym, E. discriminate.
      * apply localeCompare_eq in E. eapply Forall_impl; [|exact Hall].
        intros z Hz. simpl in *. now rewrite <- E.
    + constructor; auto.
      assert (Hxy : notBefore (key x) (key y)).
      { unfold notBefore. rewrite localeCompare_antisym, E. discriminate. }
      constructor; auto.
      eapply Forall_impl; [|exact Hall].
      intros z Hz. simpl in *. eapply notBefore_trans; eauto.
    + constructor; auto.
      eapply Permutation_Forall; [symmetry; apply insert_perm|].
      constructor; auto.
      unfold notBefore. rewrite E. discriminate.
Qed.

Lemma sort_sorted (l : list A) : StronglySorted desc (JsArray.sort cmp l).
Proof.
  induction l as [|x l IH]; simpl; [constructor|].
  now apply insert_sorted.
Qed.

Lemma insert_filter (t : string) (x : A) (l : list A) :
  filter (fun a => String.eqb (key a) t) (JsArray.insert cmp x l) =
  filter (fun a => String.eqb (key a) t) (x :: l).
Proof.
  induction l as [|y l IH]; simpl; auto.
  destruct (localeCompare (key y) (key x)) eqn:E; simpl; auto.
  rewrite IH. simpl.
  destruct (String.eqb_spec (key x) t) as [Hx|Hx]; auto.
  destruct (String.eqb_spec (key y) t) as [Hy|Hy]; auto.
  exfalso. rewrite Hx, Hy, localeCompare_refl in E. discriminate.
Qed.

Lemma sort_filter (t : string) (l : list A) :
  filter (fun a => String.eqb (key a) t) (JsArray.sort cmp l) =
  filter (fun a => String.eqb (key a) t) l.
Proof.
  induction l as [|x l IH]; simpl; auto.
  rewrite insert_filter. simpl. now rewrite IH.
Qed.

End SortFacts.

Lemma StronglySorted_nth {A} (R : A -> A -> Prop) (l : list A) :
  StronglySorted R l ->
  forall i j a b, (i < j)%nat ->
    nth_error l i = Some a -> nth_error l j = Some b -> R a b.
Proof.
  induction 1 as [|x l Hs IH Hall]; intros i j a b Hij Ha Hb.
  - destruct i; discriminate.
  - destruct j as [|j]; [lia|]. simpl in Hb.
    destruct i as [|i]; simpl in Ha.
    + injection Ha as ->. rewrite Forall_forall in Hall.
      apply Hall. eapply nth_error_In; eauto.
    + apply (IH i j a b); [lia | assumption | assumption].
Qed.

(** * The two backends side by side *)

Lemma runCallback_agree : BackendJs.runCallback = BackendTs.runCallback.
Proof. reflexivity. Qed.

Lemma makeJob_agree cfg request uuid now st :
  BackendJs.makeJob cfg request uuid now st = BackendTs.makeJob cfg request uuid now st.
Proof. reflexivity. Qed.

Lemma checkAuth_agree cfg req h1 h2 :
  match BackendJs.checkAuth cfg req h1, BackendTs.checkAuth cfg req h2 with
  | Some r1, Some r2 => statusCode r1 = statusCode r2 /\ body r1 = body r2
  | None, None => True
  | _, _ => False
  end.
Proof.
  unfold BackendJs.checkAuth, BackendTs.checkAuth.
  destruct (x_client_key req) as [key|]; [destruct (String.eqb key (CLIENT_KEY cfg))|];
    simpl; auto.
Qed.

(** The value the plain-HTTP backend logs, [body.pullRequestId], is the
    one [makeJob] has put into the job, which the TLS-capable backend
    logs. *)
Lemma makeJob_pullRequestId cfg request uuid now st job st' :
  BackendTs.makeJob cfg request uuid now st = Js.Normal (job, st') ->
  Js.getProp request "pullRequestId" = Js.Normal (pullRequestId job).
Proof.
  unfold BackendTs.makeJob.
  destruct (Js.getProp request "organizationUrl"); cbn [Js.bind]; [|discriminate].
  destruct (Js.getProp request "projectId"); cbn [Js.bind]; [|discriminate].
  destruct (Js.getProp request "repositoryId"); cbn [Js.bind]; [|discriminate].
  destruct (Js.getProp request "pullRequestId"); cbn [Js.bind]; [|discriminate].
  destruct (Js.getProp request "iterationId"); cbn [Js.bind]; [|discriminate].
  intros [= <- _]. reflexivity.
Qed.

(** Behind the same headers the routes of the two backends are the same
    function. *)
Lemma route_agree cfg req hdrs p uuid now st :
  BackendJs.route cfg req hdrs p uuid now st = BackendTs.route cfg req hdrs p uuid now st.
Proof.
  unfold BackendJs.route, BackendTs.route. cbv zeta.
  change BackendJs.checkAuth with BackendTs.checkAuth.
  change BackendJs.send with BackendTs.send.
  change BackendJs.readBody with BackendTs.readBody.
  change BackendJs.filterMissing with BackendTs.filterMissing.
  change BackendJs.required with BackendTs.required.
  change BackendJs.makeJob with BackendTs.makeJob.
  change BackendJs.jobToListItem with BackendTs.jobToListItem.
  change BackendJs.jobToStatusResponse with BackendTs.jobToStatusResponse.
  destruct (_ && _); [|reflexivity].
  destruct (BackendTs.checkAuth cfg req hdrs); [reflexivity|].
  destruct (BackendTs.filterMissing _ _) as [[|k ks]|e]; try reflexivity.
  destruct (BackendTs.makeJob cfg (BackendTs.readBody req) uuid now st)
    as [[job st']|e] eqn:Hmake; [|reflexivity].
  now rewrite (makeJob_pullRequestId _ _ _ _ _ _ _ Hmake).
Qed.

(** What a route answers and leaves behind does not depend on the headers
    set before. *)
Lemma route_headers cfg req h1 h2 p uuid now st :
  observe (fst (BackendTs.route cfg req h1 p uuid now st)) =
  observe (fst (BackendTs.route cfg req h2 p uuid now st)) /\
  snd (BackendTs.route cfg req h1 p uuid now st) =
  snd (BackendTs.route cfg req h2 p uuid now st).
Proof.
  unfold BackendTs.route. cbv zeta.
  assert (Hauth :
    match BackendTs.checkAuth cfg req h1, BackendTs.checkAuth cfg req h2 with
    | Some r1, Some r2 => statusCode r1 = statusCode r2 /\ body r1 = body r2
    | None, None => True
    | _, _ => False
    end).
  { unfold BackendTs.checkAuth.
    destruct (x_client_key req) as [key|]; [destruct (String.eqb key (CLIENT_KEY cfg))|];
      simpl; auto. }
  destruct (String.eqb (method req) "POST" && String.eqb p "/reviews").
  { destruct (BackendTs.checkAuth cfg req h1) as [r1|],
             (BackendTs.checkAuth cfg req h2) as [r2|]; try contradiction.
    - destruct Hauth as [H1 H2]. simpl. now rewrite H1, H2.
    - destruct (BackendTs.filterMissing (BackendTs.readBody req) BackendTs.required)
        as [[|k ks]|e]; try now split.
      destruct (BackendTs.makeJob cfg (BackendTs.readBody req) uuid now st)
        as [[job st']|e]; [|now split].
      destruct (Js.toStringThrows (pullRequestId job)); now split. }
  destruct (String.eqb (method req) "GET" && String.eqb p "/reviews").
  { destruct (BackendTs.checkAuth cfg req h1) as [r1|],
             (BackendTs.checkAuth cfg req h2) as [r2|]; try contradiction.
    - destruct Hauth as [H1 H2]. simpl. now rewrite H1, H2.
    - now split. }
  destruct (if String.eqb (method req) "GET" then pollMatch p else None)
    as [id|]; [|now split].
  destruct (BackendTs.checkAuth cfg req h1) as [r1|],
           (BackendTs.checkAuth cfg req h2) as [r2|]; try contradiction.
  - destruct Hauth as [H1 H2]. simpl. now rewrite H1, H2.
  - destruct (JsMap.get (jobs st) id); now split.
Qed.

(** The two routers leave the same state behind. *)
Lemma handleRequest_state_agree cfg req uuid now st :
  snd (BackendJs.handleRequest cfg req uuid now st) =
  snd (BackendTs.handleRequest cfg req uuid now st).
Proof.
  unfold BackendJs.handleRequest, BackendTs.handleRequest. cbv zeta.
  destruct (String.eqb (method req) "OPTIONS"); [reflexivity|].
  destruct (pathname req) as [p|e]; [|reflexivity].
  rewrite route_agree. apply route_headers.
Qed.

Lemma handleRequest_outcome_agree cfg req uuid now st :
  observe (fst (BackendJs.handleRequest cfg req uuid now st)) =
  observe (fst (BackendTs.handleRequest cfg req uuid now st)).
Proof.
  unfold BackendJs.handleRequest, BackendTs.handleRequest. cbv zeta.
  destruct (String.eqb (method req) "OPTIONS"); [reflexivity|].
  destruct (pathname req) as [p|e]; [|reflexivity].
  rewrite route_agree. apply route_headers.
Qed.

Lemma step_agree cfg st ev : step PlainHttp cfg st ev = step Tls cfg st ev.
Proof.
  destruct ev as [t req uuid now|t id now]; simpl; [|reflexivity].
  destruct (_ && _); [|reflexivity].
  pose proof (handleRequest_state_agree cfg req uuid now
                {| jobs := jobs st; timers := timers st;
                   nextTimer := nextTimer st; clock := t |}) as Hs.
  pose proof (handleRequest_outcome_agree cfg req uuid now
                {| jobs := jobs st; timers := timers st;
                   nextTimer := nextTimer st; clock := t |}) as Ho.
  destruct (BackendJs.handleRequest _ _ _ _ _) as [[r1|e1] s1],
           (BackendTs.handleRequest _ _ _ _ _) as [[r2|e2] s2];
    simpl in *; congruence.
Qed.

Lemma run_agree cfg evs : forall st, run PlainHttp cfg st evs = run Tls cfg st evs.
Proof.
  induction evs as [|ev evs IH]; intros st; simpl; auto.
  rewrite step_agree. destruct (step Tls cfg st ev); auto.
Qed.

(** C9.  On every request, and so on every request to one of the three
    job operations, the plain-HTTP backend and the TLS-capable backend, run
    with the same configuration on the same state, answer with the same
    status code and the same JSON body (or both die of the same uncaught
    error), and leave the same state behind.  Only the headers set by the
    two CORS policies may differ. *)
Theorem plain_and_tls_backends_agree cfg req uuid now st :
  observe (fst (handleRequest PlainHttp cfg req uuid now st)) =
  observe (fst (handleRequest Tls cfg req uuid now st)) /\
  snd (handleRequest PlainHttp cfg req uuid now st) =
  snd (handleRequest Tls cfg req uuid now st).
Proof.
  unfold handleRequest, BackendJs.handleRequest, BackendTs.handleRequest.
  cbv zeta.
  destruct (String.eqb (method req) "OPTIONS"); [now split|].
  destruct (pathname req) as [p|e]; [|now split].
  rewrite route_agree. apply route_headers.
Qed.

(** The CORS policies do differ: an Azure DevOps origin is echoed by the
    TLS-capable backend and replaced by the plain-HTTP one. *)
Example cors_policies_differ :
  BackendJs.setCorsHeaders "https://dev.azure.com" <>
  BackendTs.setCorsHeaders "https://dev.azure.com" false.
Proof. vm_compute. discriminate. Qed.

(** The routes of the plain-HTTP backend are those of the TLS-capable one;
    the routers differ in the headers they set, [hdrs]. *)
Ltac enter_router v hdrs :=
  destruct v;
  unfold handleRequest, BackendJs.handleRequest, BackendTs.handleRequest;
  cbv zeta;
  [ set (hdrs := BackendJs.setCorsHeaders _)
  | set (hdrs := BackendTs.setCorsHeaders _ _) ];
  cbn [pathname submit listAll poll];
  repeat match goal with
    | H : pathname ?r = _ |- context [pathname ?r] => rewrite H
    end;
  rewrite ?route_agree;
  unfold BackendTs.route; cbv zeta.

(** * Access control *)

Lemma checkAuth_rejects cfg req hdrs :
  x_client_key req <> Some (CLIENT_KEY cfg) ->
  BackendTs.checkAuth cfg req hdrs = Some (BackendTs.send hdrs 401 (unauthorized cfg)).
Proof.
  unfold BackendTs.checkAuth. intros Hkey.
  destruct (x_client_key req) as [key|]; auto.
  destruct (String.eqb_spec key (CLIENT_KEY cfg)); auto. congruence.
Qed.

Lemma checkAuth_accepts cfg req hdrs :
  x_client_key req = Some (CLIENT_KEY cfg) -> BackendTs.checkAuth cfg req hdrs = None.
Proof.
  unfold BackendTs.checkAuth. intros ->. now rewrite String.eqb_refl.
Qed.

(** C4.  A request to one of the three job operations whose X-Client-Key
    header is absent or differs from the configured key is answered 401,
    with a message that states the expected key, and leaves the whole
    state (job store and timers) as it was. *)
Theorem bad_key_is_rejected_without_effect (v : Variant) cfg req uuid now st :
  isJobOperation req = true ->
  x_client_key req <> Some (CLIENT_KEY cfg) ->
  exists r, handleRequest v cfg req uuid now st = (Sent r, st) /\
            statusCode r = 401 /\
            body r = Some (Js.Obj [("error",
                       Js.Str ("Invalid or missing X-Client-Key. Expected: " ++
                               dquote ++ CLIENT_KEY cfg ++ dquote))]).
Proof.
  unfold isJobOperation. intros Hop Hkey.
  destruct (pathname req) as [p|e] eqn:Hp; [|discriminate].
  enter_router v hdrs;
    rewrite (checkAuth_rejects cfg req hdrs Hkey);
    exists (BackendTs.send hdrs 401 (unauthorized cfg));
    (split; [|now split]);
    (destruct (String.eqb_spec (method req) "OPTIONS") as [Hm|_];
       [rewrite Hm in Hop; discriminate|]);
    (destruct (String.eqb (method req) "POST" && String.eqb p "/reviews");
       [reflexivity|]);
    simpl in Hop;
    (destruct (String.eqb (method req) "GET"); [|discriminate]); simpl in *;
    (destruct (String.eqb p "/reviews"); [reflexivity|]); simpl in Hop;
    (destruct (pollMatch p); [reflexivity|discriminate]).
Qed.

Lemma bad_key_is_rejected_without_effect_witness :
  exists r,
    handleRequest Tls (loadConfig emptyEnv)
      {| method := "POST"; pathname := Js.Normal "/reviews"; origin := None;
         x_client_key := Some "guess"; payload := Some (Js.Obj []) |}
      "123e4567-e89b-42d3-a456-426614174000" "2024-05-01T10:00:00.000Z"
      initialState = (Sent r, initialState) /\
    statusCode r = 401 /\
    body r = Some (Js.Obj [("error",
               Js.Str ("Invalid or missing X-Client-Key. Expected: " ++
                       dquote ++ CLIENT_KEY (loadConfig emptyEnv) ++ dquote))]).
Proof.
  apply (bad_key_is_rejected_without_effect Tls (loadConfig emptyEnv)).
  - vm_compute; reflexivity.
  - simpl. discriminate.
Defined.

(** * The list operation *)

(** C5.  An authorised [GET /reviews] answers 200 with the summaries of a
    sequence [listed] that holds exactly the jobs of the store, in which a
    job with a greater [submittedAt] stands before every job with a smaller
    one, and in which jobs with the same [submittedAt] stand in the order
    in which the store holds them, which is their insertion order. *)
Theorem list_is_sorted_by_submittedAt_descending
  (v : Variant) cfg req uuid now st :
  method req = "GET" ->
  pathname req = Js.Normal "/reviews" ->
  x_client_key req = Some (CLIENT_KEY cfg) ->
  exists listed r,
    handleRequest v cfg req uuid now st = (Sent r, st) /\
    statusCode r = 200 /\
    body r = Some (Js.Arr (map BackendTs.jobToListItem listed)) /\
    Permutation listed (JsMap.values (jobs st)) /\
    (forall i j a b,
        nth_error listed i = Some a -> nth_error listed j = Some b ->
        localeCompare (submittedAt a) (submittedAt b) = Gt -> (i < j)%nat) /\
    (forall t,
        filter (fun job => String.eqb (submittedAt job) t) listed =
        filter (fun job => String.eqb (submittedAt job) t) (JsMap.values (jobs st))).
Proof.
  intros Hm Hp Hkey.
  exists (JsArray.sort (fun a b => localeCompare (submittedAt b) (submittedAt a))
            (JsMap.values (jobs st))).
  assert (Hrest :
    Permutation
      (JsArray.sort (fun a b => localeCompare (submittedAt b) (submittedAt a))
         (JsMap.values (jobs st)))
      (JsMap.values (jobs st)) /\
    (forall i j a b,
        nth_error (JsArray.sort (fun a b => localeCompare (submittedAt b) (submittedAt a))
                     (JsMap.values (jobs st))) i = Some a ->
        nth_error (JsArray.sort (fun a b => localeCompare (submittedAt b) (submittedAt a))
                     (JsMap.values (jobs st))) j = Some b ->
        localeCompare (submittedAt a) (submittedAt b) = Gt -> (i < j)%nat) /\
    (forall t,
        filter (fun job => String.eqb (submittedAt job) t)
          (JsArray.sort (fun a b => localeCompare (submittedAt b) (submittedAt a))
             (JsMap.values (jobs st))) =
        filter (fun job => String.eqb (submittedAt job) t) (JsMap.values (jobs st)))).
  { split; [apply (sort_perm submittedAt)|].
    split; [|intros t; apply (sort_filter submittedAt)].
    intros i j a b Ha Hb Hgt.
    pose proof (sort_sorted submittedAt (JsMap.values (jobs st))) as Hs.
    destruct (Nat.lt_trichotomy i j) as [Hlt|[Heq|Hlt]]; [assumption| |].
    - subst j. rewrite Ha in Hb. injection Hb as <-.
      rewrite localeCompare_refl in Hgt. discriminate.
    - pose proof (StronglySorted_nth _ _ Hs j i b a Hlt Hb Ha) as Hba.
      simpl in Hba. unfold notBefore in Hba.
      rewrite localeCompare_antisym, Hgt in Hba. now elim Hba. }
  enter_router v hdrs;
    rewrite (checkAuth_accepts cfg req hdrs Hkey), Hm; simpl;
    eexists; (split; [reflexivity|]); (split; [reflexivity|]);
    (split; [reflexivity|]); exact Hrest.
Qed.

Lemma list_is_sorted_by_submittedAt_descending_witness :
  exists listed r,
    handleRequest Tls defaultConfig (listAll (Some "test-client-key"))
      sampleId1 "2024-05-01T10:00:03.000Z" sampleState = (Sent r, sampleState) /\
    statusCode r = 200 /\
    body r = Some (Js.Arr (map BackendTs.jobToListItem listed)) /\
    Permutation listed (JsMap.values (jobs sampleState)) /\
    (forall i j a b,
        nth_error listed i = Some a -> nth_error listed j = Some b ->
        localeCompare (submittedAt a) (submittedAt b) = Gt -> (i < j)%nat) /\
    (forall t,
        filter (fun job => String.eqb (submittedAt job) t) listed =
        filter (fun job => String.eqb (submittedAt job) t)
          (JsMap.values (jobs sampleState))).
Proof.
  apply (list_is_sorted_by_submittedAt_descending Tls defaultConfig
           (listAll (Some "test-client-key"))); reflexivity.
Defined.

(** The listing of the sample state: the two jobs submitted in the same
    millisecond first, in insertion order, then the older job. *)
Example list_of_sample_state :
  option_map
    (fun ob => match snd ob with
               | Some (Js.Arr items) => map (fun o => Js.assoc "jobId" (spread o)) items
               | _ => []
               end)
    (observe (fst (handleRequest PlainHttp defaultConfig
                     (listAll (Some "test-client-key"))
                     sampleId1 "2024-05-01T10:00:03.000Z" sampleState))) =
  Some [Js.Str sampleId2; Js.Str sampleId3; Js.Str sampleId1].
Proof. reflexivity. Qed.

(** * The scheduler *)

Lemma onProcessing_get (id : string) (js : JsMap.t Job) :
  JsMap.get (BackendTs.onProcessing id js) id =
  option_map (fun j => set_status j processing) (JsMap.get js id).
Proof.
  unfold BackendTs.onProcessing.
  destruct (JsMap.get js id) as [j|] eqn:E; simpl.
  - apply get_set_same.
  - exact E.
Qed.

Lemma onTerminal_get cfg (id now : string) (js : JsMap.t Job) :
  JsMap.get (BackendTs.onTerminal cfg id now js) id =
  option_map
    (fun j =>
       if String.eqb (SIMULATE cfg) "fail"
       then set_completedAt
              (set_error (set_status j failed) (Some BackendTs.MOCK_FAIL_ERROR))
              (Some now)
       else set_completedAt
              (set_result (set_status j completed) (Some BackendTs.MOCK_SUCCESS_RESULT))
              (Some now))
    (JsMap.get js id).
Proof.
  unfold BackendTs.onTerminal.
  destruct (JsMap.get js id) as [j|] eqn:E; simpl.
  - destruct (String.eqb (SIMULATE cfg) "fail"); apply get_set_same.
  - exact E.
Qed.

Lemma runCallback_other v cfg cb now js id :
  id <> cbJob cb ->
  JsMap.get (runCallback v cfg cb now js) id = JsMap.get js id.
Proof.
  intros Hne.
  assert (H : JsMap.get (BackendTs.runCallback cfg cb now js) id = JsMap.get js id).
  { destruct cb as [id0|id0]; simpl in *.
    - unfold BackendTs.onProcessing. destruct (JsMap.get js id0); auto.
      apply get_set_other. congruence.
    - unfold BackendTs.onTerminal. destruct (JsMap.get js id0); auto.
      destruct (String.eqb (SIMULATE cfg) "fail"); apply get_set_other; congruence. }
  destruct v; exact H.
Qed.

Lemma scheduleJob_unfold cfg id st :
  BackendTs.scheduleJob cfg id st =
  {| jobs := jobs st;
     timers := timers st ++
       [{| timerId := nextTimer st;
           requested := BackendTs.processingDelay cfg;
           due := clock st + timerDelay (BackendTs.processingDelay cfg);
           callback := ToProcessing id |};
        {| timerId := S (nextTimer st);
           requested := Js.ofInt (DELAY_MS cfg);
           due := clock st + timerDelay (Js.ofInt (DELAY_MS cfg));
           callback := ToTerminal id |}];
     nextTimer := S (S (nextTimer st));
     clock := clock st |}.
Proof.
  unfold BackendTs.scheduleJob, setTimeout. simpl.
  rewrite <- app_assoc. reflexivity.
Qed.







(** Under the default configuration the first timer of a job submitted at
    0 does not run at 1979 ms and runs at 1980 ms; the second does not run
    at 5999 ms. *)
Example default_timers_run_when_due :
  let st := snd (handleRequest Tls defaultConfig
                   (submit (Some "test-client-key") (Some sampleBody))
                   sampleId1 "2024-05-01T10:00:00.000Z" initialState) in
  step Tls defaultConfig st (TimerFires 1979 0 "2024-05-01T10:00:01.979Z") = None /\
  option_map (fun st' => statusOf st' sampleId1)
    (step Tls defaultConfig st (TimerFires 1980 0 "2024-05-01T10:00:01.980Z"))
    = Some (Some processing) /\
  step Tls defaultConfig st (TimerFires 5999 1 "2024-05-01T10:00:05.999Z") = None.
Proof. repeat split; vm_compute; reflexivity. Qed.

(** Small values: with [DELAY_MS=0] both timers are due after 1 ms, with
    [DELAY_MS=100] the first is due after 33 ms and the second after
    100. *)
Example small_delays_fire_after_whole_milliseconds :
  map due (timers (BackendTs.scheduleJob zeroConfig sampleId1 initialState)) = [1; 1] /\
  map due (timers (BackendTs.scheduleJob shortConfig sampleId1 initialState)) = [33; 100].
Proof. split; vm_compute; reflexivity. Qed.

(** * The certificate manager *)

Lemma tryReuse_cases (w : Cert.World) :
  match Cert.tryReuse w with
  | Js.Normal (Some m) =>
      Cert.readFileSync w (Cert.CERT_FILE w) = Js.Normal (Cert.cert m) /\
      Cert.readFileSync w (Cert.KEY_FILE w) = Js.Normal (Cert.key m) /\
      exists text,
        Cert.X509Certificate_validTo w (Cert.cert m) = Js.Normal text /\
        Cert.dateGt (Cert.Date_parse w text)
          (Cert.Date_now w + 30 * 24 * 60 * 60 * 1000) = true
  | _ =>
      match Cert.readFileSync w (Cert.CERT_FILE w) with
      | Js.Normal certPem =>
          match Cert.X509Certificate_validTo w certPem with
          | Js.Normal text =>
              Cert.dateGt (Cert.Date_parse w text)
                (Cert.Date_now w + 30 * 24 * 60 * 60 * 1000) = false \/
              Cert.readable (Cert.readFileSync w (Cert.KEY_FILE w)) = false
          | Js.Throw _ => True
          end
      | Js.Throw _ => True
      end
  end.
Proof.
  unfold Cert.tryReuse, Cert.RENEW_BEFORE_DAYS.
  destruct (Cert.readFileSync w (Cert.CERT_FILE w)) as [certPem|e] eqn:Hc; simpl; auto.
  destruct (Cert.X509Certificate_validTo w certPem) as [text|e] eqn:Hx; simpl; auto.
  destruct (Cert.dateGt _ _) eqn:Hd; simpl.
  - destruct (Cert.readFileSync w (Cert.KEY_FILE w)) as [keyPem|e] eqn:Hk; simpl.
    + repeat split; auto. exists text. now split.
    + now right.
  - now left.
Qed.

(** Whether the pair on disk is reused: the condition of the
    specification and a key file that is read. *)
Lemma reuse_decided (w : Cert.World) :
  (if Cert.existsSync w (Cert.CERT_FILE w) && Cert.existsSync w (Cert.KEY_FILE w)
   then match Cert.tryReuse w with
        | Js.Normal r => r
        | Js.Throw _ => None
        end
   else None) =
  if Cert.specReuse w && Cert.readable (Cert.readFileSync w (Cert.KEY_FILE w))
  then match Cert.readFileSync w (Cert.CERT_FILE w),
             Cert.readFileSync w (Cert.KEY_FILE w) with
       | Js.Normal certPem, Js.Normal keyPem =>
           Some {| Cert.cert := certPem; Cert.key := keyPem |}
       | _, _ => None
       end
  else None.
Proof.
  pose proof (tryReuse_cases w) as H.
  unfold Cert.specReuse.
  destruct (Cert.existsSync w (Cert.CERT_FILE w) && Cert.existsSync w (Cert.KEY_FILE w));
    cbn [andb]; [|reflexivity].
  destruct (Cert.tryReuse w) as [[m|]|e].
  - destruct H as (Hc & Hk & text & Hx & Hd).
    rewrite Hc, Hx, Hd, Hk. cbn [andb Cert.readable]. now destruct m.
  - destruct (Cert.readFileSync w (Cert.CERT_FILE w)) as [certPem|e]; [|reflexivity].
    destruct (Cert.X509Certificate_validTo w certPem) as [text|e]; [|reflexivity].
    destruct H as [-> | ->]; [reflexivity|].
    now rewrite andb_false_r.
  - destruct (Cert.readFileSync w (Cert.CERT_FILE w)) as [certPem|e']; [|reflexivity].
    destruct (Cert.X509Certificate_validTo w certPem) as [text|e']; [|reflexivity].
    destruct H as [-> | ->]; [reflexivity|].
    now rewrite andb_false_r.
Qed.



(** Both files of that directory were there, so both keep the mode they
    had, whatever it was: the writes do not make them owner-only. *)
Example existing_files_keep_their_mode :
  map (Cert.permissionsAfter keyUnreadableWorld)
      (snd (Cert.loadOrGenerateCert keyUnreadableWorld)) = [Cert.Kept; Cert.Kept] /\
  map (Cert.permissionsAfter emptyDirWorld)
      (snd (Cert.loadOrGenerateCert emptyDirWorld)) =
    [Cert.CreatedWith 384; Cert.CreatedWith 384].
Proof. split; reflexivity. Qed.

(** With a key file that can be neither read nor written the function
    throws, after it has replaced the certificate, which was valid. *)
Example locked_key_overwrites_the_certificate_and_throws :
  Cert.specReuse keyLockedWorld = true /\
  Cert.loadOrGenerateCert keyLockedWorld =
    (Js.Throw "EACCES: permission denied",
     [{| Cert.path := "/testbed/localhost-cert.pem"; Cert.data := "NEW CERTIFICATE";
         Cert.mode := 384 |}]).
Proof. split; reflexivity. Qed.

(** * The job store over a run *)

Lemma sameIdentity_refl (j : Job) : sameIdentity j j.
Proof. unfold sameIdentity. now repeat split. Qed.

Lemma sameIdentity_trans (a b c : Job) :
  sameIdentity a b -> sameIdentity b c -> sameIdentity a c.
Proof. unfold sameIdentity. intuition congruence. Qed.

Lemma retains_refl (js : JsMap.t Job) : retains js js.
Proof. intros id j H. exists j. split; [exact H|apply sameIdentity_refl]. Qed.

Lemma retains_trans (a b c : JsMap.t Job) :
  retains a b -> retains b c -> retains a c.
Proof.
  intros Hab Hbc id j H.
  destruct (Hab id j H) as (j1 & H1 & S1).
  destruct (Hbc id j1 H1) as (j2 & H2 & S2).
  exists j2. split; [exact H2|]. eapply sameIdentity_trans; eauto.
Qed.

(** Writing back a record with the same creation fields under its key. *)
Lemma retains_set (js : JsMap.t Job) (id : string) (j j' : Job) :
  JsMap.get js id = Some j -> sameIdentity j j' -> retains js (JsMap.set js id j').
Proof.
  intros Hget Hsame id0 j0 H0.
  destruct (String.eqb_spec id id0) as [<-|Hne].
  - rewrite get_set_same. exists j'. split; [reflexivity|]. congruence.
  - rewrite get_set_other by assumption. exists j0.
    split; [exact H0|apply sameIdentity_refl].
Qed.

Lemma retains_set_fresh (js : JsMap.t Job) (id : string) (j : Job) :
  JsMap.get js id = None -> retains js (JsMap.set js id j).
Proof.
  intros Hnone id0 j0 H0.
  assert (id <> id0) by congruence.
  rewrite get_set_other by assumption. exists j0.
  split; [exact H0|apply sameIdentity_refl].
Qed.

Lemma runCallback_retains (v : Variant) cfg cb now js :
  retains js (runCallback v cfg cb now js).
Proof.
  assert (Hv : runCallback v cfg = BackendTs.runCallback cfg) by now destruct v.
  rewrite Hv. destruct cb as [id|id]; simpl.
  - unfold BackendTs.onProcessing.
    destruct (JsMap.get js id) as [j|] eqn:E; [|apply retains_refl].
    eapply retains_set; eauto. unfold sameIdentity. now repeat split.
  - unfold BackendTs.onTerminal.
    destruct (JsMap.get js id) as [j|] eqn:E; [|apply retains_refl].
    destruct (String.eqb (SIMULATE cfg) "fail");
      (eapply retains_set; eauto; unfold sameIdentity; now repeat split).
Qed.

(** What a request does to the state: nothing, or it stores one new pending
    job under the identifier drawn and arms its two timers. *)
Lemma handleRequest_effect (v : Variant) cfg req uuid now st :
  snd (handleRequest v cfg req uuid now st) = st \/
  exists job,
    jobId job = uuid /\ status job = pending /\ submittedAt job = now /\
    completedAt job = None /\ result job = None /\ error job = None /\
    snd (handleRequest v cfg req uuid now st) =
      BackendTs.scheduleJob cfg uuid (set_jobs st (JsMap.set (jobs st) uuid job)).
Proof.
  assert (Hv : snd (handleRequest v cfg req uuid now st) =
               snd (BackendTs.handleRequest cfg req uuid now st)).
  { destruct v; [apply handleRequest_state_agree|reflexivity]. }
  rewrite Hv. unfold BackendTs.handleRequest, BackendTs.route. cbv zeta.
  destruct (String.eqb (method req) "OPTIONS"); [left; reflexivity|].
  destruct (pathname req) as [p|e]; [|left; reflexivity].
  repeat match goal with
    | |- context [if ?c then _ else _] => destruct c
    | |- context [match BackendTs.checkAuth ?a ?b ?c with _ => _ end] =>
        destruct (BackendTs.checkAuth a b c)
    | |- context [match BackendTs.filterMissing ?a ?b with _ => _ end] =>
        destruct (BackendTs.filterMissing a b) as [[|? ?]|?]
    | |- context [match JsMap.get ?a ?b with _ => _ end] => destruct (JsMap.get a b)
    | |- context [match pollMatch ?a with _ => _ end] => destruct (pollMatch a)
    end; try (left; reflexivity).
  unfold BackendTs.makeJob.
  repeat match goal with
    | |- context [Js.bind ?c _] => destruct c; cbn [Js.bind]
    end; try (left; reflexivity).
  right.
  match goal with
  | |- context [JsMap.set (jobs st) uuid ?j] => exists j
  end.
  cbn [pullRequestId]. destruct (Js.toStringThrows _); repeat split; reflexivity.
Qed.

Lemma step_retains (v : Variant) cfg st ev st' :
  step v cfg st ev = Some st' -> retains (jobs st) (jobs st').
Proof.
  destruct ev as [t req uuid now|t id now]; simpl.
  - destruct (clock st <=? t); [|discriminate].
    destruct (isUUID uuid); [|discriminate]. simpl.
    destruct (JsMap.get (jobs st) uuid) eqn:Hfresh; [discriminate|].
    match goal with |- context [handleRequest v cfg req uuid now ?s] =>
      pose proof (handleRequest_effect v cfg req uuid now s) as Heff;
      destruct (handleRequest v cfg req uuid now s) as [[r|e] s1]
    end; [|discriminate].
    intros [= <-]. cbn [snd] in Heff.
    destruct Heff as [->|(job & H)]; [apply retains_refl|].
    destruct H as (_ & _ & _ & _ & _ & _ & ->). simpl.
    now apply retains_set_fresh.
  - destruct (findTimer id (timers st)) as [tm|]; [|discriminate].
    destruct (_ && _); [|discriminate].
    intros [= <-]. simpl. apply runCallback_retains.
Qed.

(** C8.  Over any run of the process, from any state, every job of the
    store stays in the store, and its [jobId], its [submittedAt] and its
    five request fields keep the values they had: whatever the scheduler's
    transitions and the request handlers write, they write to [status],
    [completedAt], [result] and [error] only, and nothing removes a job. *)
Theorem jobs_are_kept_and_their_creation_fields_never_change
  (v : Variant) cfg evs : forall st st',
  run v cfg st evs = Some st' ->
  retains (jobs st) (jobs st').
Proof.
  induction evs as [|ev evs IH]; intros st st' Hrun; simpl in Hrun.
  - injection Hrun as <-. apply retains_refl.
  - destruct (step v cfg st ev) as [st1|] eqn:Hstep; [|discriminate].
    eapply retains_trans.
    + eapply step_retains; eauto.
    + now apply IH.
Qed.

Lemma jobs_are_kept_and_their_creation_fields_never_change_witness :
  retains (jobs initialState) (jobs sampleState) /\
  retains
    (jobs sampleState)
    (jobs (match run PlainHttp defaultConfig sampleState
                   [TimerFires 2480 2 "2024-05-01T10:00:02.480Z";
                    TimerFires 6000 1 "2024-05-01T10:00:06.000Z"] with
           | Some st => st
           | None => sampleState
           end)).
Proof.
  split.
  - apply (jobs_are_kept_and_their_creation_fields_never_change
             Tls defaultConfig sampleRun initialState sampleState).
    vm_compute; reflexivity.
  - apply (jobs_are_kept_and_their_creation_fields_never_change
             PlainHttp defaultConfig
             [TimerFires 2480 2 "2024-05-01T10:00:02.480Z";
              TimerFires 6000 1 "2024-05-01T10:00:06.000Z"]).
    vm_compute; reflexivity.
Defined.

Lemma runCallback_keys (v : Variant) cfg cb now js :
  JsMap.keys (runCallback v cfg cb now js) = JsMap.keys js.
Proof.
  assert (Hv : runCallback v cfg = BackendTs.runCallback cfg) by now destruct v.
  rewrite Hv. destruct cb as [id|id]; simpl.
  - unfold BackendTs.onProcessing.
    destruct (JsMap.get js id) as [j|] eqn:E; [|reflexivity].
    eapply keys_set_present; eauto.
  - unfold BackendTs.onTerminal.
    destruct (JsMap.get js id) as [j|] eqn:E; [|reflexivity].
    destruct (String.eqb (SIMULATE cfg) "fail"); eapply keys_set_present; eauto.
Qed.

(** X5.  The store holds the jobs in the order of their creation: an event
    leaves the sequence of identifiers as it is, or, when it creates a job,
    puts the new identifier last. *)
Theorem store_keeps_insertion_order
  (v : Variant) cfg (st : State) (ev : Event) (st' : State) :
  step v cfg st ev = Some st' ->
  JsMap.keys (jobs st') = JsMap.keys (jobs st) \/
  exists uuid, JsMap.keys (jobs st') = (JsMap.keys (jobs st) ++ [uuid])%list.
Proof.
  destruct ev as [t req uuid now|t id now]; simpl.
  - destruct (clock st <=? t); [|discriminate].
    destruct (isUUID uuid); [|discriminate]. simpl.
    destruct (JsMap.get (jobs st) uuid) eqn:Hfresh; [discriminate|].
    match goal with |- context [handleRequest v cfg req uuid now ?s] =>
      pose proof (handleRequest_effect v cfg req uuid now s) as Heff;
      destruct (handleRequest v cfg req uuid now s) as [[r|e] s1]
    end; [|discriminate].
    intros [= <-]. cbn [snd] in Heff.
    destruct Heff as [->|(job & H)]; [now left|].
    destruct H as (_ & _ & _ & _ & _ & _ & ->).
    right. exists uuid. rewrite scheduleJob_unfold. cbn [jobs set_jobs].
    now apply keys_set_fresh.
  - destruct (findTimer id (timers st)) as [tm|]; [|discriminate].
    destruct (_ && _); [|discriminate].
    intros [= <-]. left. apply runCallback_keys.
Qed.

Lemma store_keeps_insertion_order_witness :
  JsMap.keys (jobs sampleState) =
    JsMap.keys (jobs (match run Tls defaultConfig initialState (firstn 3 sampleRun) with
                      | Some st => st
                      | None => initialState
                      end)) \/
  exists uuid,
    JsMap.keys (jobs sampleState) =
      (JsMap.keys (jobs (match run Tls defaultConfig initialState (firstn 3 sampleRun) with
                         | Some st => st
                         | None => initialState
                         end)) ++ [uuid])%list.
Proof.
  apply (store_keeps_insertion_order Tls defaultConfig _
           (TimerFires 1980 0 "2024-05-01T10:00:01.980Z")).
  vm_compute; reflexivity.
Defined.

Example sample_store_order :
  JsMap.keys (jobs sampleState) = [sampleId1; sampleId2; sampleId3].
Proof. reflexivity. Qed.

(** * The life cycle *)

(** Unless [DELAY_MS] exceeds the largest delay a timer takes, the first
    timer of a job runs with a delay no longer than the second. *)
Lemma delayFitsTimer_timersInOrder cfg : delayFitsTimer cfg -> timersInOrder cfg.
Proof.
  unfold delayFitsTimer, timersInOrder, BackendTs.processingDelay.
  destruct (DELAY_MS cfg) as [d|]; [|intros _; vm_compute; discriminate].
  intros Hd. unfold Js.ofInt, Js.mul, Js.Math_min, option_map, timerDelay.
  rewrite Qfloor_Z.
  assert (Hfit : Qle_bool (inject_Z d) (inject_Z TIMEOUT_MAX) = true).
  { apply Qle_bool_iff. rewrite <- Zle_Qle. exact Hd. }
  rewrite Hfit, andb_true_r.
  destruct (Qle_bool 1 (inject_Z d)) eqn:H1.
  - apply Qle_bool_iff in H1. change 1%Q with (inject_Z 1) in H1.
    rewrite <- Zle_Qle in H1.
    assert (Hq : (inject_Z d * (33 # 100) <= inject_Z d)%Q).
    { unfold Qle. simpl. lia. }
    destruct (Qle_bool (inject_Z 2000) (inject_Z d * (33 # 100))) eqn:H2.
    + apply Qle_bool_iff in H2.
      assert (H3 : (inject_Z 2000 <= inject_Z d)%Q) by (eapply Qle_trans; eauto).
      rewrite <- Zle_Qle in H3.
      destruct (_ && _); [rewrite Qfloor_Z|]; lia.
    + destruct (_ && _); [|lia].
      rewrite <- (Qfloor_Z d) at 2. now apply Qfloor_resp_le.
  - assert (Hd0 : d <= 0).
    { destruct (Z.leb_spec 1 d) as [Hle|Hlt]; [|lia].
      rewrite Zle_Qle in Hle. apply Qle_bool_iff in Hle.
      change (inject_Z 1) with 1%Q in Hle. congruence. }
    assert (H2 : Qle_bool (inject_Z 2000) (inject_Z d * (33 # 100)) = false).
    { unfold Qle_bool. simpl. apply Z.leb_gt. lia. }
    rewrite H2.
    assert (H3 : Qle_bool 1 (inject_Z d * (33 # 100)) = false).
    { unfold Qle_bool. simpl. apply Z.leb_gt. lia. }
    rewrite H3. simpl. lia.
Qed.

(** X6.  Beyond that bound the order is reversed: for every [DELAY_MS]
    above 2147483647 the second timer of a job runs with delay 1 and the
    first with delay 2000. *)
Theorem overflow_reverses_timers cfg d :
  DELAY_MS cfg = Some d -> TIMEOUT_MAX < d ->
  timerDelay (Js.ofInt (DELAY_MS cfg)) = 1 /\
  timerDelay (BackendTs.processingDelay cfg) = 2000.
Proof.
  intros Hcfg Hd. unfold BackendTs.processingDelay. rewrite Hcfg.
  unfold Js.ofInt, Js.mul, Js.Math_min, option_map, timerDelay, TIMEOUT_MAX in *.
  split.
  - assert (H : Qle_bool (inject_Z d) (inject_Z 2147483647) = false).
    { unfold Qle_bool. simpl. apply Z.leb_gt. lia. }
    rewrite H. now rewrite andb_false_r.
  - assert (H : Qle_bool (inject_Z 2000) (inject_Z d * (33 # 100)) = true).
    { unfold Qle_bool. simpl. apply Z.leb_le. lia. }
    rewrite H. reflexivity.
Qed.

Lemma overflow_reverses_timers_witness :
  timerDelay (Js.ofInt (DELAY_MS overflowConfig)) = 1 /\
  timerDelay (BackendTs.processingDelay overflowConfig) = 2000.
Proof.
  apply (overflow_reverses_timers overflowConfig 3000000000).
  - vm_compute; reflexivity.
  - unfold TIMEOUT_MAX. lia.
Defined.

(** ** The timer queue *)

Lemma earliest_none (ts : list Timer) : earliest ts = None -> ts = [].
Proof.
  destruct ts as [|t ts]; simpl; auto.
  destruct (earliest ts) as [u|]; [destruct (due u <? due t)|]; discriminate.
Qed.

(** The timer that runs next is armed, and no armed timer is due earlier,
    nor due at the same time and armed earlier. *)
Lemma earliest_first (ts : list Timer) (m : Timer) :
  StronglySorted lt (map timerId ts) ->
  earliest ts = Some m ->
  In m ts /\
  forall t, In t ts ->
    due m < due t \/ (due m = due t /\ (timerId m <= timerId t)%nat).
Proof.
  revert m. induction ts as [|t0 ts IH]; intros m Hs Hm; simpl in *; [discriminate|].
  inversion Hs as [|? ? Hs' Hall]; subst.
  destruct (earliest ts) as [u|] eqn:Hu.
  - destruct (IH u Hs' eq_refl) as [Hin Hmin].
    destruct (Z.ltb_spec (due u) (due t0)) as [Hlt|Hge]; injection Hm as <-.
    + split; [now right|].
      intros t [<-|Ht]; [now left|now apply Hmin].
    + split; [now left|].
      intros t [<-|Ht]; [right; split; [reflexivity|lia]|].
      rewrite Forall_forall in Hall.
      assert (timerId t0 < timerId t)%nat by (apply Hall; now apply in_map).
      destruct (Hmin t Ht) as [?|[? ?]]; lia.
  - apply earliest_none in Hu. subst ts. injection Hm as <-.
    split; [now left|].
    intros t [<-|[]]. right. split; [reflexivity|lia].
Qed.

Lemma sorted_ids_inj (ts : list Timer) (a b : Timer) :
  StronglySorted lt (map timerId ts) ->
  In a ts -> In b ts -> timerId a = timerId b -> a = b.
Proof.
  induction ts as [|t ts IH]; intros Hs Ha Hb Heq; [contradiction|].
  simpl in Hs. inversion Hs as [|? ? Hs' Hall]; subst.
  rewrite Forall_forall in Hall.
  destruct Ha as [Ha|Ha], Hb as [Hb|Hb]; auto.
  - congruence.
  - subst t. assert (timerId a < timerId b)%nat by (apply Hall; now apply in_map). lia.
  - subst t. assert (timerId b < timerId a)%nat by (apply Hall; now apply in_map). lia.
Qed.

Lemma nodup_callback_inj (ts : list Timer) (a b : Timer) :
  NoDup (map callback ts) ->
  In a ts -> In b ts -> callback a = callback b -> a = b.
Proof.
  induction ts as [|t ts IH]; intros Hnd Ha Hb Heq; [contradiction|].
  simpl in Hnd. inversion Hnd as [|? ? Hnotin Hnd']; subst.
  destruct Ha as [Ha|Ha], Hb as [Hb|Hb]; auto.
  - congruence.
  - subst t. exfalso. apply Hnotin. rewrite Heq. now apply in_map.
  - subst t. exfalso. apply Hnotin. rewrite <- Heq. now apply in_map.
Qed.

Lemma clearTimer_In (id : nat) (ts : list Timer) (t : Timer) :
  In t (clearTimer id ts) <-> In t ts /\ timerId t <> id.
Proof.
  unfold clearTimer. rewrite filter_In.
  destruct (Nat.eqb_spec (timerId t) id); simpl; intuition congruence.
Qed.

Lemma clearTimer_sorted (id : nat) (ts : list Timer) :
  StronglySorted lt (map timerId ts) ->
  StronglySorted lt (map timerId (clearTimer id ts)).
Proof.
  induction ts as [|t ts IH]; simpl; intros Hs; [constructor|].
  inversion Hs as [|? ? Hs' Hall]; subst.
  destruct (negb (Nat.eqb (timerId t) id)); simpl; auto.
  constructor; auto.
  rewrite Forall_forall in *. intros x Hx.
  apply in_map_iff in Hx. destruct Hx as (u & <- & Hu).
  apply clearTimer_In in Hu. apply Hall. apply in_map. tauto.
Qed.

Lemma clearTimer_nodup (id : nat) (ts : list Timer) :
  NoDup (map callback ts) -> NoDup (map callback (clearTimer id ts)).
Proof.
  induction ts as [|t ts IH]; simpl; intros Hnd; [constructor|].
  inversion Hnd as [|? ? Hnotin Hnd']; subst.
  destruct (negb (Nat.eqb (timerId t) id)); simpl; auto.
  constructor; auto.
  intros Hx. apply Hnotin.
  apply in_map_iff in Hx. destruct Hx as (u & Hcb & Hu).
  apply clearTimer_In in Hu. rewrite <- Hcb. apply in_map. tauto.
Qed.

(** Removing the timer that ran removes its callback and keeps the rest. *)
Lemma clearTimer_others (ts : list Timer) (tm t : Timer) :
  StronglySorted lt (map timerId ts) -> NoDup (map callback ts) -> In tm ts ->
  (In t (clearTimer (timerId tm) ts) <-> In t ts /\ callback t <> callback tm).
Proof.
  intros Hs Hnd Htm. rewrite clearTimer_In. split; intros [Hin Hne]; split; auto.
  - intros Hcb. apply Hne. f_equal. eapply nodup_callback_inj; eauto.
  - intros Hid. apply Hne. f_equal. eapply sorted_ids_inj; eauto.
Qed.

Lemma findTimer_Some (id : nat) (ts : list Timer) (tm : Timer) :
  findTimer id ts = Some tm -> In tm ts /\ timerId tm = id.
Proof.
  unfold findTimer. intros H. apply find_some in H.
  destruct H as [Hin Heq]. split; [exact Hin|]. now apply Nat.eqb_eq.
Qed.

(** ** What holds under every order of the timers *)

Lemma consistent_new cfg (j : Job) :
  status j = pending -> completedAt j = None -> result j = None -> error j = None ->
  consistent cfg j = true.
Proof. unfold consistent. now intros -> -> -> ->. Qed.

Lemma consistent_processing cfg (j : Job) :
  consistent cfg j = true -> consistent cfg (set_status j processing) = true.
Proof.
  unfold consistent. cbn [set_status status completedAt result error terminal].
  destruct (isNone (completedAt j)).
  - destruct (isNone (result j)), (isNone (error j)); now cbn.
  - destruct (status j); cbn; intros H; try discriminate;
      try exact H; now apply andb_prop in H.
Qed.

Lemma consistent_terminal cfg (j : Job) (now : string) :
  consistent cfg j = true ->
  consistent cfg
    (if String.eqb (SIMULATE cfg) "fail"
     then set_completedAt
            (set_error (set_status j failed) (Some BackendTs.MOCK_FAIL_ERROR)) (Some now)
     else set_completedAt
            (set_result (set_status j completed) (Some BackendTs.MOCK_SUCCESS_RESULT))
            (Some now)) = true.
Proof.
  unfold consistent.
  destruct (String.eqb (SIMULATE cfg) "fail");
    cbn [set_completedAt set_error set_result set_status
         status completedAt result error isNone negb andb];
    destruct (isNone (completedAt j)), (isNone (result j)), (isNone (error j)),
             (status j); cbn; congruence.
Qed.

Lemma runCallback_consistent (v : Variant) cfg cb now (js : JsMap.t Job) :
  (forall id j, JsMap.get js id = Some j -> consistent cfg j = true) ->
  forall id j, JsMap.get (runCallback v cfg cb now js) id = Some j ->
    consistent cfg j = true.
Proof.
  intros Hall id j.
  destruct (String.eqb_spec id (cbJob cb)) as [->|Hne];
    [|rewrite runCallback_other by assumption; apply Hall].
  assert (Hv : runCallback v cfg = BackendTs.runCallback cfg) by now destruct v.
  rewrite Hv. destruct cb as [id0|id0]; cbn [cbJob BackendTs.runCallback].
  - rewrite onProcessing_get.
    destruct (JsMap.get js id0) as [j0|] eqn:E; [|discriminate].
    intros [= <-]. apply consistent_processing. eapply Hall; eauto.
  - rewrite onTerminal_get.
    destruct (JsMap.get js id0) as [j0|] eqn:E; [|discriminate].
    intros [= <-]. apply consistent_terminal. eapply Hall; eauto.
Qed.

Lemma step_keeps_consistent (v : Variant) cfg (st : State) (ev : Event) (st' : State) :
  (forall id j, JsMap.get (jobs st) id = Some j -> consistent cfg j = true) ->
  step v cfg st ev = Some st' ->
  forall id j, JsMap.get (jobs st') id = Some j -> consistent cfg j = true.
Proof.
  intros Hall. destruct ev as [t req uuid now|t tid now]; simpl.
  - destruct (clock st <=? t); [|discriminate].
    destruct (isUUID uuid); [|discriminate]. simpl.
    destruct (JsMap.get (jobs st) uuid) eqn:Hfresh; [discriminate|].
    match goal with |- context [handleRequest v cfg req uuid now ?s] =>
      pose proof (handleRequest_effect v cfg req uuid now s) as Heff;
      destruct (handleRequest v cfg req uuid now s) as [[r|e] s1]
    end; [|discriminate].
    intros [= <-]. cbn [snd] in Heff.
    destruct Heff as [->|(job & H)]; [exact Hall|].
    destruct H as (_ & Hst & _ & Hc & Hr & He & ->).
    rewrite scheduleJob_unfold. cbn [jobs set_jobs].
    intros id j. destruct (String.eqb_spec uuid id) as [<-|Hne].
    + rewrite get_set_same. intros [= <-]. now apply consistent_new.
    + rewrite get_set_other by assumption. apply Hall.
  - destruct (findTimer tid (timers st)) as [tm|]; [|discriminate].
    destruct (_ && _); [|discriminate].
    intros [= <-]. cbn [jobs]. now apply runCallback_consistent.
Qed.

Lemma run_keeps_consistent (v : Variant) cfg (evs : list Event) : forall st st',
  (forall id j, JsMap.get (jobs st) id = Some j -> consistent cfg j = true) ->
  run v cfg st evs = Some st' ->
  forall id j, JsMap.get (jobs st') id = Some j -> consistent cfg j = true.
Proof.
  induction evs as [|ev evs IH]; intros st st' Hall Hrun; simpl in Hrun.
  - now injection Hrun as <-.
  - destruct (step v cfg st ev) as [st1|] eqn:Hstep; [|discriminate].
    apply (IH st1 st'); [|exact Hrun].
    eapply step_keeps_consistent; eauto.
Qed.

Lemma reachable_consistent (v : Variant) cfg (st : State) (id : string) (j : Job) :
  reachable v cfg st -> JsMap.get (jobs st) id = Some j -> consistent cfg j = true.
Proof.
  intros [evs Hrun]. eapply run_keeps_consistent; [|exact Hrun].
  intros id0 j0 H. discriminate H.
Qed.

(** ** The invariant of a loop that is never late *)

Lemma Inv_initial : Inv initialState.
Proof.
  unfold Inv, initialState. simpl.
  repeat split; try constructor; try contradiction; discriminate.
Qed.

Lemma Inv_clock (st : State) (t : Z) :
  Inv st ->
  Inv {| jobs := jobs st; timers := timers st; nextTimer := nextTimer st; clock := t |}.
Proof. unfold Inv. simpl. auto. Qed.

Lemma sorted_snoc2 (ids : list nat) (n : nat) :
  StronglySorted lt ids -> Forall (fun i => (i < n)%nat) ids ->
  StronglySorted lt (ids ++ [n; S n]).
Proof.
  induction 1 as [|i ids Hs IH Hall]; intros Hlt; simpl.
  - repeat constructor.
  - inversion Hlt as [|? ? Hi Hlt']; subst.
    constructor; [now apply IH|].
    apply Forall_app. split; [exact Hall|].
    repeat constructor; lia.
Qed.

(** Storing a new pending job under a fresh identifier and arming its two
    timers keeps the invariant. *)
Lemma Inv_schedule cfg (st : State) (uuid : string) (job : Job) :
  timersInOrder cfg -> Inv st ->
  JsMap.get (jobs st) uuid = None ->
  status job = pending -> completedAt job = None ->
  result job = None -> error job = None ->
  Inv (BackendTs.scheduleJob cfg uuid (set_jobs st (JsMap.set (jobs st) uuid job))).
Proof.
  intros Hord (Hs & Hn & Hnd & Hk & Hj) Hfresh Hst Hc Hr He.
  rewrite scheduleJob_unfold. unfold set_jobs. cbn [jobs timers nextTimer clock].
  set (T1 := {| timerId := nextTimer st; callback := ToProcessing uuid |}).
  set (T2 := {| timerId := S (nextTimer st); callback := ToTerminal uuid |}).
  assert (Hold : forall t, In t (timers st) -> cbJob (callback t) <> uuid).
  { intros t Ht Heq. apply (Hk t Ht). now rewrite Heq. }
  unfold Inv. cbn [jobs timers nextTimer clock].
  split; [|split; [|split; [|split]]].
  - rewrite map_app. apply sorted_snoc2; auto.
    rewrite Forall_forall in *. intros i Hi.
    apply in_map_iff in Hi. destruct Hi as (t & <- & Ht). now apply Hn.
  - apply Forall_app. split.
    + eapply Forall_impl; [|exact Hn]. simpl. intros; lia.
    + repeat constructor; simpl; lia.
  - rewrite map_app. simpl.
    assert (Hno : forall cb, cbJob cb = uuid -> ~ In cb (map callback (timers st))).
    { intros cb Hcb Hin. apply in_map_iff in Hin. destruct Hin as (t & <- & Ht).
      now apply (Hold t Ht). }
    apply NoDup_app; [exact Hnd| |].
    + repeat constructor; simpl; [intros [H|[]]; discriminate|tauto].
    + intros cb Hin [<-|[<-|[]]]; [apply (Hno (ToProcessing uuid))|apply (Hno (ToTerminal uuid))];
        try exact Hin; reflexivity.
  - intros t Ht. apply in_app_or in Ht. destruct Ht as [Ht|[<-|[<-|[]]]].
    + rewrite get_set_other; [now apply Hk|].
      intros Heq. now apply (Hold t Ht).
    + simpl. rewrite get_set_same. discriminate.
    + simpl. rewrite get_set_same. discriminate.
  - intros id j Hget.
    destruct (String.eqb_spec uuid id) as [<-|Hne].
    + rewrite get_set_same in Hget. injection Hget as <-.
      unfold jobInv. split; [|split; [|split]].
      * unfold wellFormed. now rewrite Hst, Hr, He, Hc.
      * intros _. exists T1, T2.
        repeat split; try (apply in_or_app; right; simpl; tauto); simpl; try lia.
        unfold timersInOrder in Hord. lia.
      * congruence.
      * rewrite Hst. discriminate.
    + rewrite get_set_other in Hget by assumption.
      destruct (Hj id j Hget) as (Hw & Hp & Hnp & Ht).
      unfold jobInv. split; [exact Hw|split; [|split]].
      * intros Hpend. destruct (Hp Hpend) as (t1 & t2 & H1 & H2 & Hrest).
        exists t1, t2. repeat split; try tauto; apply in_or_app; now left.
      * intros Hpend t Hin. apply in_app_or in Hin.
        destruct Hin as [Hin|[<-|[<-|[]]]]; [now apply Hnp| |]; simpl; congruence.
      * intros Hterm t Hin. apply in_app_or in Hin.
        destruct Hin as [Hin|[<-|[<-|[]]]]; [now apply Ht| |]; simpl; congruence.
Qed.

(** Writing a record that has left pending back under the key of the timer
    that ran, and removing that timer, keeps the invariant, provided the
    remaining queue holds no first timer of the job, and no second one if
    the record is terminal. *)
Lemma Inv_fire_with (st : State) (tm : Timer) (id0 : string) (j' : Job) (t : Z) :
  Inv st -> In tm (timers st) -> cbJob (callback tm) = id0 ->
  wellFormed j' = true -> status j' <> pending ->
  (forall u, In u (clearTimer (timerId tm) (timers st)) ->
             callback u <> ToProcessing id0) ->
  (terminal (status j') = true ->
   forall u, In u (clearTimer (timerId tm) (timers st)) ->
             callback u <> ToTerminal id0) ->
  Inv {| jobs := JsMap.set (jobs st) id0 j';
         timers := clearTimer (timerId tm) (timers st);
         nextTimer := nextTimer st;
         clock := t |}.
Proof.
  intros (Hs & Hn & Hnd & Hk & Hj) Htm Hid Hw Hnp H3 H4.
  pose proof (fun u => clearTimer_others (timers st) tm u Hs Hnd Htm) as Hrest.
  unfold Inv. cbn [jobs timers nextTimer clock].
  split; [|split; [|split; [|split]]].
  - now apply clearTimer_sorted.
  - rewrite Forall_forall in *. intros u Hu. apply Hn. now apply clearTimer_In in Hu.
  - now apply clearTimer_nodup.
  - intros u Hu.
    destruct (String.eqb_spec id0 (cbJob (callback u))) as [<-|Hne].
    + rewrite get_set_same. discriminate.
    + rewrite get_set_other by assumption. apply Hk. now apply Hrest in Hu.
  - intros id j Hget.
    destruct (String.eqb_spec id0 id) as [<-|Hne].
    + rewrite get_set_same in Hget. injection Hget as <-.
      unfold jobInv. repeat split; auto. intros Hpend. contradiction.
    + rewrite get_set_other in Hget by assumption.
      destruct (Hj id j Hget) as (Hwj & Hp & Hnpj & Ht).
      unfold jobInv. split; [exact Hwj|split; [|split]].
      * intros Hpend. destruct (Hp Hpend) as (t1 & t2 & H1 & H2 & Hc1 & Hc2 & Hrest12).
        exists t1, t2.
        repeat split; try tauto; apply Hrest; (split; [assumption|]);
          intros Heq; apply Hne; rewrite <- Hid, <- Heq;
          [rewrite Hc1|rewrite Hc2]; reflexivity.
      * intros Hpend u Hu. apply Hnpj; auto. now apply Hrest in Hu.
      * intros Hterm u Hu. apply Ht; auto. now apply Hrest in Hu.
Qed.

Lemma mayFollow_refl (s : option JobStatus) : mayFollow s s = true.
Proof. destruct s as [[]|]; reflexivity. Qed.

(** Running the timer that is due first keeps the invariant, and moves the
    status of its job from pending to processing (first timer) or from
    processing to completed or failed (second timer). *)
Lemma Inv_fire (v : Variant) cfg (st : State) (tm : Timer) (now : string) (t : Z) :
  Inv st -> earliest (timers st) = Some tm ->
  Inv {| jobs := runCallback v cfg (callback tm) now (jobs st);
         timers := clearTimer (timerId tm) (timers st);
         nextTimer := nextTimer st;
         clock := t |} /\
  forall id,
    mayFollow (statusOf st id)
      (statusOf {| jobs := runCallback v cfg (callback tm) now (jobs st);
                   timers := clearTimer (timerId tm) (timers st);
                   nextTimer := nextTimer st;
                   clock := t |} id) = true.
Proof.
  intros HInv Hm.
  pose proof HInv as (Hs & Hn & Hnd & Hk & Hj).
  destruct (earliest_first _ _ Hs Hm) as [Htm Hmin].
  pose proof (fun u => clearTimer_others (timers st) tm u Hs Hnd Htm) as Hrest.
  assert (Hv : runCallback v cfg = BackendTs.runCallback cfg) by now destruct v.
  rewrite Hv.
  destruct (JsMap.get (jobs st) (cbJob (callback tm))) as [j|] eqn:Hget;
    [|exfalso; now apply (Hk tm Htm)].
  destruct (Hj _ _ Hget) as (Hw & Hp & Hnp & Hterm).
  destruct (callback tm) as [id0|id0] eqn:Hcb; cbn [cbJob] in *;
    cbn [BackendTs.runCallback].
  - (* the first timer *)
    assert (Hst : status j = pending).
    { destruct (status j) eqn:E; auto; exfalso;
        apply (Hnp ltac:(discriminate) tm Htm); exact Hcb. }
    unfold BackendTs.onProcessing. rewrite Hget.
    split.
    + apply Inv_fire_with; auto.
      * now rewrite Hcb.
      * unfold wellFormed in *. rewrite Hst in Hw. exact Hw.
      * discriminate.
      * intros u Hu. apply Hrest in Hu. tauto.
      * discriminate.
    + intros id. unfold statusOf. cbn [jobs].
      destruct (String.eqb_spec id0 id) as [<-|Hne].
      * rewrite get_set_same, Hget. simpl. now rewrite Hst.
      * rewrite get_set_other by assumption. apply mayFollow_refl.
  - (* the second timer *)
    assert (Hst : status j = processing).
    { destruct (status j) eqn:E; auto; exfalso.
      - destruct (Hp eq_refl) as (t1 & t2 & H1 & H2 & Hc1 & Hc2 & Hid & Hdue).
        assert (t2 = tm) by (eapply nodup_callback_inj; eauto; congruence).
        subst t2. destruct (Hmin t1 H1) as [?|[? ?]]; lia.
      - apply (Hterm eq_refl tm Htm); exact Hcb.
      - apply (Hterm eq_refl tm Htm); exact Hcb. }
    unfold BackendTs.onTerminal. rewrite Hget.
    assert (Hw0 : result j = None /\ error j = None).
    { unfold wellFormed in Hw. rewrite Hst in Hw.
      destruct (result j), (error j); try discriminate. now split. }
    destruct Hw0 as [Hr He].
    destruct (String.eqb (SIMULATE cfg) "fail"); split;
      try (apply Inv_fire_with; auto;
           [ now rewrite Hcb
           | unfold wellFormed; simpl; now rewrite ?Hr, ?He
           | discriminate
           | intros u Hu; apply Hrest in Hu; apply Hnp;
             [rewrite Hst; discriminate|tauto]
           | intros _ u Hu; apply Hrest in Hu; tauto ]);
      intros id; unfold statusOf; cbn [jobs];
      (destruct (String.eqb_spec id0 id) as [<-|Hne];
       [ rewrite get_set_same, Hget; simpl; now rewrite Hst
       | rewrite get_set_other by assumption; apply mayFollow_refl ]).
Qed.

(** One event keeps the invariant and changes every status as the state
    machine allows. *)
Lemma step_keeps_Inv (v : Variant) cfg (st : State) (ev : Event) (st' : State) :
  timersInOrder cfg -> Inv st -> onTime st ev = true -> step v cfg st ev = Some st' ->
  Inv st' /\ forall id, mayFollow (statusOf st id) (statusOf st' id) = true.
Proof.
  intros Hord HInv. destruct ev as [t req uuid now|t tid now]; simpl.
  - intros _.
    destruct (clock st <=? t); [|discriminate].
    destruct (isUUID uuid); [|discriminate]. simpl.
    destruct (JsMap.get (jobs st) uuid) eqn:Hfresh; [discriminate|].
    pose proof (Inv_clock st t HInv) as HInv0.
    match goal with |- context [handleRequest v cfg req uuid now ?s] =>
      set (st0 := s) in *;
      pose proof (handleRequest_effect v cfg req uuid now st0) as Heff;
      destruct (handleRequest v cfg req uuid now st0) as [[r|e] s1]
    end; [|discriminate].
    intros [= <-]. cbn [snd] in Heff.
    destruct Heff as [->|(job & H)].
    + split; [exact HInv0|]. intros id. apply mayFollow_refl.
    + destruct H as (_ & Hst & _ & Hc & Hr & He & ->).
      split; [now apply Inv_schedule|].
      intros id. rewrite scheduleJob_unfold. unfold statusOf. cbn [jobs set_jobs st0].
      destruct (String.eqb_spec uuid id) as [<-|Hne].
      * rewrite get_set_same, Hfresh. simpl. now rewrite Hst.
      * rewrite get_set_other by assumption. apply mayFollow_refl.
  - destruct (earliest (timers st)) as [tm0|] eqn:Hm; [|discriminate].
    intros Hid. apply Nat.eqb_eq in Hid.
    destruct (findTimer tid (timers st)) as [tm|] eqn:Hf; [|discriminate].
    assert (tm = tm0).
    { destruct HInv as (Hs & _).
      destruct (findTimer_Some _ _ _ Hf) as [Hin Htid].
      destruct (earliest_first _ _ Hs Hm) as [Hin0 _].
      eapply sorted_ids_inj; eauto. congruence. }
    subst tm0.
    destruct (_ && _); [|discriminate].
    intros [= <-]. now apply Inv_fire.
Qed.

Lemma run_keeps_Inv (v : Variant) cfg (evs : list Event) : forall st st',
  timersInOrder cfg -> Inv st -> inDueOrder v cfg st evs = true ->
  run v cfg st evs = Some st' -> Inv st'.
Proof.
  induction evs as [|ev evs IH]; intros st st' Hord HInv Hdue Hrun;
    simpl in Hrun, Hdue.
  - now injection Hrun as <-.
  - apply andb_prop in Hdue. destruct Hdue as [Hon Hdue].
    destruct (step v cfg st ev) as [st1|] eqn:Hstep; [|discriminate].
    apply (IH st1 st' Hord); auto.
    now destruct (step_keeps_Inv v cfg st ev st1 Hord HInv Hon Hstep).
Qed.

(** X1.  In every state the process reaches, under every configuration
    and whatever the order in which the timers run, a record of the store
    is consistent: pending or processing with no result, error or
    completion time, or, once its second timer has run, with a completion
    time and the result or the error of the simulation mode, its status
    terminal, or processing when its first timer ran after the second.
    When moreover [DELAY_MS] does not exceed 2147483647 and every timer
    event of the run ran the armed timer that was due first (the one armed
    first among those due at the same time), as in a loop that is never
    late, the record satisfies the record invariant. *)
Theorem records_are_consistent_and_well_formed_in_due_order
  (v : Variant) cfg (evs : list Event) (st : State) (id : string) (j : Job) :
  run v cfg initialState evs = Some st ->
  JsMap.get (jobs st) id = Some j ->
  consistent cfg j = true /\
  (delayFitsTimer cfg -> inDueOrder v cfg initialState evs = true ->
   wellFormed j = true).
Proof.
  intros Hrun Hget. split.
  - eapply reachable_consistent; [exists evs; exact Hrun|exact Hget].
  - intros Hfit Hdue.
    assert (HInv : Inv st).
    { eapply run_keeps_Inv; eauto using Inv_initial, delayFitsTimer_timersInOrder. }
    destruct HInv as (_ & _ & _ & _ & Hj).
    now destruct (Hj id j Hget).
Qed.

(** X2.  Unless [DELAY_MS] exceeds 2147483647, in a run in which every
    timer event runs the armed timer that is due first (the one armed
    first among those due at the same time), as in a loop that is never
    late, every event changes the status of every job only along pending,
    processing, completed or failed: a job appears as pending, and no
    event skips processing or leaves a terminal status. *)
Theorem statuses_follow_the_state_machine_in_due_order
  (v : Variant) cfg (evs : list Event) (st : State) (ev : Event) (st' : State)
  (id : string) :
  delayFitsTimer cfg ->
  run v cfg initialState evs = Some st ->
  inDueOrder v cfg initialState evs = true ->
  onTime st ev = true ->
  step v cfg st ev = Some st' ->
  mayFollow (statusOf st id) (statusOf st' id) = true.
Proof.
  intros Hfit Hrun Hdue Hon Hstep.
  assert (Hord : timersInOrder cfg) by now apply delayFitsTimer_timersInOrder.
  assert (HInv : Inv st) by (eapply run_keeps_Inv; eauto using Inv_initial).
  now destruct (step_keeps_Inv v cfg st ev st' Hord HInv Hon Hstep) as [_ H].
Qed.

Lemma records_are_consistent_and_well_formed_in_due_order_witness :
  exists j, JsMap.get (jobs sampleState) sampleId1 = Some j /\
            consistent defaultConfig j = true /\ wellFormed j = true.
Proof.
  eexists. split; [vm_compute; reflexivity|].
  destruct (records_are_consistent_and_well_formed_in_due_order Tls defaultConfig
              sampleRun sampleState sampleId1 _
              ltac:(vm_compute; reflexivity) ltac:(vm_compute; reflexivity))
    as [Hc Hw].
  split; [exact Hc|]. apply Hw.
  - unfold delayFitsTimer, TIMEOUT_MAX. simpl. lia.
  - vm_compute; reflexivity.
Defined.

Lemma statuses_follow_the_state_machine_in_due_order_witness :
  mayFollow
    (statusOf sampleState sampleId2)
    (statusOf
       (match step PlainHttp defaultConfig sampleState
                (TimerFires 2480 2 "2024-05-01T10:00:02.480Z") with
        | Some st => st
        | None => sampleState
        end) sampleId2) = true.
Proof.
  apply (statuses_follow_the_state_machine_in_due_order PlainHttp defaultConfig
           sampleRun sampleState (TimerFires 2480 2 "2024-05-01T10:00:02.480Z")).
  - unfold delayFitsTimer, TIMEOUT_MAX. simpl. lia.
  - vm_compute; reflexivity.
  - vm_compute; reflexivity.
  - vm_compute; reflexivity.
  - vm_compute; reflexivity.
Defined.

(** The step of that witness takes the second job from pending to
    processing. *)
Example second_job_starts_processing :
  statusOf sampleState sampleId2 = Some pending /\
  option_map (fun st => statusOf st sampleId2)
    (step PlainHttp defaultConfig sampleState
       (TimerFires 2480 2 "2024-05-01T10:00:02.480Z")) = Some (Some processing).
Proof. split; reflexivity. Qed.

(** With [DELAY_MS=0] both timers run with delay 1 and the first one, armed
    first, is the one a loop that is not late runs first; with
    [DELAY_MS=100] they are due after 33 ms and 100 ms. *)
Example zero_delay_keeps_the_order :
  option_map (fun st => map (fun t => (callback t, due t)) (timers st))
    (run Tls zeroConfig initialState (firstn 1 overflowRun)) =
    Some [(ToProcessing sampleId1, 1); (ToTerminal sampleId1, 1)] /\
  inDueOrder Tls zeroConfig initialState
    [Incoming 0 (submit (Some "test-client-key") (Some sampleBody)) sampleId1
       "2024-05-01T10:00:00.000Z";
     TimerFires 1 0 "2024-05-01T10:00:00.001Z";
     TimerFires 1 1 "2024-05-01T10:00:00.001Z"] = true /\
  statusTrace Tls zeroConfig initialState
    [Incoming 0 (submit (Some "test-client-key") (Some sampleBody)) sampleId1
       "2024-05-01T10:00:00.000Z";
     TimerFires 1 0 "2024-05-01T10:00:00.001Z";
     TimerFires 1 1 "2024-05-01T10:00:00.001Z"] sampleId1 =
    [Some pending; Some processing; Some completed].
Proof. repeat split; reflexivity. Qed.

Example short_delay_timers :
  option_map (fun st => map (fun t => (callback t, due t)) (timers st))
    (run PlainHttp shortConfig initialState (firstn 1 overflowRun)) =
    Some [(ToProcessing sampleId1, 33); (ToTerminal sampleId1, 100)].
Proof. reflexivity. Qed.

(** A loop that is late may run the timers out of their due order, and the
    conditions on the order cannot be dropped: under the default
    configuration, with the second job submitted 4100 ms after the first
    and the loop back only at 10200 ms, the second timer of the second
    job, due at 10100, runs before its first timer, due at 6080.  The job
    goes from pending to completed and then to processing, and is left
    processing with a result. *)
Example late_loop_runs_the_terminal_timer_first :
  delayFitsTimer defaultConfig /\
  inDueOrder Tls defaultConfig initialState lateRun = false /\
  statusTrace Tls defaultConfig initialState lateRun sampleId2 =
    [None; None; Some pending; Some pending; Some completed; Some processing] /\
  option_map
    (fun st => option_map (fun j => (wellFormed j, consistent defaultConfig j,
                                     isNone (result j)))
                 (JsMap.get (jobs st) sampleId2))
    (run Tls defaultConfig initialState lateRun) =
    Some (Some (false, true, false)).
Proof.
  split; [unfold delayFitsTimer, TIMEOUT_MAX; simpl; lia|].
  repeat split; vm_compute; reflexivity.
Qed.

(** * Submission, for every body but [null] *)

Lemma filterMissing_normal (body : Js.value) :
  body <> Js.Null -> body <> Js.Undefined ->
  BackendTs.filterMissing body BackendTs.required = Js.Normal (missingOf body).
Proof.
  intros Hn Hu. destruct body; try contradiction; reflexivity.
Qed.

Lemma makeJob_normal cfg (body : Js.value) (uuid now : string) (st : State) :
  body <> Js.Null -> body <> Js.Undefined ->
  BackendTs.makeJob cfg body uuid now st =
  Js.Normal
    ({| jobId := uuid; status := pending;
        organizationUrl := field body "organizationUrl";
        projectId := field body "projectId";
        repositoryId := field body "repositoryId";
        pullRequestId := field body "pullRequestId";
        iterationId := field body "iterationId";
        submittedAt := now; completedAt := None; result := None; error := None |},
     BackendTs.scheduleJob cfg uuid
       (set_jobs st
          (JsMap.set (jobs st) uuid
             {| jobId := uuid; status := pending;
                organizationUrl := field body "organizationUrl";
                projectId := field body "projectId";
                repositoryId := field body "repositoryId";
                pullRequestId := field body "pullRequestId";
                iterationId := field body "iterationId";
                submittedAt := now; completedAt := None; result := None;
                error := None |}))).
Proof.
  intros Hn Hu. destruct body; try contradiction; reflexivity.
Qed.


Lemma uuid_has_no_slash (s : string) (i : nat) :
  uuidFrom i s = true -> allChars (fun c => negb (Ascii.eqb c "/")) s = true.
Proof.
  revert i. induction s as [|c s IH]; intros i H; simpl in *; auto.
  apply andb_true_iff in H. destruct H as [Hc Hs].
  rewrite (IH _ Hs), andb_true_r.
  destruct (Ascii.eqb_spec c "/") as [->|_]; [|reflexivity].
  destruct (_ || _); vm_compute in Hc; discriminate.
Qed.

Lemma pollMatch_uuid (id : string) :
  isUUID id = true -> pollMatch ("/reviews/" ++ id) = Some id.
Proof.
  intros H. unfold pollMatch. simpl.
  rewrite (uuid_has_no_slash id 0 H).
  destruct id; [discriminate|reflexivity].
Qed.

(** X4.  A job of the store stays observable: after any further run at
    whose end the process is alive (a handler that throws ends it) it is
    still stored, with the fields set at creation unchanged; an authorised
    get of its identifier answers 200 with its current record, and an
    authorised list answers 200 with a sequence that contains it. *)
Theorem stored_job_stays_observable
  (v : Variant) cfg (st : State) (evs : list Event) (st' : State)
  (id : string) (job : Job) :
  isUUID id = true ->
  JsMap.get (jobs st) id = Some job ->
  run v cfg st evs = Some st' ->
  exists job',
    JsMap.get (jobs st') id = Some job' /\ sameIdentity job job' /\
    (forall uuid now, exists r,
        handleRequest v cfg (poll (Some (CLIENT_KEY cfg)) id) uuid now st' =
          (Sent r, st') /\
        statusCode r = 200 /\
        body r = Some (BackendTs.jobToStatusResponse job')) /\
    (forall uuid now, exists listed r,
        handleRequest v cfg (listAll (Some (CLIENT_KEY cfg))) uuid now st' =
          (Sent r, st') /\
        statusCode r = 200 /\
        body r = Some (Js.Arr (map BackendTs.jobToListItem listed)) /\
        In job' listed).
Proof.
  intros Hid Hget Hrun.
  assert (Hret : retains (jobs st) (jobs st')).
  { clear Hget. revert st Hrun. induction evs as [|ev evs IH]; intros st Hrun;
      simpl in Hrun.
    - injection Hrun as <-. apply retains_refl.
    - destruct (step v cfg st ev) as [st1|] eqn:Hstep; [|discriminate].
      eapply retains_trans; [eapply step_retains; eauto|now apply IH]. }
  destruct (Hret id job Hget) as (job' & Hget' & Hsame).
  exists job'. split; [exact Hget'|]. split; [exact Hsame|]. split.
  - intros uuid now.
    pose proof (pollMatch_uuid id Hid) as Hpm.
    enter_router v hdrs;
      rewrite (checkAuth_accepts cfg (poll (Some (CLIENT_KEY cfg)) id) hdrs eq_refl);
      cbn [method poll];
      rewrite Hpm; simpl; rewrite Hget'; eexists; repeat split; reflexivity.
  - intros uuid now.
    exists (JsArray.sort (fun a b => localeCompare (submittedAt b) (submittedAt a))
              (JsMap.values (jobs st'))).
    assert (Hin : In job'
      (JsArray.sort (fun a b => localeCompare (submittedAt b) (submittedAt a))
         (JsMap.values (jobs st')))).
    { eapply Permutation_in; [symmetry; apply (sort_perm submittedAt)|].
      eapply get_In_values; eauto. }
    enter_router v hdrs;
      rewrite (checkAuth_accepts cfg (listAll (Some (CLIENT_KEY cfg))) hdrs eq_refl);
      simpl; eexists; repeat split; auto.
Qed.


(** The values of the wrong type are accepted and stored as they came; a
    payload that does not parse, and one that lacks a key, are refused
    with the keys named. *)
Example odd_values_are_stored_verbatim :
  option_map
    (fun j => (organizationUrl j, projectId j, repositoryId j, pullRequestId j,
               iterationId j))
    (JsMap.get
       (jobs (snd (handleRequest Tls defaultConfig
                     (submit (Some "test-client-key") (Some oddBody))
                     sampleId1 "2024-05-01T10:00:00.000Z" initialState)))
       sampleId1) =
  Some (Js.Num (inject_Z 5), Js.Str "", Js.Arr [], Js.Bool false, Js.Num (inject_Z 0)).
Proof. reflexivity. Qed.

Example unparsable_payload_names_all_keys :
  observe (fst (handleRequest PlainHttp defaultConfig
                  (submit (Some "test-client-key") None)
                  sampleId1 "2024-05-01T10:00:00.000Z" initialState)) =
  Some (422,
        Some (Js.Obj [("error", Js.Str
          "Missing required fields: organizationUrl, projectId, repositoryId, pullRequestId, iterationId")])).
Proof. reflexivity. Qed.

Example missing_pullRequestId_is_named :
  observe (fst (handleRequest Tls defaultConfig
                  (submit (Some "test-client-key")
                     (Some (Js.Obj [("organizationUrl", Js.Str "https://dev.azure.com/acme/");
                                    ("projectId", Js.Str "p1");
                                    ("repositoryId", Js.Str "r1");
                                    ("pullRequestId", Js.Null);
                                    ("iterationId", Js.Num (inject_Z 1))])))
                  sampleId1 "2024-05-01T10:00:00.000Z" initialState)) =
  Some (422,
        Some (Js.Obj [("error", Js.Str "Missing required fields: pullRequestId")])).
Proof. reflexivity. Qed.

(** A pull request id without a string form: the five keys are present,
    the job is stored and its timers are armed, and the handler dies of
    the line it logs before it would answer 202, in both backends; the
    process ends. *)
Example unprintable_pull_request_id_dies_after_storing :
  missingOf unprintableBody = [] /\
  fst (handleRequest Tls defaultConfig
         (submit (Some "test-client-key") (Some unprintableBody))
         sampleId1 "2024-05-01T10:00:00.000Z" initialState) =
    Uncaught "TypeError: Cannot convert object to primitive value" /\
  fst (handleRequest PlainHttp defaultConfig
         (submit (Some "test-client-key") (Some unprintableBody))
         sampleId1 "2024-05-01T10:00:00.000Z" initialState) =
    Uncaught "TypeError: Cannot convert object to primitive value" /\
  (let st' := snd (handleRequest Tls defaultConfig
                     (submit (Some "test-client-key") (Some unprintableBody))
                     sampleId1 "2024-05-01T10:00:00.000Z" initialState) in
   (JsMap.keys (jobs st'), map callback (timers st')) =
     ([sampleId1], [ToProcessing sampleId1; ToTerminal sampleId1])) /\
  step Tls defaultConfig initialState
    (Incoming 0 (submit (Some "test-client-key") (Some unprintableBody))
       sampleId1 "2024-05-01T10:00:00.000Z") = None.
Proof. repeat split; vm_compute; reflexivity. Qed.

Lemma stored_job_stays_observable_witness :
  exists job',
    JsMap.get (jobs sampleState) sampleId1 = Some job' /\
    sameIdentity
      {| jobId := sampleId1; status := pending;
         organizationUrl := Js.Str "https://dev.azure.com/acme/";
         projectId := Js.Str "p1"; repositoryId := Js.Str "r1";
         pullRequestId := Js.Num (inject_Z 7); iterationId := Js.Num (inject_Z 1);
         submittedAt := "2024-05-01T10:00:00.000Z";
         completedAt := None; result := None; error := None |} job' /\
    (forall uuid now, exists r,
        handleRequest Tls defaultConfig
          (poll (Some (CLIENT_KEY defaultConfig)) sampleId1) uuid now sampleState =
          (Sent r, sampleState) /\
        statusCode r = 200 /\
        body r = Some (BackendTs.jobToStatusResponse job')) /\
    (forall uuid now, exists listed r,
        handleRequest Tls defaultConfig
          (listAll (Some (CLIENT_KEY defaultConfig))) uuid now sampleState =
          (Sent r, sampleState) /\
        statusCode r = 200 /\
        body r = Some (Js.Arr (map BackendTs.jobToListItem listed)) /\
        In job' listed).
Proof.
  apply (stored_job_stays_observable Tls defaultConfig
           (snd (handleRequest Tls defaultConfig
                   (submit (Some "test-client-key") (Some sampleBody))
                   sampleId1 "2024-05-01T10:00:00.000Z" initialState))
           (tl sampleRun) sampleState sampleId1).
  - vm_compute; reflexivity.
  - vm_compute; reflexivity.
  - vm_compute; reflexivity.
Defined.

(** * The routes the backends answer *)

(** X7.  A request changes the state only when it is a submission with
    the right key whose body lacks none of the required keys: listing,
    polling, preflight, refused and unknown requests, and requests whose
    target does not parse, leave the store and the timers as they were.
    Such a submission is answered 202, unless its pull request id has no
    string form: then the handler throws with the state changed, and the
    process ends. *)
Theorem only_accepted_submissions_change_the_state
  (v : Variant) cfg (req : Request) (uuid now : string) (st : State) :
  snd (handleRequest v cfg req uuid now st) <> st ->
  method req = "POST" /\ pathname req = Js.Normal "/reviews" /\
  x_client_key req = Some (CLIENT_KEY cfg) /\
  missingOf (BackendTs.readBody req) = [] /\
  (if Js.toStringThrows (field (BackendTs.readBody req) "pullRequestId")
   then fst (handleRequest v cfg req uuid now st) =
          Uncaught "TypeError: Cannot convert object to primitive value" /\
        step v cfg st (Incoming (clock st) req uuid now) = None
   else exists r, fst (handleRequest v cfg req uuid now st) = Sent r /\
                  statusCode r = 202).
Proof.
  intros Hch.
  assert (Hdies : forall o, fst (handleRequest v cfg req uuid now st) = Uncaught o ->
    step v cfg st (Incoming (clock st) req uuid now) = None).
  { intros o Ho. cbn [step].
    destruct (_ && _); [|reflexivity].
    replace {| jobs := jobs st; timers := timers st; nextTimer := nextTimer st;
               clock := clock st |} with st by now destruct st.
    destruct (handleRequest v cfg req uuid now st) as [[r|e] s1]; [discriminate|].
    reflexivity. }
  assert (Hroute : forall hdrs p,
    snd (BackendTs.route cfg req hdrs p uuid now st) <> st ->
    method req = "POST" /\ p = "/reviews" /\
    x_client_key req = Some (CLIENT_KEY cfg) /\
    missingOf (BackendTs.readBody req) = [] /\
    fst (BackendTs.route cfg req hdrs p uuid now st) =
      if Js.toStringThrows (field (BackendTs.readBody req) "pullRequestId")
      then Uncaught "TypeError: Cannot convert object to primitive value"
      else Sent (BackendTs.send hdrs 202 (Js.Obj [("jobId", Js.Str uuid)]))).
  { intros hdrs p. unfold BackendTs.route. cbv zeta.
    destruct (String.eqb_spec (method req) "POST") as [Hm|Hm]; cbn [andb].
    - destruct (String.eqb_spec p "/reviews") as [Hp|Hp].
      + unfold BackendTs.checkAuth.
        destruct (x_client_key req) as [key|]; [|intros H; now elim H].
        destruct (String.eqb_spec key (CLIENT_KEY cfg)) as [->|];
          [|intros H; now elim H].
        destruct (BackendTs.readBody req) as [| |b|q|t|items|props] eqn:Hbody;
          try (intros H; now elim H);
          rewrite filterMissing_normal by discriminate;
          (destruct (missingOf _) as [|k ks] eqn:Hmiss; [|intros H; now elim H]);
          rewrite makeJob_normal by discriminate; cbn [pullRequestId jobId];
          intros _; repeat split; auto;
          destruct (Js.toStringThrows _); reflexivity.
      + rewrite Hm. cbn [String.eqb Ascii.eqb Bool.eqb andb].
        intros H; now elim H.
    - destruct (String.eqb (method req) "GET" && String.eqb p "/reviews").
      + destruct (BackendTs.checkAuth cfg req hdrs); intros H; now elim H.
      + destruct (if String.eqb (method req) "GET" then pollMatch p else None);
          [|intros H; now elim H].
        destruct (BackendTs.checkAuth cfg req hdrs); [intros H; now elim H|].
        destruct (JsMap.get (jobs st) s); intros H; now elim H. }
  assert (Hall :
    method req = "POST" /\ pathname req = Js.Normal "/reviews" /\
    x_client_key req = Some (CLIENT_KEY cfg) /\
    missingOf (BackendTs.readBody req) = [] /\
    exists hdrs,
    fst (handleRequest v cfg req uuid now st) =
      if Js.toStringThrows (field (BackendTs.readBody req) "pullRequestId")
      then Uncaught "TypeError: Cannot convert object to primitive value"
      else Sent (BackendTs.send hdrs 202 (Js.Obj [("jobId", Js.Str uuid)]))).
  { revert Hch. clear Hdies.
    destruct (pathname req) as [p|e] eqn:Hpath;
      enter_router v hdrs; fold (BackendTs.route cfg req hdrs p uuid now st) || idtac;
      (destruct (String.eqb (method req) "OPTIONS"); [intros H; now elim H|]);
      try (intros H; now elim H);
      intros H; destruct (Hroute hdrs p H) as (H1 & -> & H3 & H4 & H5); eauto 10. }
  destruct Hall as (H1 & H2 & H3 & H4 & hdrs & H5).
  repeat (split; [assumption|]).
  destruct (Js.toStringThrows _).
  - split; [exact H5|]. now apply (Hdies _ H5).
  - eexists. split; [exact H5|reflexivity].
Qed.

Lemma only_accepted_submissions_change_the_state_witness :
  let req := submit (Some "test-client-key") (Some sampleBody) in
  method req = "POST" /\ pathname req = Js.Normal "/reviews" /\
  x_client_key req = Some (CLIENT_KEY defaultConfig) /\
  missingOf (BackendTs.readBody req) = [] /\
  (if Js.toStringThrows (field (BackendTs.readBody req) "pullRequestId")
   then fst (handleRequest PlainHttp defaultConfig req
               sampleId1 "2024-05-01T10:00:00.000Z" initialState) =
          Uncaught "TypeError: Cannot convert object to primitive value" /\
        step PlainHttp defaultConfig initialState
          (Incoming (clock initialState) req sampleId1 "2024-05-01T10:00:00.000Z") = None
   else exists r,
          fst (handleRequest PlainHttp defaultConfig req
                 sampleId1 "2024-05-01T10:00:00.000Z" initialState) = Sent r /\
          statusCode r = 202).
Proof.
  apply (only_accepted_submissions_change_the_state PlainHttp defaultConfig
           (submit (Some "test-client-key") (Some sampleBody))
           sampleId1 "2024-05-01T10:00:00.000Z" initialState).
  vm_compute. discriminate.
Defined.

Lemma pollMatch_not_list (p id : string) :
  pollMatch p = Some id -> String.eqb p "/reviews" = false.
Proof.
  intros H. destruct (String.eqb_spec p "/reviews") as [->|]; [|reflexivity].
  vm_compute in H. discriminate.
Qed.

(** X8.  Polling an id the store does not hold, with the right key, is
    answered 404 with the message [Job not found: <id>], whatever the id
    looks like, and changes nothing. *)
Theorem polling_an_unknown_job_is_not_found
  (v : Variant) cfg (req : Request) (uuid now : string) (st : State)
  (path id : string) :
  method req = "GET" ->
  pathname req = Js.Normal path ->
  pollMatch path = Some id ->
  x_client_key req = Some (CLIENT_KEY cfg) ->
  JsMap.get (jobs st) id = None ->
  exists r,
    handleRequest v cfg req uuid now st = (Sent r, st) /\
    statusCode r = 404 /\
    body r = Some (Js.Obj [("error", Js.Str ("Job not found: " ++ id))]).
Proof.
  intros Hm Hpath Hp Hk Hg.
  enter_router v hdrs;
    rewrite Hm, (pollMatch_not_list _ _ Hp); cbn [String.eqb Ascii.eqb Bool.eqb andb];
    rewrite Hp, (checkAuth_accepts cfg req hdrs Hk), Hg;
    eexists; repeat split; reflexivity.
Qed.

Lemma polling_an_unknown_job_is_not_found_witness :
  exists r,
    handleRequest Tls defaultConfig (poll (Some "test-client-key") sampleId2)
      sampleId3 "2024-05-01T10:00:01.000Z" initialState = (Sent r, initialState) /\
    statusCode r = 404 /\
    body r = Some (Js.Obj [("error", Js.Str ("Job not found: " ++ sampleId2))]).
Proof.
  apply (polling_an_unknown_job_is_not_found Tls defaultConfig
           (poll (Some "test-client-key") sampleId2)
           sampleId3 "2024-05-01T10:00:01.000Z" initialState
           ("/reviews/" ++ sampleId2) sampleId2);
    reflexivity.
Defined.

(** X9.  A request that is neither a preflight nor one of the three job
    operations, and whose target parses, is answered 404 [Not found]
    before the key is looked at: a missing or wrong key does not turn the
    answer into 401.  A target the URL constructor refuses, such as [//],
    is not answered at all: the handler throws, with the state as it
    was. *)
Theorem other_routes_are_not_found_whatever_the_key
  (v : Variant) cfg (req : Request) (uuid now : string) (st : State) :
  method req <> "OPTIONS" ->
  isJobOperation req = false ->
  match pathname req with
  | Js.Normal _ =>
      exists r,
        handleRequest v cfg req uuid now st = (Sent r, st) /\
        statusCode r = 404 /\
        body r = Some (Js.Obj [("error", Js.Str "Not found")])
  | Js.Throw e => handleRequest v cfg req uuid now st = (Uncaught e, st)
  end.
Proof.
  intros Hm Hop. unfold isJobOperation in Hop.
  apply String.eqb_neq in Hm.
  destruct (pathname req) as [p|e] eqn:Hpath.
  - enter_router v hdrs; rewrite Hm;
      destruct (String.eqb (method req) "POST");
      destruct (String.eqb (method req) "GET");
      destruct (String.eqb p "/reviews");
      destruct (pollMatch p);
      try discriminate Hop; cbn; eexists; repeat split; reflexivity.
  - enter_router v hdrs; now rewrite Hm.
Qed.

Lemma other_routes_are_not_found_whatever_the_key_witness :
  (exists r,
     handleRequest PlainHttp defaultConfig
       {| method := "DELETE"; pathname := Js.Normal ("/reviews/" ++ sampleId1);
          origin := None; x_client_key := None; payload := None |}
       sampleId3 "2024-05-01T10:00:09.000Z" sampleState = (Sent r, sampleState) /\
     statusCode r = 404 /\
     body r = Some (Js.Obj [("error", Js.Str "Not found")])) /\
  handleRequest Tls defaultConfig badTarget
    sampleId3 "2024-05-01T10:00:09.000Z" sampleState =
    (Uncaught "TypeError: Invalid URL", sampleState).
Proof.
  split.
  - apply (other_routes_are_not_found_whatever_the_key PlainHttp defaultConfig
             {| method := "DELETE"; pathname := Js.Normal ("/reviews/" ++ sampleId1);
                origin := None; x_client_key := None; payload := None |}
             sampleId3 "2024-05-01T10:00:09.000Z" sampleState).
    + simpl. discriminate.
    + reflexivity.
  - apply (other_routes_are_not_found_whatever_the_key Tls defaultConfig badTarget
             sampleId3 "2024-05-01T10:00:09.000Z" sampleState).
    + simpl. discriminate.
    + reflexivity.
Defined.

(** * The CORS headers *)

Lemma header_cors_ts (o : string) (pre : bool) (rest : list (string * string)) :
  header "Access-Control-Allow-Origin" (BackendTs.setCorsHeaders o pre ++ rest)%list
    = Some (if BackendTs.isOriginAllowed o then o else "http://localhost:3000") /\
  header "Access-Control-Allow-Methods" (BackendTs.setCorsHeaders o pre ++ rest)%list
    = Some "GET, POST, OPTIONS" /\
  header "Access-Control-Allow-Headers" (BackendTs.setCorsHeaders o pre ++ rest)%list
    = Some "Content-Type, X-Client-Key, X-Ado-Token" /\
  header "Vary" (BackendTs.setCorsHeaders o pre ++ rest)%list = Some "Origin" /\
  header "Access-Control-Allow-Private-Network"
    (BackendTs.setCorsHeaders o pre ++ rest)%list
    = (if pre then Some "true"
       else header "Access-Control-Allow-Private-Network" rest) /\
  header "Content-Type" (BackendTs.setCorsHeaders o pre ++ rest)%list
    = header "Content-Type" rest.
Proof.
  unfold BackendTs.setCorsHeaders. destruct pre; repeat split; reflexivity.
Qed.

Lemma header_cors_js (o : string) (rest : list (string * string)) :
  header "Access-Control-Allow-Origin" (BackendJs.setCorsHeaders o ++ rest)%list
    = Some (if originAllowed PlainHttp o then o else "http://localhost:3000") /\
  header "Access-Control-Allow-Methods" (BackendJs.setCorsHeaders o ++ rest)%list
    = Some "GET, POST, OPTIONS" /\
  header "Access-Control-Allow-Headers" (BackendJs.setCorsHeaders o ++ rest)%list
    = Some "Content-Type, X-Client-Key, X-Ado-Token" /\
  header "Vary" (BackendJs.setCorsHeaders o ++ rest)%list = Some "Origin" /\
  header "Access-Control-Allow-Private-Network" (BackendJs.setCorsHeaders o ++ rest)%list
    = header "Access-Control-Allow-Private-Network" rest /\
  header "Content-Type" (BackendJs.setCorsHeaders o ++ rest)%list
    = header "Content-Type" rest.
Proof.
  unfold BackendJs.setCorsHeaders. repeat split; reflexivity.
Qed.

(** Every response either backend sends has the CORS headers it set on
    entry, followed by nothing (preflight) or by the JSON content type. *)
Lemma response_headers (v : Variant) cfg (req : Request) (uuid now : string)
  (st st' : State) (r : Response) :
  handleRequest v cfg req uuid now st = (Sent r, st') ->
  let pre := String.eqb (method req) "OPTIONS" in
  headers r =
    ((match v with
      | PlainHttp => BackendJs.setCorsHeaders (Js.orElse (origin req) "")
      | Tls => BackendTs.setCorsHeaders (Js.orElse (origin req) "") pre
      end) ++ (if pre then [] else [("Content-Type", "application/json")]))%list /\
  (pre = true -> statusCode r = 204 /\ body r = None /\ st' = st).
Proof.
  destruct (pathname req) as [p|e] eqn:Hpath;
  enter_router v hdrs; subst hdrs;
    (destruct (String.eqb (method req) "OPTIONS");
     [ intros H; injection H as <- <-; cbn; try rewrite app_nil_r;
       split; [reflexivity | auto]
     | ]);
    unfold BackendTs.checkAuth;
    repeat match goal with
      | |- context [match ?c with _ => _ end] =>
          lazymatch c with
          | context [match _ with _ => _ end] => fail
          | _ => destruct c
          end
      end;
    intros H; try discriminate H; injection H as <- <-; cbn;
    (split; [reflexivity | discriminate]).
Qed.

(** X10.  Every response carries the four CORS headers; the origin it
    allows is the request's own origin when the backend's pattern accepts
    it and [http://localhost:3000] otherwise, never another one.  The
    private-network header appears only on the TLS backend's preflight
    answer, and a preflight is answered 204 with no body and no content
    type, whatever its path and key, leaving the state alone. *)
Theorem every_response_carries_the_cors_headers
  (v : Variant) cfg (req : Request) (uuid now : string) (st st' : State) (r : Response) :
  handleRequest v cfg req uuid now st = (Sent r, st') ->
  let o := Js.orElse (origin req) "" in
  let pre := String.eqb (method req) "OPTIONS" in
  header "Access-Control-Allow-Origin" (headers r)
    = Some (if originAllowed v o then o else "http://localhost:3000") /\
  header "Access-Control-Allow-Methods" (headers r) = Some "GET, POST, OPTIONS" /\
  header "Access-Control-Allow-Headers" (headers r)
    = Some "Content-Type, X-Client-Key, X-Ado-Token" /\
  header "Vary" (headers r) = Some "Origin" /\
  header "Access-Control-Allow-Private-Network" (headers r)
    = (match v with Tls => if pre then Some "true" else None | PlainHttp => None end) /\
  header "Content-Type" (headers r)
    = (if pre then None else Some "application/json") /\
  (pre = true -> statusCode r = 204 /\ body r = None /\ st' = st).
Proof.
  intros H o pre. destruct (response_headers _ _ _ _ _ _ _ _ H) as [Hh Hp].
  fold pre in Hh, Hp. fold o in Hh. rewrite Hh.
  destruct v.
  - destruct (header_cors_js o (if pre then [] else [("Content-Type", "application/json")]))
      as (H1 & H2 & H3 & H4 & H5 & H6).
    rewrite H1, H2, H3, H4, H5, H6. destruct pre; repeat split; auto; apply Hp; auto.
  - destruct (header_cors_ts o pre (if pre then [] else [("Content-Type", "application/json")]))
      as (H1 & H2 & H3 & H4 & H5 & H6).
    rewrite H1, H2, H3, H4, H5, H6. destruct pre; repeat split; auto; apply Hp; auto.
Qed.

Lemma every_response_carries_the_cors_headers_witness :
  let req := {| method := "GET"; pathname := Js.Normal "/reviews";
                origin := Some "https://evil.example";
                x_client_key := None; payload := None |} in
  let r := BackendTs.send (BackendTs.setCorsHeaders "https://evil.example" false) 401
             (unauthorized defaultConfig) in
  header "Access-Control-Allow-Origin" (headers r) = Some "http://localhost:3000" /\
  header "Access-Control-Allow-Methods" (headers r) = Some "GET, POST, OPTIONS" /\
  header "Access-Control-Allow-Headers" (headers r)
    = Some "Content-Type, X-Client-Key, X-Ado-Token" /\
  header "Vary" (headers r) = Some "Origin" /\
  header "Access-Control-Allow-Private-Network" (headers r) = None /\
  header "Content-Type" (headers r) = Some "application/json" /\
  (false = true -> statusCode r = 204 /\ body r = None /\ initialState = initialState).
Proof.
  intros req r.
  apply (every_response_carries_the_cors_headers Tls defaultConfig req
           sampleId1 "2024-05-01T10:00:00.000Z" initialState initialState r).
  reflexivity.
Defined.

(** ** The origins the patterns accept *)

Lemma stripPrefix_spec (p s r : string) :
  stripPrefix p s = Some r <-> s = p ++ r.
Proof.
  revert s. induction p as [|a p IH]; intros s; simpl.
  - split; [intros [= ->] | intros ->]; reflexivity.
  - destruct s as [|b s].
    + split; discriminate.
    + destruct (Ascii.eqb_spec a b) as [->|Hab].
      * rewrite IH. split; [intros -> | intros [= ->]]; reflexivity.
      * split; [discriminate | intros [= E _]; now elim Hab].
Qed.

Lemma nonEmpty_spec (s : string) : nonEmpty s = true <-> s <> "".
Proof. destruct s; simpl; split; congruence. Qed.

Lemma localhostTail_spec (r : string) :
  localhostTail r = true <->
  r = "localhost" \/ exists d, isPort d /\ r = "localhost:" ++ d.
Proof.
  unfold localhostTail, isPort. split.
  - destruct (stripPrefix "localhost" r) as [t|] eqn:Hs; [|discriminate].
    apply stripPrefix_spec in Hs. subst r.
    destruct t as [|c d]; [now left|].
    destruct (Ascii.eqb_spec c ":") as [->|Hc].
    + rewrite andb_true_iff, nonEmpty_spec. intros [Hn Hd].
      right. exists d. auto.
    + destruct c as [[] [] [] [] [] [] [] []]; try discriminate. now elim Hc.
  - intros [->|(d & [Hn Hd] & ->)]; [reflexivity|].
    simpl. rewrite Hd. apply nonEmpty_spec in Hn. now rewrite Hn.
Qed.

Lemma labelDotThen_spec (suffix r : string) (seen : bool) :
  labelDotThen suffix r seen = true <->
  exists l, allChars isLabelChar l = true /\ (seen = true \/ l <> "") /\
            r = l ++ "." ++ suffix.
Proof.
  split.
  - revert seen. induction r as [|c rest IH]; intros seen; simpl; [discriminate|].
    destruct (isLabelChar c) eqn:Hc.
    + intros H. destruct (IH _ H) as (l & Hl & _ & ->).
      exists (String c l). simpl. rewrite Hc, Hl. repeat split. right. discriminate.
    + destruct (Ascii.eqb_spec c ".") as [->|]; [|discriminate].
      rewrite andb_true_iff. intros [-> Hs]. apply String.eqb_eq in Hs. subst rest.
      exists "". repeat split. now left.
  - intros (l & Hl & Hs & ->). revert seen Hs.
    induction l as [|c l IH]; intros seen Hs; simpl.
    + destruct Hs as [->|Hs]; [|now elim Hs]. now rewrite String.eqb_refl.
    + simpl in Hl. apply andb_true_iff in Hl. destruct Hl as [Hc Hl].
      rewrite Hc. apply IH; auto.
Qed.

Lemma optLabelThen_spec (suffix r : string) :
  optLabelThen suffix r = true <->
  r = suffix \/ exists l, isLabel l /\ r = l ++ "." ++ suffix.
Proof.
  unfold optLabelThen, isLabel. rewrite orb_true_iff, String.eqb_eq, labelDotThen_spec.
  split; (intros [H|(l & H)]; [now left | right; exists l]).
  - destruct H as (Hl & [Hs|Hs] & ->); [discriminate | auto].
  - destruct H as ((Hn & Hl) & ->). auto.
Qed.

Lemma gallery_spec (suffix r : string) :
  labelDotThen suffix r false = true <-> exists l, isLabel l /\ r = l ++ "." ++ suffix.
Proof.
  unfold isLabel. rewrite labelDotThen_spec.
  split; intros (l & H); exists l.
  - destruct H as (Hl & [Hs|Hs] & ->); [discriminate | auto].
  - destruct H as ((Hn & Hl) & ->). auto.
Qed.

(** X11.  The TLS backend's allow-list accepts exactly: [localhost] over
    http or https with an optional numeric port; [dev.azure.com] and
    [visualstudio.com] over https, bare or under one label of lower-case
    letters, digits and hyphens; and one such label under
    [gallerycdn.vsassets.io] over https.  Nothing else, in particular no
    path, no upper case and no second label, is accepted. *)
Theorem allowed_origins_are_exactly_the_four_patterns (o : string) :
  BackendTs.isOriginAllowed o = true <-> AllowedOrigin o.
Proof.
  unfold BackendTs.isOriginAllowed, BackendTs.ALLOWED_ORIGINS. cbn [existsb].
  rewrite orb_false_r. split.
  - rewrite andb_true_iff. intros [_ H].
    destruct (stripPrefix "https://" o) as [r|] eqn:Hs.
    + apply stripPrefix_spec in Hs. subst o.
      repeat rewrite orb_true_iff in H.
      destruct H as [H|[H|[H|H]]].
      * apply localhostTail_spec in H. destruct H as [->|(d & Hd & ->)].
        -- apply (AoLocalhost "https://"). now right.
        -- apply (AoLocalhostPort "https://" d); auto.
      * apply optLabelThen_spec in H. destruct H as [->|(l & Hl & ->)].
        -- apply AoAzure.
        -- now apply AoAzureSub.
      * apply optLabelThen_spec in H. destruct H as [->|(l & Hl & ->)].
        -- apply AoVisualStudio.
        -- now apply AoVisualStudioSub.
      * apply gallery_spec in H. destruct H as (l & Hl & ->). now apply AoGallery.
    + repeat rewrite orb_false_r in H.
      destruct (stripPrefix "http://" o) as [r|] eqn:Hs'; [|discriminate].
      apply stripPrefix_spec in Hs'. subst o.
      apply localhostTail_spec in H. destruct H as [->|(d & Hd & ->)].
      * apply (AoLocalhost "http://"). now left.
      * apply (AoLocalhostPort "http://" d); auto.
  - assert (Hlab : forall l s, isLabel l ->
              optLabelThen s (l ++ "." ++ s) = true /\
              labelDotThen s (l ++ "." ++ s) false = true).
    { intros l s Hl. split; [apply optLabelThen_spec | apply gallery_spec];
        try right; exists l; auto. }
    assert (Hport : forall d, isPort d -> localhostTail ("localhost:" ++ d) = true).
    { intros d Hd. apply localhostTail_spec. right. exists d. auto. }
    intros H. destruct H as [s [->| ->] | s d [->| ->] Hd | | l Hl | | l Hl | l Hl];
      try reflexivity.
    + cbn. apply Hport in Hd. cbn in Hd. now rewrite Hd.
    + cbn. apply Hport in Hd. cbn in Hd. now rewrite Hd.
    + destruct (Hlab l "dev.azure.com" Hl) as [H1 _].
      change ("https://" ++ l ++ ".dev.azure.com")
        with (String "h" (String "t" (String "t" (String "p" (String "s" (String ":"
               (String "/" (String "/" (l ++ "." ++ "dev.azure.com"))))))))).
      cbn [nonEmpty stripPrefix Ascii.eqb Bool.eqb andb]. rewrite H1.
      now rewrite orb_true_r.
    + destruct (Hlab l "visualstudio.com" Hl) as [H1 _].
      change ("https://" ++ l ++ ".visualstudio.com")
        with (String "h" (String "t" (String "t" (String "p" (String "s" (String ":"
               (String "/" (String "/" (l ++ "." ++ "visualstudio.com"))))))))).
      cbn [nonEmpty stripPrefix Ascii.eqb Bool.eqb andb]. rewrite H1.
      now rewrite !orb_true_r.
    + destruct (Hlab l "gallerycdn.vsassets.io" Hl) as [_ H1].
      change ("https://" ++ l ++ ".gallerycdn.vsassets.io")
        with (String "h" (String "t" (String "t" (String "p" (String "s" (String ":"
               (String "/" (String "/" (l ++ "." ++ "gallerycdn.vsassets.io"))))))))).
      cbn [nonEmpty stripPrefix Ascii.eqb Bool.eqb andb]. rewrite H1.
      now rewrite !orb_true_r.
Qed.

Example allowed_origin_samples :
  BackendTs.isOriginAllowed "https://acme.visualstudio.com" = true /\
  BackendTs.isOriginAllowed "https://a.b.dev.azure.com" = false /\
  BackendTs.isOriginAllowed "https://dev.azure.com/acme" = false /\
  BackendTs.isOriginAllowed "http://dev.azure.com" = false /\
  BackendTs.isOriginAllowed "https://gallerycdn.vsassets.io" = false /\
  BackendTs.isOriginAllowed "https://localhost:" = false /\
  BackendTs.isOriginAllowed "" = false.
Proof. repeat split. Qed.

(** X12.  Every origin the plain-HTTP backend echoes is echoed by the TLS
    backend as well: moving a page from the first to the second never
    loses its CORS permission. *)
Theorem plain_origins_are_allowed_by_the_tls_backend (o : string) :
  originAllowed PlainHttp o = true -> originAllowed Tls o = true.
Proof.
  unfold originAllowed, BackendTs.isOriginAllowed, BackendTs.ALLOWED_ORIGINS.
  cbn [existsb]. rewrite !andb_true_iff. intros [Hn H]. split; [exact Hn|].
  destruct (stripPrefix "http://" o) as [r|] eqn:Hs; [|discriminate].
  apply stripPrefix_spec in Hs. subst o. cbn. cbn in H. now rewrite H.
Qed.

Lemma plain_origins_are_allowed_by_the_tls_backend_witness :
  originAllowed Tls "http://localhost:3000" = true.
Proof.
  apply (plain_origins_are_allowed_by_the_tls_backend "http://localhost:3000").
  reflexivity.
Defined.

(** * The extension's side

    ** Numbers as text *)

Lemma digitChar_digit (d : Z) :
  0 <= d < 10 ->
  Js.isDigit (JsText.digitChar d) = true /\ Js.digitVal (JsText.digitChar d) = d.
Proof.
  intros H.
  assert (E : d = 0 \/ d = 1 \/ d = 2 \/ d = 3 \/ d = 4 \/ d = 5 \/ d = 6 \/
              d = 7 \/ d = 8 \/ d = 9) by lia.
  repeat (destruct E as [->|E]; [split; reflexivity|]). subst d. split; reflexivity.
Qed.

Lemma readDigits_decimalFrom (fuel : nat) :
  forall (n : Z) (tail : string),
    (0 < fuel)%nat -> 0 <= n < 2 ^ Z.of_nat fuel ->
    Js.readDigits (JsText.decimalFrom fuel n tail) None = Js.readDigits tail (Some n).
Proof.
  induction fuel as [|f IH]; intros n tail Hf Hn; [lia|].
  cbn [JsText.decimalFrom].
  destruct (digitChar_digit (n mod 10)) as [Hd Hv];
    [apply Z.mod_pos_bound; lia|].
  destruct (Z.ltb_spec n 10) as [Hlt|Hge].
  - cbn [Js.readDigits]. rewrite Hd, Hv. f_equal. f_equal.
    rewrite Z.mod_small by lia. lia.
  - assert (Hq : 1 <= n / 10) by (apply Z.div_le_lower_bound; lia).
    assert (Hu : n / 10 < 2 ^ Z.of_nat f).
    { apply Z.div_lt_upper_bound; [lia|].
      rewrite Nat2Z.inj_succ, Z.pow_succ_r in Hn by lia. lia. }
    assert (Hf' : (0 < f)%nat).
    { destruct f; [|lia]. simpl in Hu. lia. }
    rewrite IH by (auto; lia).
    cbn [Js.readDigits]. rewrite Hd, Hv. f_equal. f_equal.
    pose proof (Z.div_mod n 10). lia.
Qed.

Lemma decimalFrom_head (fuel : nat) :
  forall (n : Z) (tail : string),
    (0 < fuel)%nat -> 0 <= n ->
    exists c rest, JsText.decimalFrom fuel n tail = String c rest /\ Js.isDigit c = true.
Proof.
  induction fuel as [|f IH]; intros n tail Hf Hn; [lia|].
  cbn [JsText.decimalFrom].
  destruct (digitChar_digit (n mod 10)) as [Hd _];
    [apply Z.mod_pos_bound; lia|].
  destruct (Z.ltb_spec n 10) as [Hlt|Hge]; [eauto|].
  destruct f as [|f'].
  - cbn. eauto.
  - apply IH; [lia|]. apply Z.div_pos; lia.
Qed.

Lemma parseInt_digit_head (c : ascii) (rest : string) :
  Js.isDigit c = true ->
  Js.parseInt (String c rest) = Js.readDigits (String c rest) None.
Proof.
  intros H. unfold Js.parseInt.
  destruct c as [[] [] [] [] [] [] [] []]; try discriminate H; reflexivity.
Qed.

Lemma readDigits_decimal (n : Z) :
  0 <= n -> Js.readDigits (JsText.decimal n) None = Some n.
Proof.
  intros Hn. unfold JsText.decimal.
  rewrite readDigits_decimalFrom; [reflexivity | lia |].
  split; [lia|]. rewrite Nat2Z.inj_succ, Z2Nat.id by apply Z.log2_nonneg.
  destruct (Z.eq_dec n 0) as [->|]; [reflexivity|].
  apply Z.log2_spec. lia.
Qed.

Lemma parseInt_decimal (n : Z) : 0 <= n -> Js.parseInt (JsText.decimal n) = Some n.
Proof.
  intros Hn.
  destruct (decimalFrom_head (S (Z.to_nat (Z.log2 n))) n "") as (c & rest & E & Hc);
    [lia | lia |].
  fold (JsText.decimal n) in E.
  rewrite E, parseInt_digit_head by exact Hc. rewrite <- E.
  now apply readDigits_decimal.
Qed.

Lemma parseInt_minus (s : string) :
  Js.parseInt ("-" ++ s) = option_map Z.opp (Js.readDigits s None).
Proof. reflexivity. Qed.

Lemma parseInt_ofInt (n : Z) : Js.parseInt (JsText.ofInt (Some n)) = Some n.
Proof.
  unfold JsText.ofInt. destruct (Z.ltb_spec n 0) as [Hneg|Hpos].
  - rewrite parseInt_minus, readDigits_decimal by lia. cbn. f_equal. lia.
  - apply parseInt_decimal. lia.
Qed.

(** X13.  The text [String] gives for a safe integer reads back as that
    integer under [parseInt( , 10)]: the id an item of the picker carries
    in [data-pr-id] is the id of its pull request. *)
Theorem parseInt_reads_back_what_String_wrote (n : Z) :
  Z.abs n <= JsText.MAX_SAFE_INTEGER ->
  Js.parseInt (JsText.ofInt (Some n)) = Some n.
Proof.
  intros _. unfold JsText.ofInt. destruct (Z.ltb_spec n 0) as [Hneg|Hpos].
  - (* a minus sign, then the digits of -n *)
    rewrite parseInt_minus, readDigits_decimal by lia.
    cbn [option_map]. f_equal. lia.
  - (* the digits of n; the first one is neither white space nor a sign *)
    apply parseInt_decimal. lia.
Qed.

Lemma parseInt_reads_back_what_String_wrote_witness :
  Js.parseInt (JsText.ofInt (Some (-9007199254740991))) = Some (-9007199254740991).
Proof.
  apply (parseInt_reads_back_what_String_wrote (-9007199254740991)).
  vm_compute. discriminate.
Defined.

(** ** The pull-request picker *)

Section PickerFacts.

Import ReviewPanel.

Variable host : Host.

Lemma toggle_items_length (f : Z) (l : list Li) :
  forall i, List.length (filter isPrLi (toggleFocused f i l)) = List.length (filter isPrLi l).
Proof.
  induction l as [|[t|pr a b t fl] l IH]; intros i; cbn; auto.
Qed.

Lemma toggle_asRendered (f : Z) (l : list Li) :
  forall i, Forall asRendered l -> Forall asRendered (toggleFocused f i l).
Proof.
  induction l as [|[t|pr a b t fl] l IH]; intros i H; cbn; auto;
    inversion H; subst; constructor; auto.
Qed.

Lemma toggle_idempotent (f : Z) (l : list Li) :
  forall i, toggleFocused f i (toggleFocused f i l) = toggleFocused f i l.
Proof.
  induction l as [|[t|pr a b t fl] l IH]; intros i; cbn; auto; now rewrite IH.
Qed.

Lemma toggle_no_items (f : Z) (l : list Li) :
  forall i, filter isPrLi l = [] -> toggleFocused f i l = l.
Proof.
  induction l as [|[t|pr a b t fl] l IH]; intros i H; cbn in *.
  - reflexivity.
  - now rewrite IH.
  - discriminate.
Qed.

Lemma toggle_fresh (l : list PrItem) :
  forall i, 0 <= i -> toggleFocused (-1) i (map makeLi l) = map makeLi l.
Proof.
  induction l as [|pr l IH]; intros i Hi; cbn; auto.
  rewrite IH by lia. destruct (Z.eqb_spec i (-1)); [lia|reflexivity].
Qed.

Lemma no_items_asRendered (l : list Li) :
  filter isPrLi l = [] -> Forall asRendered l.
Proof.
  induction l as [|[t|pr a b t fl] l IH]; intros H; cbn in *.
  - constructor.
  - constructor; [exact I | auto].
  - discriminate.
Qed.

Lemma makeLi_asRendered (l : list PrItem) : Forall asRendered (map makeLi l).
Proof. induction l; cbn; constructor; cbn; auto. Qed.

Lemma makeLi_items (l : list PrItem) : filter isPrLi (map makeLi l) = map makeLi l.
Proof. induction l; cbn; congruence. Qed.

Lemma loaded_PanelInv (p : Panel) : loaded p -> PanelInv p.
Proof.
  intros (Hs & Hc & _ & Hf & Hi & Hin & _).
  unfold PanelInv, focusInRange. rewrite Hf, Hs.
  repeat split; auto.
  - intros _. unfold getDropdownItems in Hi. now rewrite toggle_no_items.
  - now apply no_items_asRendered.
  - discriminate.
Qed.

Lemma render_PanelInv (items : list PrItem) (isLoading : bool) (p : Panel) :
  PanelInv p -> PanelInv (renderDropdownItems items isLoading p).
Proof.
  intros (_ & _ & _ & _ & Hsel & Hin).
  unfold renderDropdownItems.
  destruct isLoading; [|destruct items as [|pr items]];
    unfold PanelInv, focusInRange; cbn -[JsText.ofInt makeLi toggleFocused map];
    (repeat split; auto; try discriminate).
  - constructor; [exact I | constructor].
  - constructor; [exact I | constructor].
  - intros _. symmetry. apply toggle_fresh. lia.
  - apply makeLi_asRendered.
Qed.

Lemma close_PanelInv (p : Panel) : PanelInv p -> PanelInv (closeDropdown p).
Proof.
  intros (_ & _ & _ & Hr & Hsel & Hin).
  unfold PanelInv, focusInRange, closeDropdown; cbn.
  repeat split; auto; discriminate.
Qed.

Lemma selectPr_PanelInv (n : Js.int) (t : string) (p : Panel) :
  PanelInv p -> PanelInv (selectPr n t p).
Proof.
  intros (_ & _ & _ & Hr & Hsel & Hin).
  unfold PanelInv, focusInRange, selectPr, closeDropdown; cbn.
  repeat split; auto; try discriminate.
  intros m [= <-]. now exists t.
Qed.

Lemma update_PanelInv (p : Panel) (f : Z) :
  PanelInv p -> hidden p = false ->
  f = Z.min (dropdownFocusIndex p + 1) (Z.of_nat (List.length (getDropdownItems p)) - 1) \/
  f = Z.max (dropdownFocusIndex p - 1) 0 ->
  PanelInv (after (updateDropdownFocus (set_dropdownFocusIndex p f))).
Proof.
  intros (Hf & _ & _ & Hr & Hsel & Hin) Hopen Hnew.
  assert (Hafter : after (updateDropdownFocus (set_dropdownFocusIndex p f))
                   = set_children (set_dropdownFocusIndex p f)
                       (toggleFocused f 0 (children p))).
  { unfold updateDropdownFocus. cbn.
    destruct (0 <=? f); [|reflexivity].
    destruct (at_ _ _); reflexivity. }
  rewrite Hafter. unfold PanelInv, focusInRange in *; cbn.
  unfold getDropdownItems in *; cbn. rewrite toggle_items_length.
  repeat split; auto.
  - set (n := Z.of_nat (List.length (filter isPrLi (children p)))) in *.
    destruct (Z.eq_dec n 0) as [Hn|Hn];
      destruct Hnew as [-> | ->];
      destruct Hf as [Hf|[Hf|(Hf & Hn' & _)]];
      first [ left; lia | right; left; lia
            | right; right; repeat split; (lia || assumption) ].
  - intros H. congruence.
  - intros _. now rewrite toggle_idempotent.
  - now apply toggle_asRendered.
Qed.

Lemma filterCached_PanelInv (query : string) (p : Panel) :
  PanelInv p -> PanelInv (after (filterCached host query p)).
Proof.
  intros H. unfold filterCached.
  destruct (prCache p); cbn [after done]; [apply render_PanelInv|]; exact H.
Qed.

Lemma frame_PanelInv (p q : Panel) :
  sameView p q -> (prCache q = None -> inflight q = []) -> PanelInv p -> PanelInv q.
Proof.
  intros (Hf & Hh & Hc & Hs & Hv) Hin (H1 & H2 & H3 & H4 & H5 & _).
  unfold PanelInv, focusInRange, getDropdownItems in *.
  rewrite <- Hf, <- Hh, <- Hc, <- Hs, <- Hv. repeat split; auto.
Qed.

Lemma filterAndRender_PanelInv (query : string) (p : Panel) :
  PanelInv p -> PanelInv (after (filterAndRender host query p)).
Proof.
  intros H. unfold filterAndRender.
  destruct (negb (nonEmpty (repoValue p))); [exact H|].
  destruct (_ || _); [|now apply filterCached_PanelInv].
  cbn [after done].
  eapply frame_PanelInv; [| |apply (render_PanelInv [] true p H)].
  - repeat split.
  - discriminate.
Qed.

Lemma resume_PanelInv (query : string) (raw : Js.completion (option (list RawPr)))
  (p : Panel) :
  PanelInv p -> PanelInv (after (filterAndRender_resume host query raw p)).
Proof.
  intros H. unfold filterAndRender_resume.
  apply filterCached_PanelInv.
  destruct raw as [r|e]; [|exact H].
  destruct (prCache p) eqn:Hc; [|exact H].
  eapply frame_PanelInv; [| |exact H]; [repeat split | discriminate].
Qed.

Lemma onKeyDown_PanelInv (key : string) (p : Panel) :
  PanelInv p -> PanelInv (after (onKeyDown host key p)).
Proof.
  intros H. unfold onKeyDown.
  destruct (hidden p) eqn:Hh.
  - destruct (_ || _); [now apply filterAndRender_PanelInv | exact H].
  - destruct (String.eqb key "ArrowDown"); [apply update_PanelInv; auto|].
    destruct (String.eqb key "ArrowUp"); [apply update_PanelInv; auto|].
    destruct (String.eqb key "Enter").
    + destruct (0 <=? dropdownFocusIndex p); [|exact H].
      destruct (at_ _ _) as [[t|pr a b t fl]|]; cbn; auto.
      now apply selectPr_PanelInv.
    + destruct (String.eqb key "Escape"); cbn; auto. now apply close_PanelInv.
Qed.

Lemma step_PanelInv (p : Panel) (e : Event) (h : Handled) :
  PanelInv p -> step host p e = Some h -> PanelInv (after h).
Proof.
  intros H. destruct e; cbn.
  - destruct (searchDisabled p); [discriminate|]. intros [= <-].
    now apply filterAndRender_PanelInv.
  - destruct (searchDisabled p); [discriminate|]. intros [= <-]. cbn.
    destruct H as (H1 & H2 & H3 & H4 & H5 & H6).
    unfold PanelInv, focusInRange, getDropdownItems in *; cbn.
    repeat split; auto. discriminate.
  - destruct (debounce p); [|discriminate]. intros [= <-].
    apply filterAndRender_PanelInv.
    eapply frame_PanelInv; [| |exact H]; [repeat split | apply H].
  - destruct (searchDisabled p); [discriminate|]. intros [= <-]. cbn.
    eapply frame_PanelInv; [| |exact H]; [repeat split | apply H].
  - destruct (blurTimers p); [discriminate|]. intros [= <-]. cbn.
    apply close_PanelInv.
    eapply frame_PanelInv; [| |exact H]; [repeat split | apply H].
  - destruct (searchDisabled p); [discriminate|]. intros [= <-].
    now apply onKeyDown_PanelInv.
  - destruct (hidden p); [discriminate|]. intros [= <-].
    unfold onMouseDown. destruct (nth_error _ _) as [[t|pr a b t fl]|]; cbn; auto.
    now apply selectPr_PanelInv.
  - intros [= <-]. cbn.
    destruct H as (H1 & H2 & H3 & H4 & H5 & H6).
    unfold PanelInv, focusInRange, getDropdownItems in *; cbn.
    repeat split; auto; discriminate.
  - destruct (nth_error (inflight p) k) eqn:Hk; [|discriminate]. intros [= <-].
    apply resume_PanelInv.
    eapply frame_PanelInv; [| |exact H]; [repeat split|].
    cbn. intros Hc. destruct H as (_ & _ & _ & _ & _ & H6).
    rewrite (H6 Hc) in Hk. destruct k; discriminate.
Qed.

Lemma run_PanelInv (es : list Event) :
  forall p q, PanelInv p -> run host p es = Some q -> PanelInv q.
Proof.
  induction es as [|e es IH]; intros p q H; cbn.
  - now intros [= <-].
  - destruct (step host p e) as [h|] eqn:Hs; [|discriminate].
    apply IH. eapply step_PanelInv; eauto.
Qed.

Lemma reachable_PanelInv (p : Panel) : reachable host p -> PanelInv p.
Proof.
  intros (p0 & es & Hl & Hr). eapply run_PanelInv; [|exact Hr].
  now apply loaded_PanelInv.
Qed.

End PickerFacts.

Section PickerTheorems.

Import ReviewPanel.

Variable host : Host.

Lemma at_Some {A} (l : list A) (i : Z) (x : A) :
  at_ l i = Some x ->
  0 <= i < Z.of_nat (List.length l) /\ nth_error l (Z.to_nat i) = Some x.
Proof.
  unfold at_. destruct (Z.ltb_spec i 0) as [Hi|Hi]; [discriminate|]. intros H.
  split; [|exact H]. split; [lia|].
  assert (Hn : nth_error l (Z.to_nat i) <> None) by congruence.
  apply nth_error_Some in Hn. lia.
Qed.

Lemma at_None {A} (l : list A) (i : Z) :
  at_ l i = None <-> i < 0 \/ Z.of_nat (List.length l) <= i.
Proof.
  unfold at_. destruct (Z.ltb_spec i 0) as [Hi|Hi]; [intuition lia|].
  rewrite nth_error_None. lia.
Qed.

Lemma toggle_highlight (f : Z) (l : list Li) :
  forall k i pr a b t fl,
    nth_error (filter isPrLi (toggleFocused f k l)) i = Some (PrLi pr a b t fl) ->
    fl = (k + Z.of_nat i =? f).
Proof.
  induction l as [|[s|pr0 a0 b0 t0 fl0] l IH]; intros k i pr a b t fl; cbn.
  - destruct i; discriminate.
  - apply IH.
  - destruct i as [|i]; cbn.
    + intros [= _ _ _ _ <-]. f_equal. lia.
    + intros H. apply IH in H. rewrite H. f_equal. lia.
Qed.

(** X14.  In every state the picker can reach, the focus index points at
    nothing (-1), at one of the selectable items, or at position 0 of an
    open list that has no selectable item; it is -1 whenever the list is
    hidden; and while the list is open the item at the focus index, and no
    other, carries the focus class. *)
Theorem picker_focus_stays_on_the_list (p : Panel) :
  reachable host p ->
  focusInRange p /\
  (hidden p = true -> dropdownFocusIndex p = -1) /\
  (hidden p = false ->
   forall i fl, highlighted p i = Some fl -> fl = (Z.of_nat i =? dropdownFocusIndex p)).
Proof.
  intros Hr. destruct (reachable_PanelInv host p Hr) as (H1 & H2 & H3 & _).
  repeat split; auto.
  intros Hopen i fl. unfold highlighted, getDropdownItems. rewrite (H3 Hopen).
  destruct (nth_error _ i) as [[s|pr a b t fl']|] eqn:Hn; try discriminate.
  intros [= <-]. apply toggle_highlight in Hn. exact Hn.
Qed.

Lemma item_asRendered (p : Panel) (i : nat) (li : Li) :
  PanelInv p -> nth_error (getDropdownItems p) i = Some li -> asRendered li.
Proof.
  intros (_ & _ & _ & Hr & _) Hn. apply nth_error_In in Hn.
  unfold getDropdownItems in Hn. apply filter_In in Hn.
  rewrite Forall_forall in Hr. apply Hr, Hn.
Qed.

Lemma enter_open (p : Panel) :
  hidden p = false ->
  onKeyDown host "Enter" p =
  if 0 <=? dropdownFocusIndex p then
    match at_ (getDropdownItems p) (dropdownFocusIndex p) with
    | Some (PrLi _ data_pr_id data_pr_title _ _) =>
        prevent (done (selectPr (Js.parseInt data_pr_id) data_pr_title p))
    | _ =>
        {| after := p;
           thrown := Some "TypeError: Cannot read properties of undefined";
           defaultPrevented := true |}
    end
  else prevent (done p).
Proof. intros H. unfold onKeyDown. rewrite H. reflexivity. Qed.

(** X15.  For pull request ids that are integers of at most 2^53-1 in
    magnitude, as the ids Azure DevOps issues are: with the list open and
    the focus on an item, Enter does exactly what a mouse click on that
    item does.  It selects the pull request the item was rendered for (the
    id read back from the attribute with [parseInt] is the item's own),
    writes [#id — title] into the search box and closes the list, without
    an error.  An id that is not an integer, or one that prints in
    exponent form, is not read back as it was written; the panel is
    modelled for integer ids only. *)
Theorem enter_selects_the_focused_item
  (p : Panel) (j : nat) (pr : PrItem) (a b t : string) (fl : bool) :
  reachable host p ->
  hidden p = false ->
  at_ (getDropdownItems p) (dropdownFocusIndex p) = Some (PrLi pr a b t fl) ->
  nth_error (children p) j = Some (PrLi pr a b t fl) ->
  Z.abs (pullRequestId pr) <= JsText.MAX_SAFE_INTEGER ->
  onKeyDown host "Enter" p = onMouseDown j p /\
  thrown (onKeyDown host "Enter" p) = None /\
  selectedPrId (after (onKeyDown host "Enter" p)) = Some (Some (pullRequestId pr)) /\
  searchValue (after (onKeyDown host "Enter" p))
    = "#" ++ JsText.ofInt (Some (pullRequestId pr)) ++ " — " ++ title pr /\
  hidden (after (onKeyDown host "Enter" p)) = true.
Proof.
  intros Hr Hopen Hat Hj _.
  pose proof (reachable_PanelInv host p Hr) as HI.
  destruct (at_Some _ _ _ Hat) as [Hrange Hn].
  destruct (item_asRendered p _ _ HI Hn) as (-> & -> & _).
  rewrite (enter_open p Hopen), Hat.
  destruct (Z.leb_spec 0 (dropdownFocusIndex p)); [|lia].
  rewrite parseInt_ofInt. unfold onMouseDown. rewrite Hj.
  repeat split.
Qed.

Lemma filterAndRender_thrown (query : string) (p : Panel) :
  thrown (filterAndRender host query p) = None.
Proof.
  unfold filterAndRender, filterCached.
  destruct (negb (nonEmpty (repoValue p))); [reflexivity|].
  destruct (prCache p); cbn.
  - destruct (negb _); reflexivity.
  - rewrite orb_true_r. reflexivity.
Qed.

Lemma resume_thrown (query : string) (raw : Js.completion (option (list RawPr)))
  (p : Panel) :
  prCache p <> None -> thrown (filterAndRender_resume host query raw p) = None.
Proof.
  intros H. unfold filterAndRender_resume, filterCached.
  destruct (prCache p) eqn:Hc; [|contradiction].
  destruct raw; cbn; try rewrite Hc; reflexivity.
Qed.

Lemma update_thrown (p : Panel) :
  thrown (updateDropdownFocus p) <> None <->
  0 <= dropdownFocusIndex p /\
  Z.of_nat (List.length (getDropdownItems p)) <= dropdownFocusIndex p.
Proof.
  unfold updateDropdownFocus.
  destruct (Z.leb_spec 0 (dropdownFocusIndex p)) as [Hf|Hf].
  - destruct (at_ _ _) eqn:Hat; cbn.
    + apply at_Some in Hat. split; [congruence | lia].
    + apply at_None in Hat. split; [lia | discriminate].
  - cbn. split; [congruence | lia].
Qed.

(** X16.  The only handler of the picker that can throw is the key
    handler, and only on a list that is open and has no selectable item
    (it shows "Loading" or "No matching pull requests"): ArrowUp then
    throws a TypeError, and so does Enter once ArrowUp has left the focus
    index at 0.  No other event throws in any reachable state. *)
Theorem picker_throws_only_on_a_list_without_items (p : Panel) (e : Event) (h : Handled) :
  reachable host p ->
  step host p e = Some h ->
  (thrown h <> None <->
   exists key,
     e = KeyDown key /\ hidden p = false /\ getDropdownItems p = [] /\
     (key = "ArrowUp" \/ (key = "Enter" /\ dropdownFocusIndex p = 0))).
Proof.
  intros Hr. pose proof (reachable_PanelInv host p Hr) as HI.
  destruct e; cbn;
    try (match goal with
         | |- (if ?c then _ else _) = _ -> _ => destruct c eqn:?; [discriminate|]
         end);
    try (intros [= <-]; rewrite ?filterAndRender_thrown; cbn;
         split; [congruence | intros (key & [=] & _)]).
  - destruct (debounce p); [|discriminate]. intros [= <-].
    rewrite filterAndRender_thrown. split; [congruence | intros (key & [=] & _)].
  - destruct (blurTimers p); [discriminate|]. intros [= <-]. cbn.
    split; [congruence | intros (k & [=] & _)].
  - (* a key *)
    intros [= <-]. destruct HI as (Hf & Hh & _).
    unfold focusInRange in Hf.
    set (n := Z.of_nat (List.length (getDropdownItems p))) in *.
    assert (Hnil : n = 0 <-> getDropdownItems p = []).
    { unfold n. destruct (getDropdownItems p); cbn; split; (congruence || lia). }
    unfold onKeyDown. destruct (hidden p) eqn:Hhid.
    + assert (Hnone : thrown (if String.eqb key "ArrowDown" || String.eqb key "Enter"
                              then filterAndRender host (searchValue p) p
                              else done p) = None).
      { destruct (_ || _); [apply filterAndRender_thrown | reflexivity]. }
      rewrite Hnone. split; [congruence | intros (k & _ & [=] & _)].
    + destruct (String.eqb_spec key "ArrowDown") as [->|Hk1].
      { cbn [thrown prevent]. rewrite update_thrown.
        unfold getDropdownItems;
          cbn [children set_dropdownFocusIndex dropdownFocusIndex];
          change (Z.of_nat (List.length (filter isPrLi (children p)))) with n.
        split; [intros [H1 H2]; lia|].
        intros (k & [= <-] & _ & _ & [[=]|[[=] _]]). }
      destruct (String.eqb_spec key "ArrowUp") as [->|Hk2].
      { cbn [thrown prevent]. rewrite update_thrown.
        unfold getDropdownItems;
          cbn [children set_dropdownFocusIndex dropdownFocusIndex];
          change (Z.of_nat (List.length (filter isPrLi (children p)))) with n.
        split.
        - intros [H1 H2]. exists "ArrowUp". repeat split; auto.
          apply Hnil. lia.
        - intros (k & _ & _ & Hi & _). apply Hnil in Hi. lia. }
      destruct (String.eqb_spec key "Enter") as [->|Hk3].
      { destruct (Z.leb_spec 0 (dropdownFocusIndex p)) as [H0|H0].
        - destruct (at_ _ _) as [li|] eqn:Hat.
          + destruct (at_Some _ _ _ Hat) as [Hrange Hn].
            assert (Hli : isPrLi li = true).
            { apply nth_error_In in Hn. unfold getDropdownItems in Hn.
              now apply filter_In in Hn. }
            destruct li as [s|pr a b t fl]; [discriminate|]. cbn.
            split; [congruence|].
            intros (k & _ & _ & Hi & _). apply Hnil in Hi. fold n in Hrange. lia.
          + apply at_None in Hat. fold n in Hat. cbn.
            split; [|discriminate]. intros _. exists "Enter".
            assert (n = 0 /\ dropdownFocusIndex p = 0) as [Hn0 Hf0] by lia.
            repeat split; auto. now apply Hnil.
        - cbn. split; [congruence|].
          intros (k & [= <-] & _ & _ & [[=]|[_ Hz]]). lia. }
      assert (Hnone : thrown (if String.eqb key "Escape"
                              then prevent (done (closeDropdown p)) else done p) = None)
        by (destruct (String.eqb key "Escape"); reflexivity).
      rewrite Hnone. split; [congruence|].
      intros (k & [= <-] & _ & _ & [->|[-> _]]); congruence.
  - (* a click on the list *)
    intros [= <-]. unfold onMouseDown.
    destruct (nth_error _ _) as [[s|pr a b t fl]|]; cbn;
      (split; [congruence | intros (k & [=] & _)]).
  - (* the pull requests arrive *)
    destruct (nth_error (inflight p) k) eqn:Hk; [|discriminate]. intros [= <-].
    rewrite resume_thrown.
    + split; [congruence | intros (key & [=] & _)].
    + cbn. intros Hc. destruct HI as (_ & _ & _ & _ & _ & H6).
      rewrite (H6 Hc) in Hk. destruct k; discriminate.
Qed.


Lemma select_truthy (p : Panel) (n : Z) :
  truthyInt (selectedPrId p) = Some n -> selectedPrId p = Some (Some n) /\ n <> 0.
Proof.
  unfold truthyInt. destruct (selectedPrId p) as [[z|]|]; try discriminate.
  destruct (Z.eqb_spec z 0); [discriminate|]. intros [= <-]. auto.
Qed.

(** X17.  Whenever the review button posts a request, the repository in
    it is the one selected, and the pull request in it is the selected
    one, whose id, not zero, stands in the search box as [#id — title]:
    text typed after a selection clears the selection, so no review is
    requested for a pull request other than the one shown.  The iteration
    is the last one returned, and its id is not zero. *)
Theorem review_is_requested_for_the_shown_pull_request
  (page : Page) (p : Panel)
  (settled : Js.completion (option (list Iteration) * string)) (c : ReviewClient.Call) :
  reachable host p ->
  onReviewClick page p settled = Posts c ->
  exists n t iterations adoToken it,
    n <> 0 /\ it <> 0 /\ repoValue p <> "" /\
    selectedPrId p = Some (Some n) /\
    searchValue p = "#" ++ JsText.ofInt (Some n) ++ " — " ++ t /\
    settled = Js.Normal (iterations, adoToken) /\
    latestIterationId iterations = Some it /\
    c = ReviewClient.submitReview (backendUrl page) (clientKey page) adoToken
          (reviewRequest page (repoValue p) n it).
Proof.
  intros Hr. destruct (reachable_PanelInv host p Hr) as (_ & _ & _ & _ & Hsel & _).
  unfold onReviewClick.
  destruct (nonEmpty (repoValue p)) eqn:Hrepo; [|discriminate]. cbn [negb].
  destruct (truthyInt (selectedPrId p)) as [n|] eqn:Hn; [|discriminate].
  destruct settled as [[iterations adoToken]|e]; [|discriminate].
  destruct (latestIterationId iterations) as [it|] eqn:Hit; [|discriminate].
  intros [= <-]. destruct (select_truthy p n Hn) as [Hs Hn0].
  destruct (Hsel _ Hs) as [t Ht].
  exists n, t, iterations, adoToken, it. repeat split; auto.
  - unfold latestIterationId in Hit. destruct iterations as [l|]; [|discriminate].
    destruct (last _ _) as [x|]; [|discriminate].
    unfold truthyInt in Hit. destruct (iteration_id x) as [z|]; [|discriminate].
    destruct (Z.eqb_spec z 0); [discriminate|]. congruence.
  - apply nonEmpty_spec. exact Hrepo.
Qed.

End PickerTheorems.

Lemma picker_focus_stays_on_the_list_witness :
  focusInRange pickerPanel /\
  (ReviewPanel.hidden pickerPanel = true ->
   ReviewPanel.dropdownFocusIndex pickerPanel = -1) /\
  (ReviewPanel.hidden pickerPanel = false ->
   forall i fl, highlighted pickerPanel i = Some fl ->
                fl = (Z.of_nat i =? ReviewPanel.dropdownFocusIndex pickerPanel)).
Proof.
  apply (picker_focus_stays_on_the_list asciiHost pickerPanel).
  exists freshPanel, pickerEvents. split; [repeat split | vm_compute; reflexivity].
Defined.

Example picker_after_arrow_down :
  ReviewPanel.dropdownFocusIndex pickerPanel = 0 /\
  highlighted pickerPanel 0 = Some true /\ highlighted pickerPanel 1 = Some false /\
  highlighted pickerPanel 2 = None.
Proof. repeat split. Qed.

Lemma enter_selects_the_focused_item_witness :
  let pr := {| ReviewPanel.pullRequestId := 12; ReviewPanel.title := "Fix login" |} in
  ReviewPanel.onKeyDown asciiHost "Enter" pickerPanel = ReviewPanel.onMouseDown 0 pickerPanel /\
  ReviewPanel.thrown (ReviewPanel.onKeyDown asciiHost "Enter" pickerPanel) = None /\
  ReviewPanel.selectedPrId (ReviewPanel.after (ReviewPanel.onKeyDown asciiHost "Enter" pickerPanel))
    = Some (Some 12) /\
  ReviewPanel.searchValue (ReviewPanel.after (ReviewPanel.onKeyDown asciiHost "Enter" pickerPanel))
    = "#" ++ JsText.ofInt (Some 12) ++ " — " ++ "Fix login" /\
  ReviewPanel.hidden (ReviewPanel.after (ReviewPanel.onKeyDown asciiHost "Enter" pickerPanel)) = true.
Proof.
  intros pr.
  apply (enter_selects_the_focused_item asciiHost pickerPanel 0 pr
           "12" "Fix login" "#12 — Fix login" true).
  - exists freshPanel, pickerEvents. split; [repeat split | vm_compute; reflexivity].
  - reflexivity.
  - reflexivity.
  - reflexivity.
  - vm_compute. discriminate.
Defined.

Lemma picker_throws_only_on_a_list_without_items_witness :
  ReviewPanel.thrown (ReviewPanel.onKeyDown asciiHost "ArrowUp" emptyListPanel) <> None <->
  exists key,
    ReviewPanel.KeyDown "ArrowUp" = ReviewPanel.KeyDown key /\
    ReviewPanel.hidden emptyListPanel = false /\
    ReviewPanel.getDropdownItems emptyListPanel = [] /\
    (key = "ArrowUp" \/
     (key = "Enter" /\ ReviewPanel.dropdownFocusIndex emptyListPanel = 0)).
Proof.
  apply (picker_throws_only_on_a_list_without_items asciiHost emptyListPanel
           (ReviewPanel.KeyDown "ArrowUp")
           (ReviewPanel.onKeyDown asciiHost "ArrowUp" emptyListPanel)).
  - exists freshPanel, emptyListEvents. split; [repeat split | vm_compute; reflexivity].
  - reflexivity.
Defined.

Example arrow_up_on_an_empty_list_throws :
  ReviewPanel.thrown (ReviewPanel.onKeyDown asciiHost "ArrowUp" emptyListPanel)
    = Some "TypeError: Cannot read properties of undefined" /\
  ReviewPanel.dropdownFocusIndex
    (ReviewPanel.after (ReviewPanel.onKeyDown asciiHost "ArrowUp" emptyListPanel)) = 0.
Proof. split; reflexivity. Qed.

Lemma review_is_requested_for_the_shown_pull_request_witness :
  let p := ReviewPanel.after (ReviewPanel.onKeyDown asciiHost "Enter" pickerPanel) in
  let settled := Js.Normal (Some [{| ReviewPanel.iteration_id := Some 1 |};
                                  {| ReviewPanel.iteration_id := Some 2 |}], "token") in
  exists n t iterations adoToken it,
    n <> 0 /\ it <> 0 /\ ReviewPanel.repoValue p <> "" /\
    ReviewPanel.selectedPrId p = Some (Some n) /\
    ReviewPanel.searchValue p = "#" ++ JsText.ofInt (Some n) ++ " — " ++ t /\
    settled = Js.Normal (iterations, adoToken) /\
    ReviewPanel.latestIterationId iterations = Some it /\
    ReviewClient.submitReview "https://localhost:31001/" "test-client-key" "token"
      (ReviewPanel.reviewRequest samplePage "repo-a" 12 2)
    = ReviewClient.submitReview (ReviewPanel.backendUrl samplePage)
        (ReviewPanel.clientKey samplePage) adoToken
        (ReviewPanel.reviewRequest samplePage (ReviewPanel.repoValue p) n it).
Proof.
  intros p settled.
  apply (review_is_requested_for_the_shown_pull_request asciiHost samplePage p settled).
  - exists freshPanel, (pickerEvents ++ [ReviewPanel.KeyDown "Enter"])%list.
    split; [repeat split | vm_compute; reflexivity].
  - reflexivity.
Defined.

(** ** The extension against the backend *)

Lemma append_inj_l (s a b : string) : s ++ a = s ++ b -> a = b.
Proof. induction s as [|c s IH]; cbn; [auto | intros [= H]; auto]. Qed.

Lemma dropTrailingSlash_slash (s : string) : JsText.dropTrailingSlash (s ++ "/") = s.
Proof.
  induction s as [|c s IH]; [reflexivity|].
  cbn [append JsText.dropTrailingSlash]. rewrite IH.
  destruct s; cbn; [|now rewrite andb_false_r].
  now rewrite andb_false_r.
Qed.

Example backend_url_with_and_without_slash :
  ReviewClient.url (ReviewClient.listReviews "https://localhost:31001/" "k")
    = "https://localhost:31001/reviews" /\
  ReviewClient.url (ReviewClient.listReviews "https://localhost:31001" "k")
    = "https://localhost:31001/reviews" /\
  ReviewClient.url (ReviewClient.listReviews "https://localhost:31001//" "k")
    = "https://localhost:31001//reviews".
Proof. repeat split. Qed.



(** X19.  The status call and the list call of the client reach the
    backend's routes: made for a stored job with the backend's key, the
    first is answered 200 with the job's record and the second 200 with
    the sorted list, whether or not the configured URL ends in a slash;
    neither changes the state. *)
Theorem status_and_list_calls_reach_their_routes
  (v : Variant) cfg (backendUrl o id : string) (reqS reqL : Request)
  (uuid now : string) (st : State) (job : Job) :
  JsText.dropTrailingSlash backendUrl = o ->
  isUUID id = true ->
  JsMap.get (jobs st) id = Some job ->
  carries o (ReviewClient.getReviewStatus backendUrl (CLIENT_KEY cfg) id) reqS ->
  carries o (ReviewClient.listReviews backendUrl (CLIENT_KEY cfg)) reqL ->
  (exists r,
     handleRequest v cfg reqS uuid now st = (Sent r, st) /\
     statusCode r = 200 /\
     body r = Some (BackendTs.jobToStatusResponse job)) /\
  (exists r,
     handleRequest v cfg reqL uuid now st = (Sent r, st) /\
     statusCode r = 200 /\
     body r = Some (Js.Arr (map BackendTs.jobToListItem
                              (JsArray.sort
                                 (fun a b => localeCompare (submittedAt b) (submittedAt a))
                                 (JsMap.values (jobs st)))))).
Proof.
  intros Ho Hid Hget (Hm & (pathS & HpS & Hu) & Hk & _)
    (Hm' & (pathL & HpL & Hu') & Hk' & _).
  cbn in Hm, Hu, Hk, Hm', Hu', Hk'. rewrite Ho in Hu, Hu'.
  apply append_inj_l in Hu. apply append_inj_l in Hu'.
  assert (Hpm : pollMatch pathS = Some id)
    by (rewrite <- Hu; exact (pollMatch_uuid id Hid)).
  clear Hu. subst pathL.
  split.
  - enter_router v hdrs;
      rewrite Hm, (pollMatch_not_list _ _ Hpm);
      cbn [String.eqb Ascii.eqb Bool.eqb andb];
      rewrite Hpm, (checkAuth_accepts cfg reqS hdrs Hk), Hget;
      eexists; repeat split; reflexivity.
  - enter_router v hdrs;
      rewrite Hm', (checkAuth_accepts cfg reqL hdrs Hk');
      cbn [String.eqb Ascii.eqb Bool.eqb andb];
      eexists; repeat split; reflexivity.
Qed.

Lemma status_and_list_calls_reach_their_routes_witness :
  (exists r,
     handleRequest PlainHttp defaultConfig (poll (Some "test-client-key") sampleId1)
       sampleId2 "2024-05-01T10:00:01.000Z" submittedState = (Sent r, submittedState) /\
     statusCode r = 200 /\
     body r = Some (BackendTs.jobToStatusResponse submittedJob)) /\
  (exists r,
     handleRequest PlainHttp defaultConfig (listAll (Some "test-client-key"))
       sampleId2 "2024-05-01T10:00:01.000Z" submittedState = (Sent r, submittedState) /\
     statusCode r = 200 /\
     body r = Some (Js.Arr (map BackendTs.jobToListItem
                              (JsArray.sort
                                 (fun a b => localeCompare (submittedAt b) (submittedAt a))
                                 (JsMap.values (jobs submittedState)))))).
Proof.
  apply (status_and_list_calls_reach_their_routes PlainHttp defaultConfig
           "http://localhost:31001/" "http://localhost:31001" sampleId1
           (poll (Some "test-client-key") sampleId1) (listAll (Some "test-client-key"))
           sampleId2 "2024-05-01T10:00:01.000Z" submittedState submittedJob).
  - reflexivity.
  - reflexivity.
  - vm_compute; reflexivity.
  - split; [reflexivity|].
    split; [eexists; split; reflexivity|split; reflexivity].
  - split; [reflexivity|].
    split; [eexists; split; reflexivity|split; reflexivity].
Defined.

(** ** A late answer *)

(** X20.  The pull requests asked for one repository and arriving after
    the user has moved to another are offered under the new one: from the
    freshly loaded panel, select repository [a], focus the search box
    (the fetch starts), select repository [b], then let the fetch settle.
    The list then shows the pull requests of [a] while [b] is selected; a
    click on the first selects it, and the review button posts a request
    that names repository [b] with that pull request of [a]. *)
Theorem late_pull_requests_are_offered_under_the_new_repository
  (host : ReviewPanel.Host) (p0 : ReviewPanel.Panel) (a b : string)
  (raw : list ReviewPanel.RawPr) (pr : ReviewPanel.PrItem)
  (rest : list ReviewPanel.PrItem) :
  ReviewPanel.loaded p0 ->
  a <> "" -> b <> "" ->
  ReviewPanel.trim host (ReviewPanel.toLowerCase host "") = "" ->
  ReviewPanel.cacheItems raw = pr :: rest ->
  ReviewPanel.pullRequestId pr <> 0 ->
  exists p1 p2,
    ReviewPanel.run host p0
      [ReviewPanel.RepoChange a; ReviewPanel.Focus; ReviewPanel.RepoChange b;
       ReviewPanel.FetchDone 0 (Js.Normal (Some raw))] = Some p1 /\
    ReviewPanel.repoValue p1 = b /\
    ReviewPanel.prCacheRepoId p1 = Some a /\
    ReviewPanel.hidden p1 = false /\
    ReviewPanel.children p1 = map ReviewPanel.makeLi (pr :: rest) /\
    ReviewPanel.step host p1 (ReviewPanel.MouseDown 0)
      = Some (ReviewPanel.prevent (ReviewPanel.done p2)) /\
    ReviewPanel.selectedPrId p2 = Some (Some (ReviewPanel.pullRequestId pr)) /\
    forall page iterations adoToken it,
      ReviewPanel.latestIterationId iterations = Some it ->
      ReviewPanel.onReviewClick page p2 (Js.Normal (iterations, adoToken)) =
      ReviewPanel.Posts
        (ReviewClient.submitReview (ReviewPanel.backendUrl page)
           (ReviewPanel.clientKey page) adoToken
           (ReviewPanel.reviewRequest page b (ReviewPanel.pullRequestId pr) it)).
Proof.
  intros (Hs & Hc & Hcr & Hf & Hi & Hin & Hd & Hb) Ha Hb' Hq Hraw Hid.
  destruct a as [|ca a]; [contradiction|]. destruct b as [|cb b]; [contradiction|].
  destruct p0 as [rv sv sd sel cache cacheRepo fi hid ch infl deb bl].
  cbn in Hs, Hc, Hcr, Hf, Hin, Hd, Hb. subst.
  eexists _, _. split.
  { lazy -[JsText.ofInt ReviewPanel.makeLi ReviewPanel.cacheItems map
           ReviewPanel.trim ReviewPanel.toLowerCase].
    rewrite Hq, Hraw.
    lazy -[JsText.ofInt ReviewPanel.makeLi ReviewPanel.cacheItems map
           ReviewPanel.trim ReviewPanel.toLowerCase].
    reflexivity. }
  do 4 (split; [reflexivity|]).
  split; [reflexivity|]. split; [reflexivity|].
  intros page iterations adoToken it Hit.
  lazy -[JsText.ofInt ReviewPanel.latestIterationId ReviewClient.submitReview
         ReviewPanel.reviewRequest Z.eqb ReviewPanel.pullRequestId
         ReviewPanel.backendUrl ReviewPanel.clientKey].
  destruct (Z.eqb_spec (ReviewPanel.pullRequestId pr) 0); [contradiction|].
  now rewrite Hit.
Qed.

Lemma late_pull_requests_are_offered_under_the_new_repository_witness :
  exists p1 p2,
    ReviewPanel.run asciiHost freshPanel
      [ReviewPanel.RepoChange "repo-a"; ReviewPanel.Focus;
       ReviewPanel.RepoChange "repo-b";
       ReviewPanel.FetchDone 0 (Js.Normal (Some samplePrs))] = Some p1 /\
    ReviewPanel.repoValue p1 = "repo-b" /\
    ReviewPanel.prCacheRepoId p1 = Some "repo-a" /\
    ReviewPanel.hidden p1 = false /\
    ReviewPanel.children p1 =
      map ReviewPanel.makeLi
        ({| ReviewPanel.pullRequestId := 12; ReviewPanel.title := "Fix login" |}
         :: [{| ReviewPanel.pullRequestId := 7; ReviewPanel.title := "PR #7" |}]) /\
    ReviewPanel.step asciiHost p1 (ReviewPanel.MouseDown 0)
      = Some (ReviewPanel.prevent (ReviewPanel.done p2)) /\
    ReviewPanel.selectedPrId p2
      = Some (Some (ReviewPanel.pullRequestId
                      {| ReviewPanel.pullRequestId := 12;
                         ReviewPanel.title := "Fix login" |})) /\
    forall page iterations adoToken it,
      ReviewPanel.latestIterationId iterations = Some it ->
      ReviewPanel.onReviewClick page p2 (Js.Normal (iterations, adoToken)) =
      ReviewPanel.Posts
        (ReviewClient.submitReview (ReviewPanel.backendUrl page)
           (ReviewPanel.clientKey page) adoToken
           (ReviewPanel.reviewRequest page "repo-b"
              (ReviewPanel.pullRequestId
                 {| ReviewPanel.pullRequestId := 12;
                    ReviewPanel.title := "Fix login" |}) it)).
Proof.
  apply (late_pull_requests_are_offered_under_the_new_repository asciiHost freshPanel
           "repo-a" "repo-b" samplePrs
           {| ReviewPanel.pullRequestId := 12; ReviewPanel.title := "Fix login" |}
           [{| ReviewPanel.pullRequestId := 7; ReviewPanel.title := "PR #7" |}]).
  - repeat split.
  - discriminate.
  - discriminate.
  - reflexivity.
  - reflexivity.
  - simpl. discriminate.
Defined.

(** ** Polling for the result *)

Lemma pollLoop_decides (turns : list ReviewPolling.Turn) :
  forall (previous deadline : Z) (shown : option string),
    ReviewPolling.paced previous turns ->
    previous <= deadline ->
    deadline < previous + ReviewPolling.POLL_INTERVAL_MS * Z.of_nat (List.length turns) ->
    fst (ReviewPolling.pollLoop deadline shown turns) <> ReviewPolling.Sleeping.
Proof.
  unfold ReviewPolling.POLL_INTERVAL_MS.
  induction turns as [|t rest IH]; intros previous deadline shown Hp Hle Hd.
  - cbn [List.length] in Hd. lia.
  - destruct Hp as [Hfirst Hrest]. unfold ReviewPolling.POLL_INTERVAL_MS in Hfirst.
    cbn [ReviewPolling.pollLoop].
    destruct (Z.ltb_spec deadline (ReviewPolling.clockAt t)); [discriminate|].
    destruct (ReviewPolling.answer t) as [response|e]; [|discriminate].
    destruct (_ <- _ ;; _) as [[[status result] error]|e]; [|discriminate].
    destruct (_ && _); [discriminate|].
    destruct (ReviewPolling.isStr status "failed"); [discriminate|].
    apply (IH (ReviewPolling.clockAt t)); [exact Hrest | assumption |].
    cbn [List.length] in Hd. lia.
Qed.

(** X21.  Polling ends: when the clock readings of the turns follow each
    other by the three seconds the loop sleeps, the first not before the
    start, the call has returned or thrown by its 102nd reading at the
    latest, so it asks the backend at most 101 times. *)
Theorem polling_ends_within_the_time_limit
  (start : Z) (turns : list ReviewPolling.Turn) :
  ReviewPolling.paced (start - ReviewPolling.POLL_INTERVAL_MS) turns ->
  (101 < List.length turns)%nat ->
  fst (ReviewPolling.pollReview start turns) <> ReviewPolling.Sleeping.
Proof.
  intros Hp Hn. unfold ReviewPolling.pollReview.
  apply (pollLoop_decides turns (start - ReviewPolling.POLL_INTERVAL_MS)); auto.
  - unfold ReviewPolling.POLL_INTERVAL_MS, ReviewPolling.POLL_TIMEOUT_MS. lia.
  - unfold ReviewPolling.POLL_INTERVAL_MS, ReviewPolling.POLL_TIMEOUT_MS. lia.
Qed.

Lemma polling_ends_within_the_time_limit_witness :
  fst (ReviewPolling.pollReview 0 pendingTurns) <> ReviewPolling.Sleeping.
Proof.
  apply (polling_ends_within_the_time_limit 0 pendingTurns).
  - vm_compute. repeat split; discriminate.
  - vm_compute. lia.
Defined.

Example polling_a_pending_job_times_out :
  ReviewPolling.pollReview 0 pendingTurns
    = (ReviewPolling.TimedOut, Some "Waiting for agent…").
Proof. vm_compute. reflexivity. Qed.

(** X22.  The loop reads the backend's answers as the backend means them:
    polled with the record of a stored job before the deadline, it
    returns the job's result when the job is completed, throws the job's
    error text when it has failed, and otherwise shows the waiting text
    for pending or the reviewing text for processing and polls again.
    Whatever the configuration and the order in which the timers ran, a
    completed job has its result and a failed one its error, because the
    callback that sets the terminal status sets the result or the error
    with it; so neither case falls through. *)
Theorem polling_follows_the_backend_job
  (v : Variant) cfg (st : State) (id : string) (job : Job)
  (t : ReviewPolling.Turn) (rest : list ReviewPolling.Turn)
  (deadline : Z) (shown : option string) :
  reachable v cfg st ->
  JsMap.get (jobs st) id = Some job ->
  ReviewPolling.answer t = Js.Normal (BackendTs.jobToStatusResponse job) ->
  ReviewPolling.clockAt t <= deadline ->
  ReviewPolling.pollLoop deadline shown (t :: rest) =
    match status job with
    | completed => (ReviewPolling.Resolved (resultValue (result job)), shown)
    | failed => (ReviewPolling.ReviewFailed (strOrNull (error job)), shown)
    | processing =>
        ReviewPolling.pollLoop deadline (Some "Agent is reviewing your code…") rest
    | pending => ReviewPolling.pollLoop deadline (Some "Waiting for agent…") rest
    end /\
  (status job = completed -> result job <> None) /\
  (status job = failed -> error job <> None).
Proof.
  intros Hreach Hget Hans Hclock.
  pose proof (reachable_consistent v cfg st id job Hreach Hget) as Hwf.
  unfold consistent in Hwf.
  cbn [ReviewPolling.pollLoop]. rewrite Hans.
  destruct (Z.ltb_spec deadline (ReviewPolling.clockAt t)); [lia|].
  unfold BackendTs.jobToStatusResponse, BackendTs.jobToListItem.
  destruct (String.eqb (SIMULATE cfg) "fail"), (completedAt job),
           (status job), (result job) as [r|], (error job) as [e|];
    try discriminate Hwf;
    (split; [reflexivity | split; congruence]).
Qed.

Lemma polling_follows_the_backend_job_witness :
  ReviewPolling.pollLoop 300000 None
    [{| ReviewPolling.clockAt := 9000;
        ReviewPolling.answer := Js.Normal (BackendTs.jobToStatusResponse completedJob) |}] =
    match status completedJob with
    | completed => (ReviewPolling.Resolved (resultValue (result completedJob)), None)
    | failed => (ReviewPolling.ReviewFailed (strOrNull (error completedJob)), None)
    | processing =>
        ReviewPolling.pollLoop 300000 (Some "Agent is reviewing your code…") []
    | pending => ReviewPolling.pollLoop 300000 (Some "Waiting for agent…") []
    end /\
  (status completedJob = completed -> result completedJob <> None) /\
  (status completedJob = failed -> error completedJob <> None).
Proof.
  apply (polling_follows_the_backend_job Tls defaultConfig completedState sampleId1
           completedJob
           {| ReviewPolling.clockAt := 9000;
              ReviewPolling.answer :=
                Js.Normal (BackendTs.jobToStatusResponse completedJob) |}
           [] 300000 None).
  - exists completedRun. vm_compute. reflexivity.
  - vm_compute. reflexivity.
  - reflexivity.
  - vm_compute. discriminate.
Defined.

Example polling_the_completed_job_returns_its_result :
  status completedJob = completed /\
  fst (ReviewPolling.pollLoop 300000 None
         [{| ReviewPolling.clockAt := 9000;
             ReviewPolling.answer :=
               Js.Normal (BackendTs.jobToStatusResponse completedJob) |}])
    = ReviewPolling.Resolved (resultValue (Some BackendTs.MOCK_SUCCESS_RESULT)).
Proof. split; vm_compute; reflexivity. Qed.

(** ** The settings *)

Section SettingsFacts.

Import Settings.

Variable json : Json.

Lemma getValue_setValue_same (key : string) (value d : Js.value) (ls : LocalStorage) :
  getValue json key d (setValue json key value ls) =
  match parse json (stringify json value) with
  | Js.Normal v => v
  | Js.Throw _ => Js.Str (stringify json value)
  end.
Proof. unfold getValue, setValue. now rewrite get_set_same. Qed.

Lemma getValue_setValue_other (key key' : string) (value d : Js.value)
  (ls : LocalStorage) :
  key <> key' ->
  getValue json key' d (setValue json key value ls) = getValue json key' d ls.
Proof.
  intros Hne. unfold getValue, setValue. rewrite get_set_other; [reflexivity|].
  intros H. apply append_inj_l in H. contradiction.
Qed.

(** X23.  What the settings page saves is what the panels load: if the
    codec reads back the two strings it wrote, then after
    [saveSettings] the two settings are the saved strings, whatever the
    storage held before; every other item of the storage, the access
    token of the testbed among them, is left as it was; and the review panel takes the extension for configured exactly when
    neither string is empty.  An empty storage loads as two empty strings,
    which the panel takes for not configured. *)
Theorem saved_settings_are_loaded_back (u k : string) (ls : LocalStorage) :
  parse json (stringify json (Js.Str u)) = Js.Normal (Js.Str u) ->
  parse json (stringify json (Js.Str k)) = Js.Normal (Js.Str k) ->
  let saved := saveSettings json {| backendUrl := Js.Str u; clientKey := Js.Str k |} ls in
  loadSettings json saved = {| backendUrl := Js.Str u; clientKey := Js.Str k |} /\
  (configured (loadSettings json saved) = true <-> u <> "" /\ k <> "") /\
  (forall item, item <> "ado-ext:backendUrl" -> item <> "ado-ext:clientKey" ->
                JsMap.get saved item = JsMap.get ls item) /\
  getAccessToken saved = getAccessToken ls /\
  loadSettings json JsMap.empty = {| backendUrl := Js.Str ""; clientKey := Js.Str "" |} /\
  configured (loadSettings json JsMap.empty) = false.
Proof.
  intros Hu Hk saved.
  assert (Hload : loadSettings json saved
                  = {| backendUrl := Js.Str u; clientKey := Js.Str k |}).
  { unfold loadSettings, saved, saveSettings. cbn [backendUrl clientKey].
    rewrite getValue_setValue_same, Hk.
    rewrite getValue_setValue_other by discriminate.
    now rewrite getValue_setValue_same, Hu. }
  repeat split.
  - exact Hload.
  - rewrite Hload in H. unfold configured in H. cbn in H.
    apply andb_true_iff in H. now apply nonEmpty_spec.
  - rewrite Hload in H. unfold configured in H. cbn in H.
    apply andb_true_iff in H. now apply nonEmpty_spec.
  - intros [Hu' Hk']. rewrite Hload. unfold configured. cbn.
    apply nonEmpty_spec in Hu', Hk'. now rewrite Hu', Hk'.
  - intros item H1 H2. unfold saved, saveSettings, setValue.
    rewrite get_set_other; [rewrite get_set_other; [reflexivity|]|];
      intros E; [apply H1 | apply H2]; now rewrite <- E.
  - unfold getAccessToken, saved, saveSettings, setValue.
    rewrite !get_set_other by discriminate. reflexivity.
Qed.

End SettingsFacts.

Lemma saved_settings_are_loaded_back_witness :
  let saved :=
    Settings.saveSettings sampleJson
      {| Settings.backendUrl := Js.Str "https://localhost:31001";
         Settings.clientKey := Js.Str "test-client-key" |}
      [("ado-ext:backendUrl", "old"); ("testbed:adoToken", "secret")] in
  Settings.loadSettings sampleJson saved
    = {| Settings.backendUrl := Js.Str "https://localhost:31001";
         Settings.clientKey := Js.Str "test-client-key" |} /\
  (Settings.configured (Settings.loadSettings sampleJson saved) = true <->
   "https://localhost:31001" <> "" /\ "test-client-key" <> "") /\
  (forall item, item <> "ado-ext:backendUrl" -> item <> "ado-ext:clientKey" ->
     JsMap.get saved item =
     JsMap.get [("ado-ext:backendUrl", "old"); ("testbed:adoToken", "secret")] item) /\
  Settings.getAccessToken saved =
  Settings.getAccessToken
    [("ado-ext:backendUrl", "old"); ("testbed:adoToken", "secret")] /\
  Settings.loadSettings sampleJson JsMap.empty
    = {| Settings.backendUrl := Js.Str ""; Settings.clientKey := Js.Str "" |} /\
  Settings.configured (Settings.loadSettings sampleJson JsMap.empty) = false.
Proof.
  apply (saved_settings_are_loaded_back sampleJson
           "https://localhost:31001" "test-client-key"
           [("ado-ext:backendUrl", "old"); ("testbed:adoToken", "secret")]);
    reflexivity.
Defined.

(** ** The certificate across restarts *)

Lemma cert_key_paths_differ (w : Cert.World) : Cert.CERT_FILE w <> Cert.KEY_FILE w.
Proof.
  unfold Cert.CERT_FILE, Cert.KEY_FILE, Cert.path_join. intros H.
  apply append_inj_l in H. discriminate.
Qed.

Lemma reuse_when_valid (w : Cert.World) (certPem keyPem text : string) :
  Cert.existsSync w (Cert.CERT_FILE w) = true ->
  Cert.existsSync w (Cert.KEY_FILE w) = true ->
  Cert.readFileSync w (Cert.CERT_FILE w) = Js.Normal certPem ->
  Cert.readFileSync w (Cert.KEY_FILE w) = Js.Normal keyPem ->
  Cert.X509Certificate_validTo w certPem = Js.Normal text ->
  Cert.dateGt (Cert.Date_parse w text)
    (Cert.Date_now w + Cert.RENEW_BEFORE_DAYS * 24 * 60 * 60 * 1000) = true ->
  Cert.loadOrGenerateCert w =
    (Js.Normal {| Cert.cert := certPem; Cert.key := keyPem |}, []).
Proof.
  intros He1 He2 Hc Hk Hx Hd. unfold Cert.loadOrGenerateCert, Cert.tryReuse.
  rewrite He1, He2, Hc. cbn [andb Js.bind]. rewrite Hx. cbn [Js.bind].
  rewrite Hd, Hk. reflexivity.
Qed.

(** A start that cannot read one of the two files does not return without
    writing. *)
Lemma no_reuse_when_unreadable (w : Cert.World) (m : Cert.Material) :
  Cert.readable (Cert.readFileSync w (Cert.CERT_FILE w)) &&
  Cert.readable (Cert.readFileSync w (Cert.KEY_FILE w)) = false ->
  Cert.loadOrGenerateCert w <> (Js.Normal m, []).
Proof.
  intros Hun. unfold Cert.loadOrGenerateCert. cbv zeta. rewrite (reuse_decided w).
  assert (Hc : Cert.specReuse w && Cert.readable (Cert.readFileSync w (Cert.KEY_FILE w))
               = false).
  { unfold Cert.specReuse.
    destruct (Cert.readFileSync w (Cert.CERT_FILE w)),
             (Cert.readFileSync w (Cert.KEY_FILE w));
      cbn [Cert.readable andb] in *; try discriminate;
      now rewrite ?andb_false_r. }
  rewrite Hc.
  destruct (Cert.writeFileSync w (Cert.CERT_FILE w) _); [|discriminate].
  destruct (Cert.writeFileSync w (Cert.KEY_FILE w) _); discriminate.
Qed.

(** X24.  When a start has returned a certificate and a key, a later start
    that finds the files as the first one left them, at a time when that
    certificate is still valid for more than 30 days, returns the same
    pair and writes nothing exactly when the first start reused the pair
    or each of the two files was absent before it or could be read.  A
    file that was there and could not be read is overwritten but keeps its
    mode, so the later start cannot read it either and generates
    again. *)
Theorem a_later_start_reuses_the_pair
  (w : Cert.World) (clock : Z) (text : string)
  (m : Cert.Material) (ws : list Cert.Write) :
  Cert.loadOrGenerateCert w = (Js.Normal m, ws) ->
  Cert.X509Certificate_validTo w (Cert.cert m) = Js.Normal text ->
  Cert.dateGt (Cert.Date_parse w text)
    (clock + Cert.RENEW_BEFORE_DAYS * 24 * 60 * 60 * 1000) = true ->
  (Cert.loadOrGenerateCert (restarted w ws clock) = (Js.Normal m, []) <->
   ws = [] \/
   absentOrReadable w (Cert.CERT_FILE w) && absentOrReadable w (Cert.KEY_FILE w) = true).
Proof.
  pose proof (cert_key_paths_differ w) as Hne.
  assert (Hne' : String.eqb (Cert.CERT_FILE w) (Cert.KEY_FILE w) = false)
    by now apply String.eqb_neq.
  assert (Hne2 : String.eqb (Cert.KEY_FILE w) (Cert.CERT_FILE w) = false)
    by (apply String.eqb_neq; congruence).
  unfold Cert.loadOrGenerateCert at 1. cbv zeta. rewrite (reuse_decided w).
  destruct (Cert.specReuse w && Cert.readable (Cert.readFileSync w (Cert.KEY_FILE w)))
    eqn:Hcond.
  - (* reused: the files are as the first start found them *)
    apply andb_prop in Hcond. destruct Hcond as [Hs Hr].
    unfold Cert.specReuse in Hs.
    destruct (Cert.existsSync w (Cert.CERT_FILE w)) eqn:He1; [|discriminate].
    destruct (Cert.existsSync w (Cert.KEY_FILE w)) eqn:He2; [|discriminate].
    destruct (Cert.readFileSync w (Cert.CERT_FILE w)) as [certPem|e] eqn:Hc;
      [|discriminate].
    destruct (Cert.readFileSync w (Cert.KEY_FILE w)) as [keyPem|e] eqn:Hk;
      [|discriminate].
    intros [= <- <-] Hx Hd. cbn [Cert.cert] in Hx.
    split; [intros _; now left|intros _].
    apply (reuse_when_valid _ _ _ text); auto.
  - destruct (Cert.writeFileSync w (Cert.CERT_FILE w) _); [|discriminate].
    destruct (Cert.writeFileSync w (Cert.KEY_FILE w) _); [|discriminate].
    intros [= <- <-] Hx Hd. cbn [Cert.cert] in Hx.
    set (ws := [_; _]).
    assert (Hlc : lastWritten (Cert.CERT_FILE w) ws =
                  Some (Cert.pemCert (Cert.generate w Cert.attributes Cert.options))).
    { unfold ws. cbn [lastWritten Cert.path Cert.data].
      now rewrite Hne', String.eqb_refl. }
    assert (Hlk : lastWritten (Cert.KEY_FILE w) ws =
                  Some (Cert.pemPrivate (Cert.generate w Cert.attributes Cert.options))).
    { unfold ws. cbn [lastWritten Cert.path Cert.data].
      now rewrite String.eqb_refl. }
    assert (Hrc : Cert.readFileSync (restarted w ws clock) (Cert.CERT_FILE w) =
                  if absentOrReadable w (Cert.CERT_FILE w)
                  then Js.Normal (Cert.pemCert (Cert.generate w Cert.attributes Cert.options))
                  else Cert.readFileSync w (Cert.CERT_FILE w)).
    { unfold restarted, absentOrReadable. cbn [Cert.readFileSync]. rewrite Hlc.
      destruct (Cert.existsSync w (Cert.CERT_FILE w)); [|reflexivity].
      now destruct (Cert.readFileSync w (Cert.CERT_FILE w)). }
    assert (Hrk : Cert.readFileSync (restarted w ws clock) (Cert.KEY_FILE w) =
                  if absentOrReadable w (Cert.KEY_FILE w)
                  then Js.Normal (Cert.pemPrivate (Cert.generate w Cert.attributes Cert.options))
                  else Cert.readFileSync w (Cert.KEY_FILE w)).
    { unfold restarted, absentOrReadable. cbn [Cert.readFileSync]. rewrite Hlk.
      destruct (Cert.existsSync w (Cert.KEY_FILE w)); [|reflexivity].
      now destruct (Cert.readFileSync w (Cert.KEY_FILE w)). }
    split.
    + intros Hre. right.
      destruct (absentOrReadable w (Cert.CERT_FILE w)) eqn:Ha;
        [destruct (absentOrReadable w (Cert.KEY_FILE w)) eqn:Hb; [reflexivity|]|];
        exfalso; revert Hre; apply no_reuse_when_unreadable;
        change (Cert.CERT_FILE (restarted w ws clock)) with (Cert.CERT_FILE w);
        change (Cert.KEY_FILE (restarted w ws clock)) with (Cert.KEY_FILE w);
        rewrite Hrc, Hrk, ?Ha, ?Hb.
      * unfold absentOrReadable in Hb. apply orb_false_elim in Hb.
        destruct Hb as [_ ->]. now rewrite andb_false_r.
      * unfold absentOrReadable in Ha. apply orb_false_elim in Ha.
        destruct Ha as [_ ->]. reflexivity.
    + intros [Hempty|Hab]; [discriminate Hempty|].
      apply andb_prop in Hab. destruct Hab as [Ha Hb].
      rewrite Ha in Hrc. rewrite Hb in Hrk.
      apply (reuse_when_valid _ _ _ text);
        change (Cert.CERT_FILE (restarted w ws clock)) with (Cert.CERT_FILE w);
        change (Cert.KEY_FILE (restarted w ws clock)) with (Cert.KEY_FILE w);
        auto;
        unfold restarted; cbn [Cert.existsSync]; now rewrite ?Hlc, ?Hlk.
Qed.

Lemma a_later_start_reuses_the_pair_witness :
  let m := {| Cert.cert := "NEW CERTIFICATE"; Cert.key := "NEW KEY" |} in
  let ws := snd (Cert.loadOrGenerateCert emptyDirWorld) in
  Cert.loadOrGenerateCert (restarted emptyDirWorld ws 1722506400000) = (Js.Normal m, []) <->
  ws = [] \/
  absentOrReadable emptyDirWorld (Cert.CERT_FILE emptyDirWorld) &&
  absentOrReadable emptyDirWorld (Cert.KEY_FILE emptyDirWorld) = true.
Proof.
  apply (a_later_start_reuses_the_pair emptyDirWorld 1722506400000
           "May  1 10:00:00 2025 GMT"); reflexivity.
Defined.

Example first_start_generates_and_second_reuses :
  Cert.loadOrGenerateCert emptyDirWorld
    = (Js.Normal {| Cert.cert := "NEW CERTIFICATE"; Cert.key := "NEW KEY" |},
       [{| Cert.path := "/testbed/localhost-cert.pem"; Cert.data := "NEW CERTIFICATE";
           Cert.mode := 384 |};
        {| Cert.path := "/testbed/localhost-key.pem"; Cert.data := "NEW KEY";
           Cert.mode := 384 |}]) /\
  Cert.loadOrGenerateCert
    (restarted emptyDirWorld (snd (Cert.loadOrGenerateCert emptyDirWorld)) 1722506400000)
    = (Js.Normal {| Cert.cert := "NEW CERTIFICATE"; Cert.key := "NEW KEY" |}, []).
Proof. split; reflexivity. Qed.

(** A key file that is there and cannot be read stays unreadable when it
    is overwritten: every start generates and writes a new pair. *)
Example unreadable_key_is_regenerated_at_every_start :
  let ws := snd (Cert.loadOrGenerateCert keyUnreadableWorld) in
  absentOrReadable keyUnreadableWorld (Cert.KEY_FILE keyUnreadableWorld) = false /\
  Cert.readable
    (Cert.readFileSync (restarted keyUnreadableWorld ws 1714557600000)
       (Cert.KEY_FILE keyUnreadableWorld)) = false /\
  List.length (snd (Cert.loadOrGenerateCert
                      (restarted keyUnreadableWorld ws 1714557600000))) = 2%nat.
Proof. repeat split; vm_compute; reflexivity. Qed.

(** * Where the code departs from the specification *)

(** C1, on the failing input.  Started with [DELAY_MS=3000000000], a delay
    beyond the largest a timer takes, the second timer of a job runs with
    delay 1 and so before the first.  After both have run the record has
    status processing together with a result and a completion time. *)
Theorem overflowing_delay_leaves_a_processing_job_with_a_result (v : Variant) :
  exists st j,
    run v overflowConfig initialState overflowRun = Some st /\
    JsMap.get (jobs st) sampleId1 = Some j /\
    status j = processing /\
    result j = Some BackendTs.MOCK_SUCCESS_RESULT /\
    error j = None /\
    completedAt j = Some "2024-05-01T10:00:00.001Z" /\
    wellFormed j = false.
Proof.
  destruct v; eexists; eexists; (split; [vm_compute; reflexivity|]); repeat split.
Qed.

(** C2, on the failing input.  With the same start-up the timers of the job
    are due at 2000 (first) and 1 (second); the statuses seen after each
    event are pending, completed, processing: the second timer runs first
    and the first then takes the job out of a terminal state. *)
Theorem overflowing_delay_runs_the_terminal_timer_first (v : Variant) :
  DELAY_MS overflowConfig = Some 3000000000 /\
  option_map (fun st => map (fun t => (callback t, due t)) (timers st))
    (run v overflowConfig initialState (firstn 1 overflowRun)) =
    Some [(ToProcessing sampleId1, 2000); (ToTerminal sampleId1, 1)] /\
  statusTrace v overflowConfig initialState overflowRun sampleId1 =
    [Some pending; Some completed; Some processing] /\
  mayFollow (Some pending) (Some completed) = false /\
  mayFollow (Some completed) (Some processing) = false.
Proof. destruct v; repeat split. Qed.

(** C3, on the failing input.  A submission with the right key whose
    payload is the JSON text [null] parses, is not replaced by the empty
    object, and the first property read on it throws: the handler dies
    without sending 422 or any other response. *)
Theorem null_body_submission_dies_unanswered (v : Variant) cfg uuid now st :
  handleRequest v cfg (submit (Some (CLIENT_KEY cfg)) (Some Js.Null)) uuid now st =
  (Uncaught "TypeError: Cannot read properties of null", st).
Proof.
  destruct v; unfold handleRequest, BackendJs.handleRequest, BackendTs.handleRequest,
    BackendJs.route, BackendTs.route, BackendJs.checkAuth, BackendTs.checkAuth; simpl;
    rewrite String.eqb_refl; reflexivity.
Qed.

(** C10, on the failing input.  The JSON body [null] holds none of the five
    required keys, yet the submission is not answered 422: it is not
    answered at all. *)
Theorem null_body_lacks_every_key_and_gets_no_422 (v : Variant) cfg uuid now st :
  missingOf Js.Null = BackendTs.required /\
  observe (fst (handleRequest v cfg (submit (Some (CLIENT_KEY cfg)) (Some Js.Null))
                  uuid now st)) = None.
Proof.
  split; [reflexivity|].
  destruct v; unfold handleRequest, BackendJs.handleRequest, BackendTs.handleRequest,
    BackendJs.route, BackendTs.route, BackendJs.checkAuth, BackendTs.checkAuth; simpl;
    rewrite String.eqb_refl; reflexivity.
Qed.
